(** * Continuous Claude: the iteration loop, the stop evaluator, the
      pull-request tracker and the push retry executor

    A shallow embedding of the Go sources

      - [internal/config/config.go]             (module [Config])
      - [internal/claude/claude.go]             (module [Claude])
      - package [git]: [Push], [PushWithRetry], [isNetworkError],
        [GenerateBranchName]                    (module [Git])
      - package [github]: [GetPRStatus], [WaitForChecks],
        [hasStatusChanged], [GetPRNumber]       (module [Github])
      - [internal/orchestrator/orchestrator.go] (module [Orchestrator])
      - [Config.Validate]                       (module [ConfigChecks])
      - package [tmux]: [sanitizePrompt],
        [GenerateSessionName]                   (module [Tmux])
      - package [version]: [Compare],
        [parseSemver]                           (module [Version])

    Go [int] and [time.Duration] are 64-bit signed integers: they are
    modelled as [Z] and every arithmetic operation of the source is followed
    by [wrap64].  Go [float64] is Rocq's primitive binary64 [float].  Go
    strings are byte strings: [string].  A Go [error] is modelled by its
    message ([err.Error()]); [nil] is [None].

    External collaborators (the [git], [gh] and [claude] processes, the
    clock) are oracles: records of replies, indexed by call number where a
    call is repeated.  Every function returns, next to its Go results, the
    chronological list of the external calls it made.  Of the terminal
    output, the log lines of the iteration driver (info, success, warning,
    error) are recorded; spinners, boxes, the cost and duration lines and
    [printConfig] only draw and are left out. *)

From Stdlib Require Import ZArith String Ascii List Bool Lia.
From Stdlib Require Import DecimalString.
From Stdlib Require DecimalPos DecimalZ.
From Stdlib Require Import Floats.PrimFloat.
From Stdlib Require Floats.FloatAxioms.
Import ListNotations.

Local Open Scope string_scope.
Local Open Scope Z_scope.

(** ** Go base types *)

Module GoInt.

Definition MinInt64 : Z := - 2 ^ 63.
Definition MaxInt64 : Z := 2 ^ 63 - 1.

(** Two's complement wrap-around of a 64-bit signed integer. *)
Definition wrap64 (z : Z) : Z := (z + 2 ^ 63) mod 2 ^ 64 - 2 ^ 63.

Definition inRange (z : Z) : Prop := MinInt64 <= z <= MaxInt64.

(** [fmt.Sprintf("%d", z)]. *)
Definition itoa (z : Z) : string := NilZero.string_of_int (Z.to_int z).

End GoInt.

(** [T, error] results of the collaborators. *)
Inductive result (A : Type) : Type :=
| Ok (a : A)
| Err (e : string).
Arguments Ok {A} a.
Arguments Err {A} e.

Module Strings.

(** The line feed and the double quote, which string literals cannot hold. *)
Definition LF : string := String (ascii_of_nat 10) EmptyString.
Definition DQ : string := String (ascii_of_nat 34) EmptyString.

Definition isEmpty (s : string) : bool :=
  match s with EmptyString => true | String _ _ => false end.

(** [strings.HasPrefix(s, prefix)]. *)
Fixpoint HasPrefix (s prefix : string) : bool :=
  match prefix, s with
  | EmptyString, _ => true
  | String _ _, EmptyString => false
  | String c p, String d s' => Ascii.eqb c d && HasPrefix s' p
  end.

(** [strings.Contains(s, substr)]: [substr] occurs at some byte offset of
    [s]. *)
Fixpoint Contains (s substr : string) : bool :=
  HasPrefix s substr ||
  match s with
  | EmptyString => false
  | String _ s' => Contains s' substr
  end.

(** The text after the last occurrence of the byte [sep]: the last element
    of [strings.Split(s, sep)]. *)
Fixpoint lastField (sep : ascii) (s : string) (acc : string) : string :=
  match s with
  | EmptyString => acc
  | String c s' =>
      if Ascii.eqb c sep then lastField sep s' EmptyString
      else lastField sep s' (acc ++ String c EmptyString)
  end.

End Strings.

(** ** Library functions taken as parameters

    [strings.TrimSpace], [encoding/json] and [time.Duration.String] belong to
    the Go standard library, not to this repository. *)

(** The anonymous struct decoded from one element of the agent's output. *)
Record JsonItem : Type := mkJsonItem {
  item_Type : string;
  item_Result : string;
  item_Cost : float;
  item_IsError : bool
}.

Class GoLib : Type := mkGoLib {
  (** [strings.TrimSpace] *)
  TrimSpace : string -> string;
  (** [json.Unmarshal] into [[]json.RawMessage]; [None] on error *)
  unmarshalArray : string -> option (list string);
  (** [json.Unmarshal] into the item struct (type, result, total_cost_usd,
      is_error); [None] on error *)
  unmarshalItem : string -> option JsonItem;
  (** [json.Unmarshal] into the single-object struct (result,
      total_cost_usd, is_error), which has no type field: [item_Type] of the
      reply is not read; [None] on error *)
  unmarshalSingle : string -> option JsonItem;
  (** the [total_cost_usd] field left in the target by an unchecked
      [json.Unmarshal] *)
  unmarshalCost : string -> float;
  (** [time.Duration.String], the [%s] rendering of a duration *)
  durationString : Z -> string
}.

(** ** internal/config/config.go *)

Module Config.

(** The fields of [config.Config] read by the loop. *)
Record Config : Type := mkConfig {
  Prompt : string;
  MaxRuns : Z;
  MaxCost : float;
  MaxDuration : Z;
  MergeStrategy : string;
  GitBranchPrefix : string;
  DisableCommits : bool;
  DryRun : bool;
  CompletionSignal : string;
  CompletionThreshold : Z
}.

Definition HasMaxRuns (c : Config) : bool := 0 <? MaxRuns c.

Definition HasMaxCost (c : Config) : bool := PrimFloat.ltb 0%float (MaxCost c).

Definition HasMaxDuration (c : Config) : bool := 0 <? MaxDuration c.

End Config.

(** ** internal/claude/claude.go *)

(** What [exec.Cmd.Run] leaves behind: its error and the two captured
    streams. *)
Record ProcResult : Type := mkProcResult {
  proc_err : option string;
  proc_stdout : string;
  proc_stderr : string
}.

Module Claude.

Record Result : Type := mkResult {
  Output : string;
  Cost : float;
  IsError : bool;
  RawOutput : string
}.

(** The zero value of [Result]. *)
Definition zeroResult : Result := mkResult EmptyString 0%float false EmptyString.

Definition setOutput (r : Result) (o : string) : Result :=
  mkResult o (Cost r) (IsError r) (RawOutput r).

Definition setCost (r : Result) (c : float) : Result :=
  mkResult (Output r) c (IsError r) (RawOutput r).

Definition setIsError (r : Result) (b : bool) : Result :=
  mkResult (Output r) (Cost r) b (RawOutput r).

Section WithLib.
Context {L : GoLib}.

(** The backwards scan of [parseClaudeOutput] for the last text result;
    [items] is the array from its last element to its first. *)
Fixpoint findResult (items : list string) : option JsonItem :=
  match items with
  | [] => None
  | raw :: rest =>
      match unmarshalItem raw with
      | Some item =>
          if String.eqb (item_Type item) "result"
             || negb (Strings.isEmpty (item_Result item))
          then Some item
          else findResult rest
      | None => findResult rest
      end
  end.

(** [parseClaudeOutput(output, result)]: the updated [*result] and the
    returned error. *)
Definition parseClaudeOutput (output : string) (r : Result)
  : Result * option string :=
  let output := TrimSpace output in
  if Strings.isEmpty output then (r, Some "empty output")
  else
    match unmarshalArray output with
    | Some (first :: more) =>
        let arrayResult := first :: more in
        match findResult (rev arrayResult) with
        | Some item =>
            (mkResult (item_Result item) (item_Cost item)
                      (item_IsError item) (RawOutput r), None)
        | None =>
            (setCost r (unmarshalCost (last arrayResult first)), None)
        end
    | _ =>
        match unmarshalSingle output with
        | Some single =>
            (mkResult (item_Result single) (item_Cost single)
                      (item_IsError single) (RawOutput r), None)
        | None => (r, Some "could not parse output as JSON")
        end
    end.

(** [Client.Run(prompt)], given what the [claude] process did. *)
Definition Run (proc : ProcResult) : Result * option string :=
  let err := proc_err proc in
  let rawOutput := proc_stdout proc in
  let result := mkResult EmptyString 0%float false rawOutput in
  let result :=
    if negb (Strings.isEmpty rawOutput) then
      match parseClaudeOutput rawOutput result with
      | (_, Some _) => setOutput result rawOutput
      | (parsed, None) => parsed
      end
    else result in
  match err with
  | Some _ =>
      let result := setIsError result true in
      let result :=
        if 0 <? Z.of_nat (String.length (proc_stderr proc))
        then setOutput result (proc_stderr proc)
        else result in
      (result, None)
  | None => (result, None)
  end.

(** [Client.RunCommit()], given what the [claude] process did. *)
Definition RunCommit (proc : ProcResult) : result string :=
  match proc_err proc with
  | Some e => Err ("failed to run Claude commit: " ++ e)
  | None =>
      match parseClaudeOutput (proc_stdout proc) zeroResult with
      | (_, Some _) => Ok (proc_stdout proc)
      | (parsed, None) => Ok (Output parsed)
      end
  end.

End WithLib.

(** [BuildPrompt(userPrompt, notesContent, completionSignal, iteration)]. *)
Definition BuildPrompt (userPrompt notesContent completionSignal : string)
           (iteration : Z) : string :=
  let LF := Strings.LF in
  ("## CONTINUOUS WORKFLOW CONTEXT" ++ LF ++ LF)
  ++ ("This is part of a **continuous development loop** - you are one runner in a relay race." ++ LF)
  ++ ("Your work will be committed, reviewed via PR, and then the next iteration will continue from where you left off." ++ LF ++ LF)
  ++ ("**Key Points:**" ++ LF)
  ++ "- You are iteration #"
  ++ GoInt.itoa iteration
  ++ LF
  ++ ("- Focus on making incremental progress - you don't need to complete everything in one go" ++ LF)
  ++ ("- Your changes will be committed and a PR created automatically" ++ LF)
  ++ ("- The next iteration will continue your work based on the notes you leave" ++ LF ++ LF)
  ++ (if negb (Strings.isEmpty completionSignal) then
        "**Project Completion Signal**: If you believe the ENTIRE project goal has been fully achieved "
        ++ ("and no more iterations are needed, include this exact phrase in your response: " ++ Strings.DQ)
        ++ completionSignal
        ++ (Strings.DQ ++ LF ++ LF)
      else EmptyString)
  ++ ("---" ++ LF ++ LF)
  ++ ("## PRIMARY GOAL" ++ LF ++ LF)
  ++ userPrompt
  ++ (LF ++ LF)
  ++ (if negb (Strings.isEmpty notesContent) then
        ("---" ++ LF ++ LF)
        ++ ("## CONTEXT FROM PREVIOUS ITERATION" ++ LF ++ LF)
        ++ ("The following is from SHARED_TASK_NOTES.md - these are notes left by the previous iteration:" ++ LF ++ LF)
        ++ ("```" ++ LF)
        ++ notesContent
        ++ (LF ++ "```" ++ LF ++ LF)
      else EmptyString)
  ++ ("---" ++ LF ++ LF)
  ++ ("## ITERATION NOTES" ++ LF ++ LF)
  ++ ("Before completing your work, update the `SHARED_TASK_NOTES.md` file with:" ++ LF)
  ++ ("1. What you accomplished this iteration" ++ LF)
  ++ ("2. What the next iteration should focus on" ++ LF)
  ++ ("3. Any important context or decisions made" ++ LF)
  ++ ("4. Known issues or blockers" ++ LF ++ LF)
  ++ ("**Keep notes concise and actionable** - no verbose logs, just key information for the next iteration." ++ LF).

(** [ContainsCompletionSignal(output, signal)]. *)
Definition ContainsCompletionSignal (output signal : string) : bool :=
  if Strings.isEmpty signal then false
  else Strings.Contains output signal.

End Claude.

(** ** External calls, in the order they are made *)

Inductive Level : Type := Info | Success | Warning | Error.

(** The reason returned by [checkStopConditions]; its text is
    ["reached max iterations (%d)"], ["reached max cost ($%.2f)"],
    ["reached max duration (%s)"] of the configured ceiling, or
    ["project completion signal detected"]. *)
Inductive StopReason : Type :=
| ReachedMaxIterations (maxRuns : Z)
| ReachedMaxCost (maxCost : float)
| ReachedMaxDuration (maxDuration : Z)
| CompletionSignalDetected.

Inductive Event : Type :=
| EvCreateBranch (name : string)
| EvSwitchBranch (name : string)
| EvDeleteBranch (name : string)
| EvStageAll
| EvHasChanges
| EvPush (branch : string)
| EvPull (branch : string)
| EvGetLastCommitTitle
| EvGetLastCommitMessage
| EvSleep (d : Z)
| EvNotesRead
| EvClaudeRun (prompt : string)
| EvClaudeRunCommit
| EvCreatePR (title body base : string)
| EvGetPRStatus (prNumber : string)
| EvStatusChange (allPassed hasPending hasFailed : bool) (review : string)
| EvClosePR (prNumber : string) (deleteBranch : bool)
| EvMergePR (prNumber strategy : string)
| EvUi (level : Level) (msg : string)
| EvStopping (reason : option StopReason)
| EvSummary (iterations : Z) (totalCost : float) (elapsed : Z) (completed : bool).

(** ** Package git *)

Module Git.

(** [time.Second], in nanoseconds. *)
Definition Second : Z := 1000000000.

Definition isNetworkError (err : option string) : bool :=
  match err with
  | None => false
  | Some errStr =>
      Strings.Contains errStr "Could not resolve host"
      || Strings.Contains errStr "Connection refused"
      || Strings.Contains errStr "Network is unreachable"
      || Strings.Contains errStr "Connection timed out"
      || Strings.Contains errStr "SSL"
      || Strings.Contains errStr "443"
  end.

(** How the [for] loop of [PushWithRetry] is left. *)
Inductive LoopExit : Type :=
| ReturnedInside (err : option string)
| FellThrough (lastErr : option string).

Section WithPush.
(** [push i] is the reply of the call of [c.Push(branch)] made with loop
    index [i]: [None] for success, [Some e] for an error with message
    [e]. *)
Variable push : nat -> option string.
Variable branch : string.

(** The loop [for i := 0; i <= maxRetries; i++] from index [i] on, with
    [n] runs of the body left before its condition fails. *)
Fixpoint pushLoop (n : nat) (i : nat) (backoff : Z) (lastErr : option string)
  : LoopExit * list Event :=
  match n with
  | O => (FellThrough lastErr, [])
  | S n' =>
      let slept := if (0 <? i)%nat then [EvSleep backoff] else [] in
      let backoff := if (0 <? i)%nat then GoInt.wrap64 (backoff * 2) else backoff in
      match push i with
      | None => (ReturnedInside None, (slept ++ [EvPush branch])%list)
      | Some e =>
          if negb (isNetworkError (Some e))
          then (ReturnedInside (Some e), (slept ++ [EvPush branch])%list)
          else
            let '(r, evs) := pushLoop n' (S i) backoff (Some e) in
            (r, (slept ++ EvPush branch :: evs)%list)
      end
  end.

(** [Client.PushWithRetry(branch, maxRetries)].  The body runs
    [maxRetries + 1] times unless it returns; the counter [i] stays
    below [MaxInt64] for every [maxRetries < MaxInt64]. *)
Definition PushWithRetry (maxRetries : Z) : option string * list Event :=
  match pushLoop (Z.to_nat (maxRetries + 1)) 0 (2 * Second) None with
  | (ReturnedInside err, evs) => (err, evs)
  | (FellThrough lastErr, evs) =>
      (Some ("push failed after " ++ GoInt.itoa maxRetries ++ " retries: "
             ++ match lastErr with
                | Some e => e
                | None => "%!w(<nil>)"
                end),
       evs)
  end.

End WithPush.

(** [Client.GenerateBranchName(prefix, iteration)], given the formatted
    date and the random hexadecimal suffix. *)
Definition GenerateBranchName (date hash prefix : string) (iteration : Z) : string :=
  prefix ++ "iteration-" ++ GoInt.itoa iteration ++ "/" ++ date ++ "-" ++ hash.

End Git.

(** ** Package github *)

Module Github.

Record PRCheck : Type := mkPRCheck {
  Name : string;
  State : string;
  Bucket : string
}.

Record PRStatus : Type := mkPRStatus {
  Checks : list PRCheck;
  ReviewDecision : string;
  IsMergeable : bool;
  AllChecksPassed : bool;
  HasPendingChecks : bool;
  HasFailedChecks : bool
}.

Definition setHasPendingChecks (s : PRStatus) (b : bool) : PRStatus :=
  mkPRStatus (Checks s) (ReviewDecision s) (IsMergeable s) (AllChecksPassed s)
             b (HasFailedChecks s).

Definition setHasFailedChecks (s : PRStatus) (b : bool) : PRStatus :=
  mkPRStatus (Checks s) (ReviewDecision s) (IsMergeable s) (AllChecksPassed s)
             (HasPendingChecks s) b.

(** [GetPRNumber(prURL)]. *)
Definition GetPRNumber (prURL : string) : string :=
  Strings.lastField "/"%char prURL EmptyString.

(** A [case] list of the [switch] on [check.State]. *)
Definition oneOf (s : string) (cases : list string) : bool :=
  existsb (String.eqb s) cases.

Definition passedStates : list string := ["SUCCESS"; "NEUTRAL"; "SKIPPED"].
Definition pendingStates : list string := ["PENDING"; "QUEUED"; "IN_PROGRESS"].
Definition failedStates : list string :=
  ["FAILURE"; "ERROR"; "CANCELLED"; "TIMED_OUT"; "ACTION_REQUIRED"].

(** One run of the body of the loop [for _, check := range checks]. *)
Definition analyzeCheck (status : PRStatus) (check : PRCheck) : PRStatus :=
  if oneOf (State check) passedStates then status
  else if oneOf (State check) pendingStates then setHasPendingChecks status true
  else if oneOf (State check) failedStates then setHasFailedChecks status true
  else status.

(** [Client.GetPRStatus(prNumber)], given the replies of [GetPRChecks] and
    [GetPRReviewDecision]. *)
Definition GetPRStatus (checksReply : result (list PRCheck))
           (reviewReply : result string) : result PRStatus :=
  match checksReply with
  | Err e => Err e
  | Ok checks =>
      match reviewReply with
      | Err e => Err e
      | Ok reviewDecision =>
          let status := mkPRStatus checks reviewDecision false false false false in
          let status := fold_left analyzeCheck checks status in
          let allChecksPassed :=
            (Z.of_nat (length checks) =? 0)
            || (negb (HasPendingChecks status) && negb (HasFailedChecks status)) in
          let isMergeable :=
            allChecksPassed
            && (String.eqb reviewDecision EmptyString
                || String.eqb reviewDecision "APPROVED") in
          Ok (mkPRStatus (Checks status) (ReviewDecision status) isMergeable
                         allChecksPassed (HasPendingChecks status)
                         (HasFailedChecks status))
      end
  end.

Definition hasStatusChanged (old : option PRStatus) (new : PRStatus) : bool :=
  match old with
  | None => true
  | Some old =>
      if negb (Bool.eqb (AllChecksPassed old) (AllChecksPassed new)) then true
      else if negb (Bool.eqb (HasPendingChecks old) (HasPendingChecks new)) then true
      else if negb (Bool.eqb (HasFailedChecks old) (HasFailedChecks new)) then true
      else if negb (String.eqb (ReviewDecision old) (ReviewDecision new)) then true
      else false
  end.

(** The replies of the review system to one call of [GetPRStatus], and
    the time the call took, in nanoseconds. *)
Record PollReply : Type := mkPollReply {
  checksReply : result (list PRCheck);
  reviewReply : result string;
  latency : N
}.

(** The [return] statement by which [WaitForChecks] is left. *)
Inductive WaitExit : Type :=
| Terminal (status : PRStatus)
| PollFailed (err : string)
| TimedOut (lastStatus : option PRStatus)
| OutOfFuel.

Definition pollInterval : Z := 10 * Git.Second.

Definition statusChange (s : PRStatus) : Event :=
  EvStatusChange (AllChecksPassed s) (HasPendingChecks s) (HasFailedChecks s)
                 (ReviewDecision s).

Section WithPolls.
Context {L : GoLib}.
(** [poll k] answers the call of [GetPRStatus] number [k]. *)
Variable poll : nat -> PollReply.
Variable prNumber : string.
(** Whether [onStatusChange] is not [nil]. *)
Variable hasCallback : bool.

(** The loop [for time.Now().Before(deadline)], entered at clock reading
    [now] with [k] polls made.  A pass that goes on takes the latency of
    its poll and the sleep. *)
Fixpoint waitLoop (fuel : nat) (deadline now : Z) (k : nat)
         (lastStatus : option PRStatus) : WaitExit * list Event :=
  match fuel with
  | O => (OutOfFuel, [])
  | S fuel' =>
      if now <? deadline then
        match GetPRStatus (checksReply (poll k)) (reviewReply (poll k)) with
        | Err e => (PollFailed e, [EvGetPRStatus prNumber])
        | Ok status =>
            let notified :=
              if hasCallback && hasStatusChanged lastStatus status
              then [statusChange status] else [] in
            if HasFailedChecks status
            then (Terminal status, EvGetPRStatus prNumber :: notified)
            else if AllChecksPassed status
            then (Terminal status, EvGetPRStatus prNumber :: notified)
            else
              let '(r, evs) :=
                waitLoop fuel' deadline
                         (now + Z.of_N (latency (poll k)) + pollInterval)
                         (S k) (Some status) in
              (r, (EvGetPRStatus prNumber :: notified
                   ++ EvSleep pollInterval :: evs)%list)
        end
      else (TimedOut lastStatus, [])
  end.

(** Every pass of the loop sleeps [pollInterval]: this many passes reach
    the deadline. *)
Definition waitFuel (timeout : Z) : nat :=
  S (Z.to_nat (timeout / pollInterval + 1)).

(** [Client.WaitForChecks(prNumber, timeout, onStatusChange)] entered at
    clock reading [now].  The source reads the clock once for the deadline
    and once more at the first loop test; [now] stands for both readings,
    the time between the two statements being counted as nothing. *)
Definition waitForChecks (now timeout : Z) : WaitExit * list Event :=
  waitLoop (waitFuel timeout) (now + timeout) now 0 None.

(** The Go results (a [PRStatus] pointer and an error) of each exit. *)
Definition goResult (timeout : Z) (x : WaitExit)
  : option (option PRStatus * option string) :=
  match x with
  | Terminal status => Some (Some status, None)
  | PollFailed e => Some (None, Some e)
  | TimedOut lastStatus =>
      Some (lastStatus,
            Some ("timeout waiting for PR checks after " ++ durationString timeout))
  | OutOfFuel => None
  end.

Definition WaitForChecks (now timeout : Z)
  : option (option PRStatus * option string) * list Event :=
  let '(x, evs) := waitForChecks now timeout in (goResult timeout x, evs).

End WithPolls.

End Github.

(** ** internal/orchestrator/orchestrator.go *)

Module Orchestrator.

Import Config.

(** The mutable fields of [Orchestrator]. *)
Record State : Type := mkState {
  iteration : Z;
  totalCost : float;
  completionSignalCount : Z;
  startTime : Z;
  baseBranch : string
}.

Definition setIteration (o : State) (n : Z) : State :=
  mkState n (totalCost o) (completionSignalCount o) (startTime o) (baseBranch o).

Definition setTotalCost (o : State) (c : float) : State :=
  mkState (iteration o) c (completionSignalCount o) (startTime o) (baseBranch o).

Definition setCompletionSignalCount (o : State) (n : Z) : State :=
  mkState (iteration o) (totalCost o) n (startTime o) (baseBranch o).

Definition setStartTime (o : State) (t : Z) : State :=
  mkState (iteration o) (totalCost o) (completionSignalCount o) t (baseBranch o).

(** [time.Since(start)] read at clock [now]: the difference, saturated to
    the range of [time.Duration]. *)
Definition Since (start now : Z) : Z :=
  Z.max GoInt.MinInt64 (Z.min GoInt.MaxInt64 (now - start)).

(** [checkStopConditions()], with the clock reading [now]. *)
Definition checkStopConditions (cfg : Config) (o : State) (now : Z)
  : bool * option StopReason :=
  if HasMaxRuns cfg && (MaxRuns cfg <? iteration o)
  then (true, Some (ReachedMaxIterations (MaxRuns cfg)))
  else if HasMaxCost cfg && PrimFloat.leb (MaxCost cfg) (totalCost o)
  then (true, Some (ReachedMaxCost (MaxCost cfg)))
  else if HasMaxDuration cfg && (MaxDuration cfg <=? Since (startTime o) now)
  then (true, Some (ReachedMaxDuration (MaxDuration cfg)))
  else if CompletionThreshold cfg <=? completionSignalCount o
  then (true, Some CompletionSignalDetected)
  else (false, None).

(** The replies of the collaborators during one call of [runIteration]. *)
Record IterEnv : Type := mkIterEnv {
  env_date : string;
  env_hash : string;
  env_createBranch : option string;
  env_notes : string;
  env_claude : ProcResult;
  env_stageAll : option string;
  env_hasChanges : result bool;
  env_commit : ProcResult;
  env_commitTitle : string;
  env_push : nat -> option string;
  env_commitMsg : string;
  env_createPR : result string;
  env_waitStart : Z;
  env_poll : nat -> Github.PollReply;
  env_merge : option string
}.

(** How [runIteration] ends: by a [return], by a run-time panic, or (for
    the bounded model of the polling loop only) without an answer. *)
Inductive IterResult : Type :=
| Returned (err : option string)
| Panicked (msg : string)
| Stuck.

(** Lines 209-215: the update of [completionSignalCount]. *)
Definition updateCompletionSignalCount (cfg : Config) (output : string)
           (count : Z) : Z :=
  if Claude.ContainsCompletionSignal output (CompletionSignal cfg)
  then GoInt.wrap64 (count + 1)
  else 0.

Definition formatPRBody (commitMsg : string) (iteration : Z) : string :=
  let LF := Strings.LF in
  "## Continuous Claude - Iteration " ++ GoInt.itoa iteration ++ LF
  ++ LF
  ++ commitMsg ++ LF
  ++ LF
  ++ "---" ++ LF
  ++ "*This PR was created automatically by Continuous Claude.*" ++ LF.

(** *** A state, trace and early-exit monad for the body of [runIteration] *)

Definition M (A : Type) : Type :=
  State -> (A + IterResult) * State * list Event.

Definition ret {A : Type} (a : A) : M A := fun o => (inl a, o, []).

(** The calls [evs] were made before the outcome [x]. *)
Definition after {A : Type} (evs : list Event) (x : A * State * list Event)
  : A * State * list Event :=
  (fst (fst x), snd (fst x), (evs ++ snd x)%list).

Definition bind {A B : Type} (m : M A) (f : A -> M B) : M B :=
  fun o =>
    match m o with
    | (inl a, o', evs) => after evs (f a o')
    | (inr x, o', evs) => (inr x, o', evs)
    end.

Definition exit {A : Type} (r : IterResult) : M A := fun o => (inr r, o, []).

Definition emit (evs : list Event) : M unit := fun o => (inl tt, o, evs).

Definition get : M State := fun o => (inl o, o, []).

Definition put (o : State) : M unit := fun _ => (inl tt, o, []).

Definition when (b : bool) (m : M unit) : M unit := if b then m else ret tt.

Declare Scope iter_scope.
Delimit Scope iter_scope with iter.
Notation "x <- m ;; k" := (bind m (fun x => k))
  (at level 61, m at next level, right associativity) : iter_scope.
Notation "m ;; k" := (bind m (fun _ => k))
  (at level 61, right associativity) : iter_scope.

(** [return fmt.Errorf(prefix + ": %w", err)] when [err != nil]. *)
Definition check (prefix : string) (err : option string) : M unit :=
  match err with
  | Some e => exit (Returned (Some (prefix ++ ": " ++ e)))
  | None => ret tt
  end.

Section WithLib.
Context {L : GoLib}.

Definition runIterationBody (cfg : Config) (env : IterEnv) : M unit :=
  (o <- get ;;
   let branchName :=
     Git.GenerateBranchName (env_date env) (env_hash env)
                            (GitBranchPrefix cfg) (iteration o) in
   emit [EvUi Info ("Creating branch: " ++ branchName);
         EvCreateBranch branchName] ;;
   check "failed to create branch" (env_createBranch env) ;;
   emit [EvNotesRead] ;;
   let prompt :=
     Claude.BuildPrompt (Prompt cfg) (env_notes env) (CompletionSignal cfg)
                        (iteration o) in
   emit [EvClaudeRun prompt] ;;
   let '(result, err) := Claude.Run (env_claude env) in
   check "Claude execution failed" err ;;
   put (setTotalCost o (PrimFloat.add (totalCost o) (Claude.Cost result))) ;;
   o <- get ;;
   let count :=
     updateCompletionSignalCount cfg (Claude.Output result)
                                 (completionSignalCount o) in
   put (setCompletionSignalCount o count) ;;
   when (Claude.ContainsCompletionSignal (Claude.Output result)
                                         (CompletionSignal cfg))
        (emit [EvUi Info ("Completion signal detected (" ++ GoInt.itoa count
                          ++ "/" ++ GoInt.itoa (CompletionThreshold cfg)
                          ++ ")")]) ;;
   when (Claude.IsError result)
        (emit [EvUi Warning "Claude reported an error in output"]) ;;
   when (DisableCommits cfg)
        (emit [EvUi Info "Commits disabled, skipping PR workflow"] ;;
         exit (Returned None)) ;;
   o <- get ;;
   when (DryRun cfg)
        (emit [EvUi Info "Dry run mode, skipping commit and PR";
               EvSwitchBranch (baseBranch o);
               EvDeleteBranch branchName] ;;
         exit (Returned None)) ;;
   emit [EvStageAll] ;;
   check "failed to stage changes" (env_stageAll env) ;;
   emit [EvHasChanges] ;;
   hasChanges <- match env_hasChanges env with
                 | Err e => exit (Returned (Some ("failed to check for changes: " ++ e)))
                 | Ok b => ret b
                 end ;;
   when (negb hasChanges)
        (emit [EvUi Info "No changes to commit";
               EvSwitchBranch (baseBranch o);
               EvDeleteBranch branchName] ;;
         exit (Returned None)) ;;
   emit [EvClaudeRunCommit] ;;
   match Claude.RunCommit (env_commit env) with
   | Err e => exit (Returned (Some ("failed to create commit: " ++ e)))
   | Ok _ => ret tt
   end ;;
   let commitTitle := env_commitTitle env in
   emit [EvGetLastCommitTitle; EvUi Success ("Committed: " ++ commitTitle)] ;;
   let '(pushErr, pushEvs) := Git.PushWithRetry (env_push env) branchName 3 in
   emit pushEvs ;;
   check "failed to push" pushErr ;;
   emit [EvUi Success ("Pushed to origin/" ++ branchName)] ;;
   let commitMsg := env_commitMsg env in
   emit [EvGetLastCommitMessage;
         EvCreatePR commitTitle (formatPRBody commitMsg (iteration o))
                    (baseBranch o)] ;;
   prURL <- match env_createPR env with
            | Err e => exit (Returned (Some ("failed to create PR: " ++ e)))
            | Ok url => ret url
            end ;;
   emit [EvUi Success ("Created PR: " ++ prURL)] ;;
   let prNumber := Github.GetPRNumber prURL in
   let timeout := 30 * (60 * Git.Second) in
   let '(waited, waitEvs) :=
     Github.WaitForChecks (env_poll env) prNumber true (env_waitStart env)
                          timeout in
   emit waitEvs ;;
   match waited with
   | None => exit Stuck
   | Some (status, err) =>
       match err with
       | Some e => emit [EvUi Warning ("Timeout waiting for checks: " ++ e)]
       | None => ret tt
       end ;;
       match status with
       | None =>
           (* [status.HasFailedChecks] on a nil [status] *)
           exit (Panicked "invalid memory address or nil pointer dereference")
       | Some status =>
           when (Github.HasFailedChecks status)
                (emit [EvUi Error "Checks failed, closing PR";
                       EvClosePR prNumber true;
                       EvSwitchBranch (baseBranch o)] ;;
                 exit (Returned None)) ;;
           when (negb (Github.IsMergeable status))
                (emit [EvUi Warning "PR not mergeable (review required?)";
                       EvSwitchBranch (baseBranch o)] ;;
                 exit (Returned None)) ;;
           emit [EvMergePR prNumber (MergeStrategy cfg)] ;;
           check "failed to merge PR" (env_merge env) ;;
           emit [EvUi Success "Merged PR";
                 EvSwitchBranch (baseBranch o);
                 EvPull (baseBranch o)]
       end
   end)%iter.

(** [runIteration()]: its result, the orchestrator afterwards and the
    calls made. *)
Definition runIteration (cfg : Config) (env : IterEnv) (o : State)
  : IterResult * State * list Event :=
  match runIterationBody cfg env o with
  | (inl _, o', evs) => (Returned None, o', evs)
  | (inr r, o', evs) => (r, o', evs)
  end.

(** The replies of the collaborators during [Run]: [run_clock k] is the
    clock read by the stop evaluation of pass [k] of the main loop and
    [run_iter k] answers the iteration of that pass. *)
Record RunEnv : Type := mkRunEnv {
  run_start : Z;
  run_validate : option string;
  run_notesInit : option string;
  run_clock : nat -> Z;
  run_iter : nat -> IterEnv;
  run_end : Z
}.

(** How [Run] ends; [StillRunning] when the bound on the number of
    passes is reached first. *)
Inductive RunResult : Type :=
| RunReturned (err : option string)
| RunPanicked (msg : string)
| StillRunning.

(** The main loop from pass [k] on, for at most [fuel] passes. *)
Fixpoint mainLoop (fuel : nat) (cfg : Config) (renv : RunEnv) (k : nat)
         (o : State) : RunResult * State * list Event :=
  match fuel with
  | O => (StillRunning, o, [])
  | S fuel' =>
      let o := setIteration o (GoInt.wrap64 (iteration o + 1)) in
      match checkStopConditions cfg o (run_clock renv k) with
      | (true, reason) => (RunReturned None, o, [EvStopping reason])
      | (false, _) =>
          match runIteration cfg (run_iter renv k) o with
          | (Returned (Some err), o', evs) =>
              let logged :=
                EvUi Error ("Iteration " ++ GoInt.itoa (iteration o')
                            ++ " failed: " ++ err) in
              after (evs ++ [logged]) (mainLoop fuel' cfg renv (S k) o')
          | (Returned None, o', evs) =>
              after evs (mainLoop fuel' cfg renv (S k) o')
          | (Panicked msg, o', evs) => (RunPanicked msg, o', evs)
          | (Stuck, o', evs) => (StillRunning, o', evs)
          end
      end
  end.

(** [Run()], with at most [fuel] passes of the main loop. *)
Definition Run (fuel : nat) (cfg : Config) (renv : RunEnv) (o : State)
  : RunResult * State * list Event :=
  let o := setStartTime o (run_start renv) in
  match run_validate renv with
  | Some e => (RunReturned (Some e), o, [])
  | None =>
      let warned :=
        match run_notesInit renv with
        | Some e => [EvUi Warning ("Could not initialize notes file: " ++ e)]
        | None => []
        end in
      let started := [EvUi Info "Starting continuous development loop"] in
      match mainLoop fuel cfg renv 0 o with
      | (RunReturned err, o', evs) =>
          let summary :=
            EvSummary (GoInt.wrap64 (iteration o' - 1)) (totalCost o')
                      (Since (startTime o') (run_end renv))
                      (CompletionThreshold cfg <=? completionSignalCount o') in
          (RunReturned err, o', (warned ++ started ++ evs ++ [summary])%list)
      | (r, o', evs) => (r, o', (warned ++ started ++ evs)%list)
      end
  end.

End WithLib.

End Orchestrator.

(** * Properties *)

(** ** Arithmetic of 64-bit integers *)

Lemma wrap64_inRange (z : Z) : GoInt.inRange z -> GoInt.wrap64 z = z.
Proof.
  unfold GoInt.inRange, GoInt.MinInt64, GoInt.MaxInt64, GoInt.wrap64.
  intros H. rewrite Z.mod_small; lia.
Qed.

Lemma wrap64_le_nonneg (z : Z) : 0 <= z -> GoInt.wrap64 z <= z.
Proof.
  unfold GoInt.wrap64. intros H.
  assert (Hm : (z + 2 ^ 63) mod 2 ^ 64 <= z + 2 ^ 63) by (apply Z.mod_le; lia).
  lia.
Qed.

Lemma wrap64_bounds (z : Z) : GoInt.inRange (GoInt.wrap64 z).
Proof.
  unfold GoInt.inRange, GoInt.MinInt64, GoInt.MaxInt64, GoInt.wrap64.
  assert (H : 0 <= (z + 2 ^ 63) mod 2 ^ 64 < 2 ^ 64) by (apply Z.mod_pos_bound; lia).
  lia.
Qed.

(** ** Substring search *)

Lemma HasPrefix_spec (prefix s : string) :
  Strings.HasPrefix s prefix = true <-> exists post, s = prefix ++ post.
Proof.
  revert s. induction prefix as [|c p IH]; intros s; simpl.
  - split; [intros _; exists s; reflexivity | intros _; destruct s; reflexivity].
  - destruct s as [|d s']; simpl.
    + split; [discriminate | intros [post H]; discriminate].
    + rewrite andb_true_iff, Ascii.eqb_eq, IH. split.
      * intros [-> [post ->]]. exists post. reflexivity.
      * intros [post H]. injection H as -> ->. split; [reflexivity | eauto].
Qed.

Lemma Contains_spec (s substr : string) :
  Strings.Contains s substr = true <->
  exists pre post, s = pre ++ substr ++ post.
Proof.
  induction s as [|c s' IH]; cbn [Strings.Contains].
  - rewrite orb_false_r, HasPrefix_spec. split.
    + intros [post H]. exists EmptyString, post. exact H.
    + intros [pre [post H]]. destruct pre as [|a pre]; simpl in H.
      * exists post. exact H.
      * discriminate.
  - rewrite orb_true_iff, IH, HasPrefix_spec. split.
    + intros [[post H] | [pre [post H]]].
      * exists EmptyString, post. exact H.
      * exists (String c pre), post. simpl. rewrite H. reflexivity.
    + intros [pre [post H]]. destruct pre as [|a pre]; simpl in H.
      * left. exists post. exact H.
      * right. injection H as _ H. exists pre, post. exact H.
Qed.

(** ** The stop evaluator *)

Section StopConditions.
Import Config Orchestrator.

Variable cfg : Config.
Variable o : State.
Variable now : Z.

(** The four conditions, as the source writes them. *)
Definition iterationCeiling : Prop :=
  0 < MaxRuns cfg /\ iteration o > MaxRuns cfg.

Definition costCeiling : Prop :=
  PrimFloat.ltb 0%float (MaxCost cfg) = true
  /\ PrimFloat.leb (MaxCost cfg) (totalCost o) = true.

Definition durationCeiling : Prop :=
  0 < MaxDuration cfg /\ Since (startTime o) now >= MaxDuration cfg.

Definition completionReached : Prop :=
  completionSignalCount o >= CompletionThreshold cfg.

Lemma iterationCeiling_dec :
  HasMaxRuns cfg && (MaxRuns cfg <? iteration o) = true <-> iterationCeiling.
Proof.
  unfold iterationCeiling, HasMaxRuns.
  rewrite andb_true_iff, !Z.ltb_lt. lia.
Qed.

Lemma costCeiling_dec :
  HasMaxCost cfg && PrimFloat.leb (MaxCost cfg) (totalCost o) = true
  <-> costCeiling.
Proof. unfold costCeiling, HasMaxCost. now rewrite andb_true_iff. Qed.

Lemma durationCeiling_dec :
  HasMaxDuration cfg && (MaxDuration cfg <=? Since (startTime o) now) = true
  <-> durationCeiling.
Proof.
  unfold durationCeiling, HasMaxDuration.
  rewrite andb_true_iff, Z.ltb_lt, Z.leb_le. lia.
Qed.

Lemma completionReached_dec :
  (CompletionThreshold cfg <=? completionSignalCount o) = true
  <-> completionReached.
Proof. unfold completionReached. rewrite Z.leb_le. lia. Qed.

End StopConditions.

Ltac stop_cases cfg o now :=
  unfold Orchestrator.checkStopConditions;
  pose proof (iterationCeiling_dec cfg o) as Hi;
  pose proof (costCeiling_dec cfg o) as Hc;
  pose proof (durationCeiling_dec cfg o now) as Hd;
  pose proof (completionReached_dec cfg o) as Hs;
  destruct (Config.HasMaxRuns cfg && (Config.MaxRuns cfg <? Orchestrator.iteration o));
  [| destruct (Config.HasMaxCost cfg
               && PrimFloat.leb (Config.MaxCost cfg) (Orchestrator.totalCost o));
     [| destruct (Config.HasMaxDuration cfg
                  && (Config.MaxDuration cfg
                      <=? Orchestrator.Since (Orchestrator.startTime o) now));
        [| destruct (Config.CompletionThreshold cfg
                     <=? Orchestrator.completionSignalCount o)]]].

(** C1.  The stop evaluator tries the iteration ceiling, the cost ceiling,
    the duration ceiling and the completion count in this order, and the
    first condition that holds gives the reason; when none holds it
    continues.  With [MaxRuns = M > 0] the iteration ceiling stops the run
    when the index exceeds [M] and never while the index is at most [M] (the
    index equal to [M] still runs unless another condition holds).  The cost
    and duration ceilings are inclusive: when configured, and when no
    condition of another kind holds, the run stops exactly when the tracked
    value is at least the ceiling. *)
Theorem C1_checkStopConditions :
  forall (cfg : Config.Config) (o : Orchestrator.State) (now : Z),
    let r := Orchestrator.checkStopConditions cfg o now in
    let M := Config.MaxRuns cfg in
    let C := Config.MaxCost cfg in
    let D := Config.MaxDuration cfg in
    (* fixed priority order, the first true condition gives the reason *)
    (iterationCeiling cfg o -> r = (true, Some (ReachedMaxIterations M)))
    /\ (~ iterationCeiling cfg o -> costCeiling cfg o ->
        r = (true, Some (ReachedMaxCost C)))
    /\ (~ iterationCeiling cfg o -> ~ costCeiling cfg o ->
        durationCeiling cfg o now ->
        r = (true, Some (ReachedMaxDuration D)))
    /\ (~ iterationCeiling cfg o -> ~ costCeiling cfg o ->
        ~ durationCeiling cfg o now -> completionReached cfg o ->
        r = (true, Some CompletionSignalDetected))
    /\ (~ iterationCeiling cfg o -> ~ costCeiling cfg o ->
        ~ durationCeiling cfg o now -> ~ completionReached cfg o ->
        r = (false, None))
    (* the iteration ceiling counts completed iterations *)
    /\ (0 < M -> Orchestrator.iteration o > M -> fst r = true)
    /\ (0 < M -> Orchestrator.iteration o <= M ->
        snd r <> Some (ReachedMaxIterations M)
        /\ (~ costCeiling cfg o -> ~ durationCeiling cfg o now ->
            ~ completionReached cfg o -> fst r = false))
    (* the cost and duration ceilings are boundary inclusive *)
    /\ (Config.HasMaxCost cfg = true -> ~ iterationCeiling cfg o ->
        ~ durationCeiling cfg o now -> ~ completionReached cfg o ->
        (fst r = true <-> PrimFloat.leb C (Orchestrator.totalCost o) = true))
    /\ (Config.HasMaxDuration cfg = true -> ~ iterationCeiling cfg o ->
        ~ costCeiling cfg o -> ~ completionReached cfg o ->
        (fst r = true <->
         Orchestrator.Since (Orchestrator.startTime o) now >= D)).
Proof.
  intros cfg o now r M C D. subst r M C D.
  repeat split.
  - intros H. stop_cases cfg o now; try reflexivity; apply Hi in H; discriminate.
  - intros Hni H. stop_cases cfg o now; try reflexivity;
      solve [ exfalso; apply Hni, Hi; reflexivity | apply Hc in H; discriminate ].
  - intros Hni Hnc H. stop_cases cfg o now; try reflexivity;
      solve [ exfalso; apply Hni, Hi; reflexivity
            | exfalso; apply Hnc, Hc; reflexivity
            | apply Hd in H; discriminate ].
  - intros Hni Hnc Hnd H. stop_cases cfg o now; try reflexivity;
      solve [ exfalso; apply Hni, Hi; reflexivity
            | exfalso; apply Hnc, Hc; reflexivity
            | exfalso; apply Hnd, Hd; reflexivity
            | apply Hs in H; discriminate ].
  - intros Hni Hnc Hnd Hns. stop_cases cfg o now; try reflexivity;
      solve [ exfalso; apply Hni, Hi; reflexivity
            | exfalso; apply Hnc, Hc; reflexivity
            | exfalso; apply Hnd, Hd; reflexivity
            | exfalso; apply Hns, Hs; reflexivity ].
  - intros HM HN.
    assert (H : iterationCeiling cfg o) by (split; assumption).
    stop_cases cfg o now; try reflexivity; apply Hi in H; discriminate.
  - stop_cases cfg o now; simpl; try discriminate.
    destruct Hi as [Hi _]. specialize (Hi eq_refl). destruct Hi. lia.
  - intros Hnc Hnd Hns. stop_cases cfg o now; try reflexivity;
      solve [ destruct Hi as [Hi _]; specialize (Hi eq_refl); destruct Hi; lia
            | exfalso; apply Hnc, Hc; reflexivity
            | exfalso; apply Hnd, Hd; reflexivity
            | exfalso; apply Hns, Hs; reflexivity ].
  - intros Hstop. revert Hstop. stop_cases cfg o now; simpl; intros Hstop;
      solve [ exfalso; apply H0, Hi; reflexivity
            | apply Hc; reflexivity
            | exfalso; apply H1, Hd; reflexivity
            | exfalso; apply H2, Hs; reflexivity
            | discriminate ].
  - intros Hle.
    assert (Hcc : costCeiling cfg o) by (split; assumption).
    stop_cases cfg o now; try reflexivity; apply Hc in Hcc; discriminate.
  - intros Hstop. revert Hstop. stop_cases cfg o now; simpl; intros Hstop;
      solve [ exfalso; apply H0, Hi; reflexivity
            | exfalso; apply H1, Hc; reflexivity
            | apply Hd; reflexivity
            | exfalso; apply H2, Hs; reflexivity
            | discriminate ].
  - intros Hge.
    assert (Hdd : durationCeiling cfg o now).
    { split; [| assumption]. unfold Config.HasMaxDuration in H.
      apply Z.ltb_lt in H. exact H. }
    stop_cases cfg o now; try reflexivity;
      solve [ exfalso; apply H0, Hi; reflexivity
            | exfalso; apply H1, Hc; reflexivity
            | apply Hd in Hdd; discriminate ].
Qed.

(** A configuration with every ceiling set: 3 iterations, 1.5 dollars, one
    minute, and the default completion threshold. *)
Definition sampleConfig : Config.Config :=
  Config.mkConfig "Add tests" 3 1.5%float (60 * Git.Second) "squash"
                  "continuous-claude/" false false
                  "CONTINUOUS_CLAUDE_PROJECT_COMPLETE" 3.

(** At iteration 3 of 3 the run goes on; at cost 1.5 of 1.5 it stops for the
    cost; at iteration 4 it stops for the iterations even with the cost
    reached. *)
Lemma C1_checkStopConditions_witness :
  Orchestrator.checkStopConditions
    sampleConfig (Orchestrator.mkState 3 0.25%float 0 0 "main") 1000
  = (false, None)
  /\ Orchestrator.checkStopConditions
       sampleConfig (Orchestrator.mkState 3 1.5%float 0 0 "main") 1000
     = (true, Some (ReachedMaxCost 1.5%float))
  /\ Orchestrator.checkStopConditions
       sampleConfig (Orchestrator.mkState 4 1.5%float 0 0 "main") 1000
     = (true, Some (ReachedMaxIterations 3)).
Proof.
  split; [| split].
  - apply (C1_checkStopConditions
             sampleConfig (Orchestrator.mkState 3 0.25%float 0 0 "main") 1000).
    + unfold iterationCeiling; simpl; lia.
    + unfold costCeiling; intros [_ H]; vm_compute in H; discriminate.
    + unfold durationCeiling; intros [_ H]; vm_compute in H; apply H; reflexivity.
    + unfold completionReached; simpl; lia.
  - apply (C1_checkStopConditions
             sampleConfig (Orchestrator.mkState 3 1.5%float 0 0 "main") 1000).
    + unfold iterationCeiling; simpl; lia.
    + unfold costCeiling; split; vm_compute; reflexivity.
  - apply (C1_checkStopConditions
             sampleConfig (Orchestrator.mkState 4 1.5%float 0 0 "main") 1000).
    unfold iterationCeiling; simpl; lia.
Defined.

(** ** Classification of checks and the derived flags *)

Section ReviewStatus.
Import Github.

Lemma oneOf_In (s : string) (cases : list string) :
  oneOf s cases = true <-> In s cases.
Proof.
  unfold oneOf. rewrite existsb_exists. split.
  - intros [x [Hin Heq]]. apply String.eqb_eq in Heq. subst. exact Hin.
  - intros Hin. exists s. split; [exact Hin | apply String.eqb_refl].
Qed.

(** The class the loop body gives to a raw state. *)
Definition isPending (c : PRCheck) : bool :=
  negb (oneOf (State c) passedStates) && oneOf (State c) pendingStates.

Definition isFailed (c : PRCheck) : bool :=
  negb (oneOf (State c) passedStates) && negb (oneOf (State c) pendingStates)
  && oneOf (State c) failedStates.

Lemma isPending_In (c : PRCheck) :
  isPending c = true <-> In (State c) ["PENDING"; "QUEUED"; "IN_PROGRESS"].
Proof.
  destruct c as [name state bucket]; cbn [State].
  unfold isPending. cbn [State]. rewrite andb_true_iff, negb_true_iff, oneOf_In. split.
  - intros [_ H]. exact H.
  - intros H. split; [| exact H].
    simpl in H. decompose [or] H; subst; try reflexivity; contradiction.
Qed.

Lemma isFailed_In (c : PRCheck) :
  isFailed c = true <->
  In (State c) ["FAILURE"; "ERROR"; "CANCELLED"; "TIMED_OUT"; "ACTION_REQUIRED"].
Proof.
  destruct c as [name state bucket]; cbn [State].
  unfold isFailed. cbn [State]. rewrite !andb_true_iff, !negb_true_iff, oneOf_In. split.
  - intros [_ H]. exact H.
  - intros H. split; [| exact H].
    simpl in H. decompose [or] H; subst; try (split; reflexivity); contradiction.
Qed.

Lemma analyzeCheck_flags (status : PRStatus) (c : PRCheck) :
  let status' := analyzeCheck status c in
  Checks status' = Checks status
  /\ ReviewDecision status' = ReviewDecision status
  /\ HasPendingChecks status' = HasPendingChecks status || isPending c
  /\ HasFailedChecks status' = HasFailedChecks status || isFailed c.
Proof.
  unfold analyzeCheck, isPending, isFailed.
  destruct (oneOf (State c) passedStates);
    [| destruct (oneOf (State c) pendingStates);
       [| destruct (oneOf (State c) failedStates)]];
    simpl; rewrite ?orb_false_r, ?orb_true_r; auto.
Qed.

Lemma fold_analyzeCheck_flags (checks : list PRCheck) (status : PRStatus) :
  let status' := fold_left analyzeCheck checks status in
  Checks status' = Checks status
  /\ ReviewDecision status' = ReviewDecision status
  /\ HasPendingChecks status' = HasPendingChecks status || existsb isPending checks
  /\ HasFailedChecks status' = HasFailedChecks status || existsb isFailed checks.
Proof.
  revert status. induction checks as [|c checks IH]; intros status; simpl.
  - rewrite !orb_false_r. auto.
  - destruct (IH (analyzeCheck status c)) as (H1 & H2 & H3 & H4).
    destruct (analyzeCheck_flags status c) as (A1 & A2 & A3 & A4).
    rewrite H1, H2, H3, H4, A1, A2, A3, A4, !orb_assoc. auto.
Qed.

(** The snapshot computed by [GetPRStatus] from successful replies. *)
Definition snapshot (checks : list PRCheck) (reviewDecision : string) : PRStatus :=
  let pending := existsb isPending checks in
  let failed := existsb isFailed checks in
  let allPassed := (Z.of_nat (length checks) =? 0) || (negb pending && negb failed) in
  mkPRStatus checks reviewDecision
             (allPassed && (String.eqb reviewDecision EmptyString
                            || String.eqb reviewDecision "APPROVED"))
             allPassed pending failed.

Lemma GetPRStatus_snapshot (checks : list PRCheck) (reviewDecision : string) :
  GetPRStatus (Ok checks) (Ok reviewDecision) = Ok (snapshot checks reviewDecision).
Proof.
  unfold GetPRStatus, snapshot.
  destruct (fold_analyzeCheck_flags
              checks (mkPRStatus checks reviewDecision false false false false))
    as (H1 & H2 & H3 & H4).
  cbv zeta in *. rewrite H1, H2, H3, H4. reflexivity.
Qed.

(** A snapshot is never failed and all-passed at once. *)
Lemma snapshot_not_both (checks : list PRCheck) (reviewDecision : string) :
  HasFailedChecks (snapshot checks reviewDecision) = true ->
  AllChecksPassed (snapshot checks reviewDecision) = false.
Proof.
  unfold snapshot; simpl. intros H. rewrite H.
  destruct checks as [|c checks]; [discriminate H |].
  rewrite andb_false_r. reflexivity.
Qed.

End ReviewStatus.

(** C3.  The loop body classifies a check by its raw state alone:
    SUCCESS, NEUTRAL and SKIPPED leave the snapshot as it is (passed);
    PENDING, QUEUED and IN_PROGRESS set the pending flag, so that it reads
    true afterwards, and leave the failed flag as it was; FAILURE, ERROR,
    CANCELLED, TIMED_OUT and ACTION_REQUIRED set the failed flag, so that it
    reads true afterwards, and leave the pending flag as it was; every other
    state leaves the snapshot as it is.  No state touches the other fields
    of the snapshot.  Hence a review unit with a check in a pending (failed)
    state has the pending (failed) flag set, and one whose checks all have
    unlisted states has neither flag set and counts as passed. *)
Theorem C3_check_classification :
  forall (status : Github.PRStatus) (check : Github.PRCheck),
    (In (Github.State check) ["SUCCESS"; "NEUTRAL"; "SKIPPED"] ->
     Github.analyzeCheck status check = status)
    /\ (In (Github.State check) ["PENDING"; "QUEUED"; "IN_PROGRESS"] ->
        Github.analyzeCheck status check = Github.setHasPendingChecks status true
        /\ Github.HasPendingChecks (Github.analyzeCheck status check) = true
        /\ Github.HasFailedChecks (Github.analyzeCheck status check)
           = Github.HasFailedChecks status)
    /\ (In (Github.State check)
           ["FAILURE"; "ERROR"; "CANCELLED"; "TIMED_OUT"; "ACTION_REQUIRED"] ->
        Github.analyzeCheck status check = Github.setHasFailedChecks status true
        /\ Github.HasFailedChecks (Github.analyzeCheck status check) = true
        /\ Github.HasPendingChecks (Github.analyzeCheck status check)
           = Github.HasPendingChecks status)
    /\ (~ In (Github.State check)
          ["SUCCESS"; "NEUTRAL"; "SKIPPED"; "PENDING"; "QUEUED"; "IN_PROGRESS";
           "FAILURE"; "ERROR"; "CANCELLED"; "TIMED_OUT"; "ACTION_REQUIRED"] ->
        Github.analyzeCheck status check = status)
    /\ (Github.Checks (Github.analyzeCheck status check) = Github.Checks status
        /\ Github.ReviewDecision (Github.analyzeCheck status check)
           = Github.ReviewDecision status
        /\ Github.IsMergeable (Github.analyzeCheck status check)
           = Github.IsMergeable status
        /\ Github.AllChecksPassed (Github.analyzeCheck status check)
           = Github.AllChecksPassed status)
    /\ (forall (checks : list Github.PRCheck) (reviewDecision : string),
           (forall c, In c checks ->
                      ~ In (Github.State c)
                        ["PENDING"; "QUEUED"; "IN_PROGRESS"; "FAILURE"; "ERROR";
                         "CANCELLED"; "TIMED_OUT"; "ACTION_REQUIRED"]) ->
           exists s,
             Github.GetPRStatus (Ok checks) (Ok reviewDecision) = Ok s
             /\ Github.HasPendingChecks s = false
             /\ Github.HasFailedChecks s = false
             /\ Github.AllChecksPassed s = true)
    /\ (forall (checks : list Github.PRCheck) (reviewDecision : string)
               (c : Github.PRCheck),
           In c checks ->
           exists s,
             Github.GetPRStatus (Ok checks) (Ok reviewDecision) = Ok s
             /\ (In (Github.State c) ["PENDING"; "QUEUED"; "IN_PROGRESS"] ->
                 Github.HasPendingChecks s = true)
             /\ (In (Github.State c)
                    ["FAILURE"; "ERROR"; "CANCELLED"; "TIMED_OUT";
                     "ACTION_REQUIRED"] ->
                 Github.HasFailedChecks s = true)).
Proof.
  intros status check.
  split; [| split; [| split; [| split; [| split; [| split]]]]].
  - intros H. unfold Github.analyzeCheck.
    apply oneOf_In in H. unfold Github.passedStates. rewrite H. reflexivity.
  - intros H.
    assert (Heq : Github.analyzeCheck status check
                  = Github.setHasPendingChecks status true).
    { unfold Github.analyzeCheck.
      apply isPending_In in H. unfold isPending in H.
      apply andb_true_iff in H. destruct H as [Hp Hq].
      apply negb_true_iff in Hp. rewrite Hp, Hq. reflexivity. }
    rewrite Heq. repeat split; reflexivity.
  - intros H.
    assert (Heq : Github.analyzeCheck status check
                  = Github.setHasFailedChecks status true).
    { unfold Github.analyzeCheck.
      apply isFailed_In in H. unfold isFailed in H.
      rewrite !andb_true_iff, !negb_true_iff in H. destruct H as [[Hp Hq] Hf].
      rewrite Hp, Hq, Hf. reflexivity. }
    rewrite Heq. repeat split; reflexivity.
  - intros H. unfold Github.analyzeCheck.
    destruct (Github.oneOf (Github.State check) Github.passedStates); [reflexivity |].
    destruct (Github.oneOf (Github.State check) Github.pendingStates) eqn:Hq.
    { exfalso. apply H. apply oneOf_In in Hq. simpl in Hq |- *. tauto. }
    destruct (Github.oneOf (Github.State check) Github.failedStates) eqn:Hf.
    { exfalso. apply H. apply oneOf_In in Hf. simpl in Hf |- *. tauto. }
    reflexivity.
  - unfold Github.analyzeCheck.
    destruct (Github.oneOf (Github.State check) Github.passedStates);
      [| destruct (Github.oneOf (Github.State check) Github.pendingStates);
         [| destruct (Github.oneOf (Github.State check) Github.failedStates)]];
      repeat split; reflexivity.
  - intros checks reviewDecision Hall.
    exists (snapshot checks reviewDecision).
    split; [apply GetPRStatus_snapshot |].
    assert (Hp : existsb isPending checks = false).
    { apply not_true_is_false. intros Hex. apply existsb_exists in Hex.
      destruct Hex as [c [Hin Hc]]. apply isPending_In in Hc.
      apply (Hall c Hin). simpl in Hc |- *. tauto. }
    assert (Hf : existsb isFailed checks = false).
    { apply not_true_is_false. intros Hex. apply existsb_exists in Hex.
      destruct Hex as [c [Hin Hc]]. apply isFailed_In in Hc.
      apply (Hall c Hin). simpl in Hc |- *. tauto. }
    unfold snapshot; simpl. rewrite Hp, Hf. simpl.
    rewrite orb_true_r. auto.
  - intros checks reviewDecision c Hin.
    exists (snapshot checks reviewDecision).
    split; [apply GetPRStatus_snapshot |].
    unfold snapshot;
      cbn [Github.HasPendingChecks Github.HasFailedChecks].
    split; intros Hc; apply existsb_exists; exists c; (split; [exact Hin |]).
    + apply isPending_In. exact Hc.
    + apply isFailed_In. exact Hc.
Qed.

(** A check in progress sets the pending flag and one that timed out the
    failed flag; an unknown state and a lower-case spelling both leave the
    snapshot as it is, and so count as passed. *)
Lemma C3_check_classification_witness :
  Github.analyzeCheck
    (Github.mkPRStatus [] "APPROVED" false false false false)
    (Github.mkPRCheck "build" "IN_PROGRESS" "pending")
  = Github.mkPRStatus [] "APPROVED" false false true false
  /\ Github.HasPendingChecks
       (Github.analyzeCheck
          (Github.mkPRStatus [] "APPROVED" false false false false)
          (Github.mkPRCheck "build" "IN_PROGRESS" "pending"))
     = true
  /\ Github.analyzeCheck
       (Github.mkPRStatus [] "APPROVED" false false false false)
       (Github.mkPRCheck "lint" "TIMED_OUT" "fail")
     = Github.mkPRStatus [] "APPROVED" false false false true
  /\ Github.HasFailedChecks
       (Github.analyzeCheck
          (Github.mkPRStatus [] "APPROVED" false false false false)
          (Github.mkPRCheck "lint" "TIMED_OUT" "fail"))
     = true
  /\ Github.analyzeCheck
       (Github.mkPRStatus [] "APPROVED" false false false false)
       (Github.mkPRCheck "ci" "STALE" "fail")
     = Github.mkPRStatus [] "APPROVED" false false false false
  /\ Github.analyzeCheck
       (Github.mkPRStatus [] "APPROVED" false false false false)
       (Github.mkPRCheck "ci" "pending" "pending")
     = Github.mkPRStatus [] "APPROVED" false false false false.
Proof.
  destruct (C3_check_classification
              (Github.mkPRStatus [] "APPROVED" false false false false)
              (Github.mkPRCheck "build" "IN_PROGRESS" "pending"))
    as (_ & Hpending & _).
  destruct (C3_check_classification
              (Github.mkPRStatus [] "APPROVED" false false false false)
              (Github.mkPRCheck "lint" "TIMED_OUT" "fail"))
    as (_ & _ & Hfailed & _).
  destruct (C3_check_classification
              (Github.mkPRStatus [] "APPROVED" false false false false)
              (Github.mkPRCheck "ci" "STALE" "fail"))
    as (_ & _ & _ & Hstale & _).
  destruct (C3_check_classification
              (Github.mkPRStatus [] "APPROVED" false false false false)
              (Github.mkPRCheck "ci" "pending" "pending"))
    as (_ & _ & _ & Hlower & _).
  destruct Hpending as (Hp1 & Hp2 & _); [simpl; tauto |].
  destruct Hfailed as (Hf1 & Hf2 & _); [simpl; tauto |].
  split; [exact Hp1 |]. split; [exact Hp2 |].
  split; [exact Hf1 |]. split; [exact Hf2 |].
  split.
  - apply Hstale. simpl. intros H. decompose [or] H; try discriminate; contradiction.
  - apply Hlower. simpl. intros H. decompose [or] H; try discriminate; contradiction.
Defined.

(** C4.  For every list of checks and every review decision the snapshot
    has: the pending (failed) flag set exactly when some check is in a
    pending (failed) state, whatever the other checks are;
    [AllChecksPassed] = no checks, or neither pending nor failed, hence true
    without checks; [IsMergeable] = [AllChecksPassed] and a review decision
    that is empty or APPROVED, hence false for CHANGES_REQUESTED. *)
Theorem C4_derived_flags :
  forall (checks : list Github.PRCheck) (reviewDecision : string),
  exists s,
    Github.GetPRStatus (Ok checks) (Ok reviewDecision) = Ok s
    /\ (Github.HasPendingChecks s = true <->
        exists c, In c checks
                  /\ In (Github.State c) ["PENDING"; "QUEUED"; "IN_PROGRESS"])
    /\ (Github.HasFailedChecks s = true <->
        exists c, In c checks
                  /\ In (Github.State c)
                       ["FAILURE"; "ERROR"; "CANCELLED"; "TIMED_OUT";
                        "ACTION_REQUIRED"])
    /\ Github.AllChecksPassed s
       = ((length checks =? 0)%nat
          || (negb (Github.HasPendingChecks s) && negb (Github.HasFailedChecks s)))
    /\ (checks = [] -> Github.AllChecksPassed s = true)
    /\ Github.IsMergeable s
       = (Github.AllChecksPassed s
          && (String.eqb reviewDecision EmptyString
              || String.eqb reviewDecision "APPROVED"))
    /\ (reviewDecision = "CHANGES_REQUESTED" -> Github.IsMergeable s = false).
Proof.
  intros checks reviewDecision.
  exists (snapshot checks reviewDecision).
  split; [apply GetPRStatus_snapshot |].
  unfold snapshot; cbn [Github.HasPendingChecks Github.HasFailedChecks
                        Github.AllChecksPassed Github.IsMergeable].
  repeat split.
  - intros H. apply existsb_exists in H. destruct H as [c [Hin Hc]].
    exists c. split; [exact Hin | apply isPending_In; exact Hc].
  - intros [c [Hin Hc]]. apply existsb_exists. exists c.
    split; [exact Hin | apply isPending_In; exact Hc].
  - intros H. apply existsb_exists in H. destruct H as [c [Hin Hc]].
    exists c. split; [exact Hin | apply isFailed_In; exact Hc].
  - intros [c [Hin Hc]]. apply existsb_exists. exists c.
    split; [exact Hin | apply isFailed_In; exact Hc].
  - destruct checks; reflexivity.
  - intros ->. reflexivity.
  - intros ->. simpl. apply andb_false_r.
Qed.

(** One successful check and requested changes: all passed, not mergeable. *)
Lemma C4_derived_flags_witness :
  exists s,
    Github.GetPRStatus (Ok [Github.mkPRCheck "ci" "SUCCESS" "pass"])
                       (Ok "CHANGES_REQUESTED") = Ok s
    /\ Github.AllChecksPassed s = true
    /\ Github.IsMergeable s = false.
Proof.
  destruct (C4_derived_flags [Github.mkPRCheck "ci" "SUCCESS" "pass"]
                             "CHANGES_REQUESTED")
    as (s & Hs & _ & _ & _ & _ & _ & Hm).
  exists s. split; [exact Hs |]. split.
  - vm_compute in Hs. injection Hs as <-. reflexivity.
  - apply Hm. reflexivity.
Defined.

(** ** The completion signal *)

(** The counter after the cycles whose outputs are [outputs], oldest first,
    starting from [count]. *)
Definition countAfter (cfg : Config.Config) (outputs : list string) (count : Z) : Z :=
  fold_left (fun c output => Orchestrator.updateCompletionSignalCount cfg output c)
            outputs count.

(** The output holds the phrase: a non-empty phrase that occurs in it byte
    for byte. *)
Definition holdsPhrase (signal output : string) : Prop :=
  signal <> EmptyString /\ exists pre post, output = pre ++ signal ++ post.

Lemma ContainsCompletionSignal_spec (output signal : string) :
  Claude.ContainsCompletionSignal output signal = true <-> holdsPhrase signal output.
Proof.
  unfold Claude.ContainsCompletionSignal, holdsPhrase.
  destruct signal as [|c s]; simpl Strings.isEmpty; cbv iota.
  - split; [discriminate | intros [H _]; congruence].
  - rewrite Contains_spec. split.
    + intros H. split; [discriminate | exact H].
    + intros [_ H]. exact H.
Qed.

Lemma countAfter_app (cfg : Config.Config) (xs ys : list string) (count : Z) :
  countAfter cfg (xs ++ ys) count = countAfter cfg ys (countAfter cfg xs count).
Proof. unfold countAfter. apply fold_left_app. Qed.

Lemma countAfter_range (cfg : Config.Config) (outputs : list string) :
  forall count, GoInt.inRange count ->
  GoInt.inRange (countAfter cfg outputs count).
Proof.
  induction outputs as [|out outputs IH] using rev_ind; intros count Hc.
  - exact Hc.
  - rewrite countAfter_app. unfold countAfter at 1. simpl.
    unfold Orchestrator.updateCompletionSignalCount.
    destruct (Claude.ContainsCompletionSignal out (Config.CompletionSignal cfg)).
    + apply wrap64_bounds.
    + unfold GoInt.inRange, GoInt.MinInt64, GoInt.MaxInt64. lia.
Qed.

(** A positive counter value [n] is preceded by [n] matching cycles. *)
Lemma countAfter_positive (cfg : Config.Config) (outputs : list string) :
  forall n : nat,
    Z.of_nat n <= countAfter cfg outputs 0 ->
    exists front tail,
      outputs = (front ++ tail)%list
      /\ length tail = n
      /\ Forall (holdsPhrase (Config.CompletionSignal cfg)) tail.
Proof.
  induction outputs as [|out outputs IH] using rev_ind; intros n Hn.
  - unfold countAfter in Hn. simpl in Hn.
    assert (n = O) by lia. subst n.
    exists [], []. simpl. auto.
  - destruct n as [|n].
    { exists (outputs ++ [out])%list, []. rewrite app_nil_r. simpl. auto. }
    rewrite countAfter_app in Hn. unfold countAfter in Hn at 1. simpl in Hn.
    unfold Orchestrator.updateCompletionSignalCount in Hn.
    destruct (Claude.ContainsCompletionSignal out (Config.CompletionSignal cfg))
      eqn:Hc; [| lia].
    assert (Hr : GoInt.inRange (countAfter cfg outputs 0)).
    { apply countAfter_range.
      unfold GoInt.inRange, GoInt.MinInt64, GoInt.MaxInt64. lia. }
    unfold GoInt.inRange, GoInt.MinInt64, GoInt.MaxInt64 in Hr.
    assert (Hprev : Z.of_nat n <= countAfter cfg outputs 0).
    { destruct (Z_lt_le_dec (countAfter cfg outputs 0) 0) as [Hneg | Hpos].
      - (* a negative counter would stay at most 0 after one increment *)
        unfold GoInt.wrap64 in Hn.
        rewrite Z.mod_small in Hn by lia. lia.
      - pose proof (wrap64_le_nonneg (countAfter cfg outputs 0 + 1)). lia. }
    destruct (IH n Hprev) as (front & tail & Heq & Hlen & Hall).
    exists front, (tail ++ [out])%list. repeat split.
    + rewrite Heq, app_assoc. reflexivity.
    + rewrite length_app, Hlen. simpl. lia.
    + apply Forall_app. split; [exact Hall |].
      constructor; [| constructor]. apply ContainsCompletionSignal_spec. exact Hc.
Qed.

(** ** The iteration driver *)

Section Iteration.
Context {L : GoLib}.
Import Config Orchestrator.

(** [Client.Run] never returns an error. *)
Lemma Run_nil_error (proc : ProcResult) : snd (Claude.Run proc) = None.
Proof. unfold Claude.Run. destruct (proc_err proc); reflexivity. Qed.

(** The orchestrator after an iteration that reached the agent. *)
Definition afterAgent (cfg : Config) (env : IterEnv) (o : State) : State :=
  let result := fst (Claude.Run (env_claude env)) in
  mkState (iteration o)
          (PrimFloat.add (totalCost o) (Claude.Cost result))
          (updateCompletionSignalCount cfg (Claude.Output result)
                                       (completionSignalCount o))
          (startTime o) (baseBranch o).

(** *** Reasoning about the monad *)

(** [m] leaves the orchestrator as it found it. *)
Definition keeps {A : Type} (m : M A) : Prop :=
  forall o, snd (fst (m o)) = o.

(** [m] started in [o] leaves the orchestrator [o']. *)
Definition endsIn {A : Type} (m : M A) (o o' : State) : Prop :=
  snd (fst (m o)) = o'.

Lemma keeps_ret {A : Type} (a : A) : keeps (ret a).
Proof. intros o. reflexivity. Qed.

Lemma keeps_exit {A : Type} (r : IterResult) : keeps (@exit A r).
Proof. intros o. reflexivity. Qed.

Lemma keeps_emit (evs : list Event) : keeps (emit evs).
Proof. intros o. reflexivity. Qed.

Lemma keeps_get : keeps get.
Proof. intros o. reflexivity. Qed.

Lemma keeps_check (prefix : string) (err : option string) :
  keeps (check prefix err).
Proof. destruct err; intros o; reflexivity. Qed.

Lemma keeps_bind {A B : Type} (m : M A) (f : A -> M B) :
  keeps m -> (forall a, keeps (f a)) -> keeps (bind m f).
Proof.
  intros Hm Hf o. unfold bind. specialize (Hm o).
  destruct (m o) as [[[a | x] o'] evs]; simpl in Hm; subst o'.
  - exact (Hf a o).
  - reflexivity.
Qed.

Lemma keeps_when (b : bool) (m : M unit) : keeps m -> keeps (when b m).
Proof. destruct b; [trivial | intros _; apply keeps_ret]. Qed.

Lemma endsIn_keeps {A : Type} (m : M A) (o : State) : keeps m -> endsIn m o o.
Proof. intros H. apply H. Qed.

Lemma endsIn_bind {A B : Type} (m : M A) (f : A -> M B) (o o' : State) (a : A) :
  keeps m -> fst (fst (m o)) = inl a -> endsIn (f a) o o' ->
  endsIn (bind m f) o o'.
Proof.
  unfold endsIn, bind. intros Hm Ha Hf. specialize (Hm o).
  destruct (m o) as [[r o1] evs]. simpl in Hm, Ha. subst o1 r.
  exact Hf.
Qed.

Lemma endsIn_put {B : Type} (x : State) (f : unit -> M B) (o o' : State) :
  endsIn (f tt) x o' -> endsIn (bind (put x) f) o o'.
Proof.
  unfold endsIn, bind, put. intros Hf. exact Hf.
Qed.

Ltac keeps_tac :=
  repeat first
    [ apply keeps_ret | apply keeps_exit | apply keeps_emit | apply keeps_get
    | apply keeps_check
    | apply keeps_when
    | apply keeps_bind; [| intros ?]
    | match goal with
      | |- keeps (match ?x with _ => _ end) => destruct x
      end ].

Lemma runIteration_state (cfg : Config) (env : IterEnv) (o : State) :
  snd (fst (runIteration cfg env o))
  = match env_createBranch env with
    | Some _ => o
    | None => afterAgent cfg env o
    end.
Proof.
  assert (Hbody : endsIn (runIterationBody cfg env) o
                         match env_createBranch env with
                         | Some _ => o
                         | None => afterAgent cfg env o
                         end).
  { unfold runIterationBody, afterAgent.
    pose proof (Run_nil_error (env_claude env)) as Hnil.
    apply endsIn_bind with (a := o); [apply keeps_get | reflexivity |].
    apply endsIn_bind with (a := tt); [apply keeps_emit | reflexivity |].
    destruct (env_createBranch env) as [e |].
    { apply endsIn_keeps. keeps_tac. }
    apply endsIn_bind with (a := tt); [apply keeps_check | reflexivity |].
    apply endsIn_bind with (a := tt); [apply keeps_emit | reflexivity |].
    apply endsIn_bind with (a := tt); [apply keeps_emit | reflexivity |].
    destruct (Claude.Run (env_claude env)) as [result err].
    simpl in Hnil. subst err. cbn [fst].
    apply endsIn_bind with (a := tt); [apply keeps_check | reflexivity |].
    apply endsIn_put.
    apply endsIn_bind
      with (a := setTotalCost o (PrimFloat.add (totalCost o) (Claude.Cost result)));
      [apply keeps_get | reflexivity |].
    apply endsIn_put.
    apply endsIn_keeps. keeps_tac. }
  unfold endsIn in Hbody. unfold runIteration.
  destruct (runIterationBody cfg env o) as [[[u | r] o'] evs]; exact Hbody.
Qed.

End Iteration.

(** C5.  A cycle whose output does not hold the completion phrase (as an
    exact, case-sensitive substring) sets the counter to 0; a cycle whose
    output holds it increments the counter (by one below [MaxInt64]); these
    are the updates [runIteration] makes.  Starting from 0, the counter is
    at least the threshold [T >= 1] only when the last [T] cycles all held
    the phrase, and [T] matching cycles in a row reach it; a non-matching
    cycle makes the counter forget everything before it.  An empty phrase
    never matches: the counter is 0 after every cycle. *)
Theorem C5_completion_counter :
  forall (cfg : Config.Config),
    let signal := Config.CompletionSignal cfg in
    let update := Orchestrator.updateCompletionSignalCount cfg in
    (* the test is an exact substring test *)
    (forall output,
        Claude.ContainsCompletionSignal output signal = true <->
        signal <> EmptyString /\ exists pre post, output = pre ++ signal ++ post)
    (* one cycle *)
    /\ (forall output count, ~ holdsPhrase signal output -> update output count = 0)
    /\ (forall output count,
           holdsPhrase signal output ->
           update output count = GoInt.wrap64 (count + 1)
           /\ (GoInt.MinInt64 <= count < GoInt.MaxInt64 ->
               update output count = count + 1))
    /\ (forall (L : GoLib) (env : Orchestrator.IterEnv) (o : Orchestrator.State),
           Orchestrator.env_createBranch env = None ->
           Orchestrator.completionSignalCount
             (snd (fst (Orchestrator.runIteration cfg env o)))
           = update (Claude.Output (fst (Claude.Run (Orchestrator.env_claude env))))
                    (Orchestrator.completionSignalCount o))
    (* sequences of cycles *)
    /\ (forall outputs,
           1 <= Config.CompletionThreshold cfg ->
           countAfter cfg outputs 0 >= Config.CompletionThreshold cfg ->
           exists front tail,
             outputs = (front ++ tail)%list
             /\ Z.of_nat (length tail) = Config.CompletionThreshold cfg
             /\ Forall (holdsPhrase signal) tail)
    /\ (forall outputs,
           Forall (holdsPhrase signal) outputs ->
           Z.of_nat (length outputs) <= GoInt.MaxInt64 ->
           countAfter cfg outputs 0 = Z.of_nat (length outputs))
    /\ (forall before output after count,
           ~ holdsPhrase signal output ->
           countAfter cfg (before ++ [output])%list count = 0
           /\ countAfter cfg (before ++ output :: after)%list count
              = countAfter cfg after 0)
    (* the empty phrase *)
    /\ (signal = EmptyString ->
        forall output count, update output count = 0).
Proof.
  intros cfg signal update. subst signal update.
  assert (Hmiss : forall output count,
             ~ holdsPhrase (Config.CompletionSignal cfg) output ->
             Orchestrator.updateCompletionSignalCount cfg output count = 0).
  { intros output count H. unfold Orchestrator.updateCompletionSignalCount.
    destruct (Claude.ContainsCompletionSignal output (Config.CompletionSignal cfg))
      eqn:Hc; [| reflexivity].
    exfalso. apply H. apply ContainsCompletionSignal_spec. exact Hc. }
  assert (Hhit : forall output count,
             holdsPhrase (Config.CompletionSignal cfg) output ->
             Orchestrator.updateCompletionSignalCount cfg output count
             = GoInt.wrap64 (count + 1)).
  { intros output count H. apply ContainsCompletionSignal_spec in H.
    unfold Orchestrator.updateCompletionSignalCount. rewrite H. reflexivity. }
  split; [| split; [| split; [| split; [| split; [| split; [| split]]]]]].
  - intros output. apply ContainsCompletionSignal_spec.
  - exact Hmiss.
  - intros output count H. split; [apply Hhit; exact H |].
    intros Hr. rewrite (Hhit _ _ H). apply wrap64_inRange.
    unfold GoInt.inRange, GoInt.MinInt64, GoInt.MaxInt64 in *. lia.
  - intros L env o Hb. rewrite runIteration_state, Hb. reflexivity.
  - intros outputs HT Hge.
    destruct (countAfter_positive cfg outputs
                (Z.to_nat (Config.CompletionThreshold cfg))) as (front & tail & H).
    { rewrite Z2Nat.id; lia. }
    exists front, tail. destruct H as (H1 & H2 & H3).
    repeat split; [exact H1 | rewrite H2, Z2Nat.id; lia | exact H3].
  - induction outputs as [|out outputs IH] using rev_ind; intros Hall Hlen.
    + reflexivity.
    + apply Forall_app in Hall. destruct Hall as [Hall Hout].
      inversion Hout as [| ? ? Hhold _]; subst.
      rewrite length_app in Hlen |- *. simpl length in Hlen |- *.
      rewrite countAfter_app, IH by (try assumption; lia).
      unfold countAfter; simpl. rewrite (Hhit _ _ Hhold).
      rewrite wrap64_inRange;
        unfold GoInt.inRange, GoInt.MinInt64, GoInt.MaxInt64 in *; lia.
  - intros before output after count Hno.
    assert (H0 : countAfter cfg (before ++ [output])%list count = 0).
    { rewrite countAfter_app. unfold countAfter at 1. simpl. apply Hmiss, Hno. }
    split; [exact H0 |].
    replace (before ++ output :: after)%list
      with ((before ++ [output]) ++ after)%list
      by (rewrite <- app_assoc; reflexivity).
    rewrite countAfter_app, H0. reflexivity.
  - intros Hempty output count. apply Hmiss.
    intros [Hne _]. apply Hne. exact Hempty.
Qed.

(** Two signals, a miss, then one signal: the counter is 1, not 3, and the
    lower-case phrase is a miss. *)
Lemma C5_completion_counter_witness :
  countAfter sampleConfig
             ["done CONTINUOUS_CLAUDE_PROJECT_COMPLETE";
              "CONTINUOUS_CLAUDE_PROJECT_COMPLETE again";
              "continuous_claude_project_complete"] 0 = 0
  /\ countAfter sampleConfig
                ["CONTINUOUS_CLAUDE_PROJECT_COMPLETE";
                 "CONTINUOUS_CLAUDE_PROJECT_COMPLETE";
                 "CONTINUOUS_CLAUDE_PROJECT_COMPLETE"] 0 = 3.
Proof.
  split.
  - apply (C5_completion_counter sampleConfig)
      with (before := ["done CONTINUOUS_CLAUDE_PROJECT_COMPLETE";
                       "CONTINUOUS_CLAUDE_PROJECT_COMPLETE again"])
           (output := "continuous_claude_project_complete")
           (after := @nil string).
    intros H. apply ContainsCompletionSignal_spec in H. vm_compute in H.
    discriminate H.
  - apply (C5_completion_counter sampleConfig).
    + repeat (apply Forall_cons;
              [apply ContainsCompletionSignal_spec; reflexivity |]).
      apply Forall_nil.
    + vm_compute. discriminate.
Defined.

Section IterationExits.
Context {L : GoLib}.
Import Config Orchestrator.

(** Every early exit of [m] satisfies [P]. *)
Definition exitsOnly {A : Type} (P : IterResult -> Prop) (m : M A) : Prop :=
  forall o r, fst (fst (m o)) = inr r -> P r.

Variable P : IterResult -> Prop.

Lemma exitsOnly_ret {A : Type} (a : A) : exitsOnly P (ret a).
Proof. intros o r H. discriminate H. Qed.

Lemma exitsOnly_emit (evs : list Event) : exitsOnly P (emit evs).
Proof. intros o r H. discriminate H. Qed.

Lemma exitsOnly_get : exitsOnly P get.
Proof. intros o r H. discriminate H. Qed.

Lemma exitsOnly_put (x : State) : exitsOnly P (put x).
Proof. intros o r H. discriminate H. Qed.

Lemma exitsOnly_exit {A : Type} (r : IterResult) : P r -> exitsOnly P (@exit A r).
Proof. intros HP o r' H. injection H as <-. exact HP. Qed.

Lemma exitsOnly_check_nil (prefix : string) : exitsOnly P (check prefix None).
Proof. intros o r H. discriminate H. Qed.

Lemma exitsOnly_check (prefix : string) (err : option string) :
  (forall e, P (Returned (Some (prefix ++ ": " ++ e)))) ->
  exitsOnly P (check prefix err).
Proof.
  intros HP. destruct err as [e |].
  - apply exitsOnly_exit, HP.
  - apply exitsOnly_check_nil.
Qed.

Lemma exitsOnly_bind {A B : Type} (m : M A) (f : A -> M B) :
  exitsOnly P m -> (forall a, exitsOnly P (f a)) -> exitsOnly P (bind m f).
Proof.
  intros Hm Hf o r. unfold bind. specialize (Hm o).
  destruct (m o) as [[[a | x] o'] evs]; simpl.
  - apply Hf.
  - intros H. injection H as <-. apply Hm. reflexivity.
Qed.

Lemma exitsOnly_when (b : bool) (m : M unit) :
  exitsOnly P m -> exitsOnly P (when b m).
Proof. destruct b; [trivial | intros _; apply exitsOnly_ret]. Qed.

Lemma exitsOnly_runIteration (cfg : Config) (env : IterEnv) (o : State) :
  P (Returned None) ->
  exitsOnly P (runIterationBody cfg env) ->
  P (fst (fst (runIteration cfg env o))).
Proof.
  intros Hnil Hbody. unfold runIteration. specialize (Hbody o).
  destruct (runIterationBody cfg env o) as [[[u | r] o'] evs]; simpl in *.
  - exact Hnil.
  - apply Hbody. reflexivity.
Qed.

End IterationExits.

Ltac exits_tac :=
  repeat first
    [ apply exitsOnly_ret | apply exitsOnly_emit | apply exitsOnly_get
    | apply exitsOnly_put | apply exitsOnly_check_nil
    | apply exitsOnly_check; [intros ?]
    | apply exitsOnly_exit
    | apply exitsOnly_when
    | apply exitsOnly_bind; [| intros ?]
    | match goal with
      | |- exitsOnly _ (match ?x with _ => _ end) => destruct x
      end ].

(** A decoder that takes no text for JSON: [Client.Run] then falls back to
    the raw output. *)
Definition plainTextLib : GoLib :=
  mkGoLib (fun s => s) (fun _ => None) (fun _ => None) (fun _ => None)
          (fun _ => 0%float) (fun d => GoInt.itoa d ++ "ns").

(** C9.  [Client.Run] returns a nil error for every outcome of the agent
    process; a failed process is reported by [IsError = true], with the
    standard error text as the output when there is some.  Hence
    [runIteration] never returns the error "Claude execution failed", and
    every iteration whose branch was created adds the cost of the result to
    the accumulated cost. *)
Theorem C9_agent_error_is_a_flag :
  forall (L : GoLib),
    (forall proc, snd (Claude.Run proc) = None)
    /\ (forall proc e,
           proc_err proc = Some e ->
           Claude.IsError (fst (Claude.Run proc)) = true
           /\ (proc_stderr proc <> EmptyString ->
               Claude.Output (fst (Claude.Run proc)) = proc_stderr proc))
    /\ (forall cfg env o e,
           fst (fst (Orchestrator.runIteration cfg env o))
           <> Orchestrator.Returned (Some ("Claude execution failed: " ++ e)))
    /\ (forall cfg env o,
           Orchestrator.env_createBranch env = None ->
           Orchestrator.totalCost (snd (fst (Orchestrator.runIteration cfg env o)))
           = PrimFloat.add (Orchestrator.totalCost o)
                           (Claude.Cost
                              (fst (Claude.Run (Orchestrator.env_claude env))))).
Proof.
  intros L. split; [| split; [| split]].
  - apply Run_nil_error.
  - intros proc e He. unfold Claude.Run. rewrite He.
    destruct (proc_stderr proc) as [| c s] eqn:Hs.
    + split; [reflexivity | intros H; congruence].
    + split; reflexivity.
  - intros cfg env o e.
    apply (exitsOnly_runIteration
             (fun r => forall e, r <> Orchestrator.Returned
                                        (Some ("Claude execution failed: " ++ e)))).
    + discriminate.
    + unfold Orchestrator.runIterationBody.
      pose proof (Run_nil_error (Orchestrator.env_claude env)) as Hnil.
      destruct (Claude.Run (Orchestrator.env_claude env)) as [result err].
      simpl in Hnil. subst err.
      exits_tac; cbn; discriminate.
  - intros cfg env o Hb. rewrite runIteration_state, Hb. reflexivity.
Qed.

(** A process that exits with status 1 and writes to its standard error. *)
Lemma C9_agent_error_is_a_flag_witness :
  let proc := mkProcResult (Some "exit status 1") EmptyString "boom" in
  @Claude.Run plainTextLib proc
  = (Claude.mkResult "boom" 0%float true EmptyString, None)
  /\ Claude.IsError (fst (@Claude.Run plainTextLib proc)) = true
  /\ Claude.Output (fst (@Claude.Run plainTextLib proc)) = "boom".
Proof.
  intros proc. split; [reflexivity |].
  pose proof (C9_agent_error_is_a_flag plainTextLib) as (_ & H & _).
  destruct (H proc "exit status 1" eq_refl) as [H1 H2].
  split; [exact H1 | apply H2; discriminate].
Defined.

(** ** Paths through one iteration *)

Section IterationPaths.
Context {L : GoLib}.
Import Config Orchestrator.

(** The branch of the iteration. *)
Definition branchOf (cfg : Config) (env : IterEnv) (o : State) : string :=
  Git.GenerateBranchName (env_date env) (env_hash env) (GitBranchPrefix cfg)
                         (iteration o).

(** The calls of an iteration up to the report of the agent's result. *)
Definition agentEvents (cfg : Config) (env : IterEnv) (o : State) : list Event :=
  let result := fst (Claude.Run (env_claude env)) in
  ([EvUi Info ("Creating branch: " ++ branchOf cfg env o);
    EvCreateBranch (branchOf cfg env o);
    EvNotesRead;
    EvClaudeRun (Claude.BuildPrompt (Prompt cfg) (env_notes env)
                                    (CompletionSignal cfg) (iteration o))]
   ++ (if Claude.ContainsCompletionSignal (Claude.Output result)
                                          (CompletionSignal cfg)
       then [EvUi Info ("Completion signal detected ("
                        ++ GoInt.itoa (updateCompletionSignalCount
                                         cfg (Claude.Output result)
                                         (completionSignalCount o))
                        ++ "/" ++ GoInt.itoa (CompletionThreshold cfg) ++ ")")]
       else [])
   ++ (if Claude.IsError result
       then [EvUi Warning "Claude reported an error in output"]
       else []))%list.

(** Calls that commit, publish or open, merge or close a review unit. *)
Definition isPublishing (ev : Event) : bool :=
  match ev with
  | EvClaudeRunCommit | EvPush _ | EvCreatePR _ _ _ | EvMergePR _ _
  | EvClosePR _ _ => true
  | _ => false
  end.

(** Calls that leave or delete a branch. *)
Definition isBranchCleanup (ev : Event) : bool :=
  match ev with
  | EvSwitchBranch _ | EvDeleteBranch _ => true
  | _ => false
  end.

Lemma agentEvents_quiet (cfg : Config) (env : IterEnv) (o : State) :
  existsb isPublishing (agentEvents cfg env o) = false
  /\ existsb isBranchCleanup (agentEvents cfg env o) = false.
Proof.
  unfold agentEvents.
  destruct (Claude.ContainsCompletionSignal _ _);
    destruct (Claude.IsError _); split; reflexivity.
Qed.

Ltac iter_eval :=
  cbn -[Github.WaitForChecks Git.PushWithRetry Claude.RunCommit
        Claude.BuildPrompt Git.GenerateBranchName GoInt.itoa String.append
        updateCompletionSignalCount Z.mul].

Ltac iter_start Hb :=
  let Hnil := fresh "Hnil" in
  let result := fresh "result" in
  let err := fresh "err" in
  match goal with
  | |- context [runIteration _ ?env _] =>
      pose proof (Run_nil_error (env_claude env)) as Hnil;
      unfold runIteration, runIterationBody, agentEvents, afterAgent, branchOf;
      rewrite Hb;
      destruct (Claude.Run (env_claude env)) as [result err];
      simpl in Hnil; subst err
  end.

Ltac iter_agent :=
  iter_eval;
  match goal with
  | |- context [Claude.ContainsCompletionSignal ?a ?b] =>
      destruct (Claude.ContainsCompletionSignal a b)
  end;
  match goal with
  | |- context [Claude.IsError ?r] => destruct (Claude.IsError r)
  end;
  iter_eval.

Lemma runIteration_disableCommits (cfg : Config) (env : IterEnv) (o : State) :
  env_createBranch env = None ->
  DisableCommits cfg = true ->
  runIteration cfg env o
  = (Returned None, afterAgent cfg env o,
     (agentEvents cfg env o
      ++ [EvUi Info "Commits disabled, skipping PR workflow"])%list).
Proof.
  intros Hb Hd. iter_start Hb. rewrite Hd. iter_agent; reflexivity.
Qed.

Lemma runIteration_dryRun (cfg : Config) (env : IterEnv) (o : State) :
  env_createBranch env = None ->
  DisableCommits cfg = false ->
  DryRun cfg = true ->
  runIteration cfg env o
  = (Returned None, afterAgent cfg env o,
     (agentEvents cfg env o
      ++ [EvUi Info "Dry run mode, skipping commit and PR";
          EvSwitchBranch (baseBranch o);
          EvDeleteBranch (branchOf cfg env o)])%list).
Proof.
  intros Hb Hd Hr. iter_start Hb. rewrite Hd, Hr. iter_agent; reflexivity.
Qed.

Lemma runIteration_noChanges (cfg : Config) (env : IterEnv) (o : State) :
  env_createBranch env = None ->
  DisableCommits cfg = false ->
  DryRun cfg = false ->
  env_stageAll env = None ->
  env_hasChanges env = Ok false ->
  runIteration cfg env o
  = (Returned None, afterAgent cfg env o,
     (agentEvents cfg env o
      ++ [EvStageAll; EvHasChanges;
          EvUi Info "No changes to commit";
          EvSwitchBranch (baseBranch o);
          EvDeleteBranch (branchOf cfg env o)])%list).
Proof.
  intros Hb Hd Hr Hs Hc. iter_start Hb. rewrite Hd, Hr, Hs, Hc.
  iter_agent; reflexivity.
Qed.

Lemma PushWithRetry_first_ok (push : nat -> option string) (branch : string)
      (maxRetries : Z) :
  push O = None -> 0 <= maxRetries ->
  Git.PushWithRetry push branch maxRetries = (None, [EvPush branch]).
Proof.
  intros Hp Hn. unfold Git.PushWithRetry.
  destruct (Z.to_nat (maxRetries + 1)) as [| n] eqn:Hz; [lia |].
  simpl. rewrite Hp. reflexivity.
Qed.

Lemma WaitForChecks_poll_error (poll : nat -> Github.PollReply)
      (prNumber : string) (hasCallback : bool) (now timeout : Z) (e : string) :
  Github.GetPRStatus (Github.checksReply (poll O)) (Github.reviewReply (poll O))
  = Err e ->
  0 < timeout ->
  Github.WaitForChecks poll prNumber hasCallback now timeout
  = (Some (None, Some e), [EvGetPRStatus prNumber]).
Proof.
  intros He Ht.
  unfold Github.WaitForChecks, Github.waitForChecks, Github.waitFuel.
  cbn [Github.waitLoop].
  assert (Hlt : (now <? now + timeout) = true) by (apply Z.ltb_lt; lia).
  rewrite Hlt, He. reflexivity.
Qed.

(** The review system fails to answer the first poll of a published
    change: the iteration dereferences the nil status. *)
Lemma runIteration_poll_error (cfg : Config) (env : IterEnv) (o : State)
      (url e : string) :
  DisableCommits cfg = false ->
  DryRun cfg = false ->
  env_createBranch env = None ->
  env_stageAll env = None ->
  env_hasChanges env = Ok true ->
  proc_err (env_commit env) = None ->
  env_push env O = None ->
  env_createPR env = Ok url ->
  Github.GetPRStatus (Github.checksReply (env_poll env O))
                     (Github.reviewReply (env_poll env O)) = Err e ->
  fst (fst (runIteration cfg env o))
  = Panicked "invalid memory address or nil pointer dereference".
Proof.
  intros Hd Hr Hb Hs Hc Hm Hp Hu He. iter_start Hb.
  rewrite Hd, Hr, Hs, Hc, Hu.
  assert (Hcommit : exists msg, Claude.RunCommit (env_commit env) = Ok msg).
  { unfold Claude.RunCommit. rewrite Hm.
    destruct (Claude.parseClaudeOutput _ _) as [parsed [x |]]; eauto. }
  destruct Hcommit as [msg Hcommit]. rewrite Hcommit.
  iter_agent;
    (rewrite (PushWithRetry_first_ok (env_push env) _ 3 Hp) by lia);
    iter_eval;
    (rewrite (WaitForChecks_poll_error _ _ _ _ _ e He) by (unfold Git.Second; lia));
    iter_eval; reflexivity.
Qed.

End IterationPaths.

(** ** Sample collaborators *)

(** An iteration in which everything succeeds up to the opening of the pull
    request, and the review system then fails to answer. *)
Definition pollFailsEnv : Orchestrator.IterEnv :=
  Orchestrator.mkIterEnv
    "2025-01-15" "a1b2c3d4" None EmptyString
    (mkProcResult None "Added two tests" EmptyString)
    None (Ok true)
    (mkProcResult None "test: add two tests" EmptyString)
    "test: add two tests"
    (fun _ => None)
    "test: add two tests"
    (Ok "https://github.com/guzus/deep-claude/pull/17")
    0
    (fun _ => Github.mkPollReply (Err "failed to get PR checks: exit status 1")
                                 (Ok EmptyString) 0)
    None.

Definition pollFailsRun : Orchestrator.RunEnv :=
  Orchestrator.mkRunEnv 0 None None (fun _ => 0) (fun _ => pollFailsEnv) 0.

(** The orchestrator built by [New] on branch main. *)
Definition freshState : Orchestrator.State :=
  Orchestrator.mkState 0 0%float 0 0 "main".

Definition disableCommitsConfig : Config.Config :=
  Config.mkConfig "Add tests" 3 0%float 0 "squash" "continuous-claude/"
                  true false "CONTINUOUS_CLAUDE_PROJECT_COMPLETE" 3.

(** An error returned by [runIteration] is logged with the number of the
    iteration, and the main loop goes on with its next pass. *)
Lemma mainLoop_logs_and_continues {L : GoLib} (fuel : nat) (cfg : Config.Config)
      (renv : Orchestrator.RunEnv) (k : nat) (o o' : Orchestrator.State)
      (reason : option StopReason) (err : string) (evs : list Event) :
  let o1 := Orchestrator.setIteration
              o (GoInt.wrap64 (Orchestrator.iteration o + 1)) in
  Orchestrator.checkStopConditions cfg o1 (Orchestrator.run_clock renv k)
  = (false, reason) ->
  Orchestrator.runIteration cfg (Orchestrator.run_iter renv k) o1
  = (Orchestrator.Returned (Some err), o', evs) ->
  Orchestrator.mainLoop (S fuel) cfg renv k o
  = Orchestrator.after
      (evs ++ [EvUi Error ("Iteration " ++ GoInt.itoa (Orchestrator.iteration o')
                           ++ " failed: " ++ err)])
      (Orchestrator.mainLoop fuel cfg renv (S k) o').
Proof.
  intros o1 Hstop Hiter. cbn [Orchestrator.mainLoop]. fold o1.
  rewrite Hstop, Hiter. reflexivity.
Qed.

(** C2.  Errors of branch creation, commit, publish, opening and merge are
    returned by [runIteration] and the loop goes on, but an error of the
    review system while polling is not contained: [WaitForChecks] returns a
    nil status with it, [runIteration] logs a warning and then reads
    [status.HasFailedChecks], and the run ends in a panic instead of
    reaching the next stop evaluation. *)
Theorem C2_poll_error_crashes_run :
  forall (L : GoLib) (cfg : Config.Config) (renv : Orchestrator.RunEnv)
         (o : Orchestrator.State) (fuel : nat) (url e : string),
    let env := Orchestrator.run_iter renv O in
    let o1 := Orchestrator.setIteration
                (Orchestrator.setStartTime o (Orchestrator.run_start renv))
                (GoInt.wrap64 (Orchestrator.iteration o + 1)) in
    Orchestrator.run_validate renv = None ->
    fst (Orchestrator.checkStopConditions cfg o1 (Orchestrator.run_clock renv O))
    = false ->
    Config.DisableCommits cfg = false ->
    Config.DryRun cfg = false ->
    Orchestrator.env_createBranch env = None ->
    Orchestrator.env_stageAll env = None ->
    Orchestrator.env_hasChanges env = Ok true ->
    proc_err (Orchestrator.env_commit env) = None ->
    Orchestrator.env_push env O = None ->
    Orchestrator.env_createPR env = Ok url ->
    Github.GetPRStatus (Github.checksReply (Orchestrator.env_poll env O))
                       (Github.reviewReply (Orchestrator.env_poll env O))
    = Err e ->
    fst (fst (Orchestrator.runIteration cfg env o1))
    = Orchestrator.Panicked "invalid memory address or nil pointer dereference"
    /\ fst (fst (Orchestrator.Run (S fuel) cfg renv o))
       = Orchestrator.RunPanicked
           "invalid memory address or nil pointer dereference".
Proof.
  intros L cfg renv o fuel url e env o1 Hv Hstop Hd Hr Hb Hs Hc Hm Hp Hu He.
  assert (Hiter : fst (fst (Orchestrator.runIteration cfg env o1))
                  = Orchestrator.Panicked
                      "invalid memory address or nil pointer dereference").
  { apply (runIteration_poll_error cfg env o1 url e); assumption. }
  split; [exact Hiter |].
  unfold Orchestrator.Run. rewrite Hv.
  cbn [Orchestrator.mainLoop].
  change (Orchestrator.iteration
            (Orchestrator.setStartTime o (Orchestrator.run_start renv)))
    with (Orchestrator.iteration o).
  fold o1. fold env.
  destruct (Orchestrator.checkStopConditions cfg o1 (Orchestrator.run_clock renv O))
    as [stop reason].
  simpl in Hstop. subst stop.
  destruct (Orchestrator.runIteration cfg env o1) as [[r o'] evs].
  simpl in Hiter. subst r. destruct (Orchestrator.run_notesInit renv); reflexivity.
Qed.

Lemma C2_poll_error_crashes_run_witness :
  fst (fst (@Orchestrator.Run plainTextLib 5 sampleConfig pollFailsRun freshState))
  = Orchestrator.RunPanicked "invalid memory address or nil pointer dereference".
Proof.
  apply (C2_poll_error_crashes_run
           plainTextLib sampleConfig pollFailsRun freshState 4
           "https://github.com/guzus/deep-claude/pull/17"
           "failed to get PR checks: exit status 1");
    reflexivity.
Defined.

(** C8.  After the agent has run: with [DisableCommits] the iteration
    returns at once, and makes no call that switches back to the base branch
    or deletes the feature branch; in dry-run mode, and when staging finds
    no change, its last two calls are the switch to the base branch and the
    deletion of the feature branch.  None of the three paths commits,
    publishes or opens a review unit. *)
Theorem C8_branch_discard_paths :
  forall (L : GoLib) (cfg : Config.Config) (env : Orchestrator.IterEnv)
         (o : Orchestrator.State),
    Orchestrator.env_createBranch env = None ->
    (Config.DisableCommits cfg = true ->
     exists evs,
       Orchestrator.runIteration cfg env o
       = (Orchestrator.Returned None, afterAgent cfg env o, evs)
       /\ existsb isPublishing evs = false
       /\ existsb isBranchCleanup evs = false)
    /\ (Config.DisableCommits cfg = false ->
        Config.DryRun cfg = true ->
        exists evs,
          Orchestrator.runIteration cfg env o
          = (Orchestrator.Returned None, afterAgent cfg env o,
             (evs ++ [EvSwitchBranch (Orchestrator.baseBranch o);
                      EvDeleteBranch (branchOf cfg env o)])%list)
          /\ existsb isPublishing evs = false)
    /\ (Config.DisableCommits cfg = false ->
        Config.DryRun cfg = false ->
        Orchestrator.env_stageAll env = None ->
        Orchestrator.env_hasChanges env = Ok false ->
        exists evs,
          Orchestrator.runIteration cfg env o
          = (Orchestrator.Returned None, afterAgent cfg env o,
             (evs ++ [EvSwitchBranch (Orchestrator.baseBranch o);
                      EvDeleteBranch (branchOf cfg env o)])%list)
          /\ existsb isPublishing evs = false).
Proof.
  intros L cfg env o Hb.
  destruct (agentEvents_quiet cfg env o) as [Hq Hk].
  split; [| split].
  - intros Hd. eexists. split; [apply runIteration_disableCommits; assumption |].
    rewrite !existsb_app, Hq, Hk. split; reflexivity.
  - intros Hd Hr.
    exists (agentEvents cfg env o
            ++ [EvUi Info "Dry run mode, skipping commit and PR"])%list.
    split.
    + rewrite runIteration_dryRun by assumption.
      rewrite <- app_assoc. reflexivity.
    + rewrite existsb_app, Hq. reflexivity.
  - intros Hd Hr Hs Hc.
    exists (agentEvents cfg env o
            ++ [EvStageAll; EvHasChanges; EvUi Info "No changes to commit"])%list.
    split.
    + rewrite runIteration_noChanges by assumption.
      rewrite <- app_assoc. reflexivity.
    + rewrite existsb_app, Hq. reflexivity.
Qed.

(** With commits disabled the calls of the iteration are the creation of
    the branch, the reading of the notes and the agent: the branch stays. *)
Lemma C8_branch_discard_paths_witness :
  exists prompt,
    @Orchestrator.runIteration plainTextLib disableCommitsConfig pollFailsEnv
                               (Orchestrator.mkState 1 0%float 0 0 "main")
    = (Orchestrator.Returned None,
       Orchestrator.mkState 1 0%float 0 0 "main",
       [EvUi Info "Creating branch: continuous-claude/iteration-1/2025-01-15-a1b2c3d4";
        EvCreateBranch "continuous-claude/iteration-1/2025-01-15-a1b2c3d4";
        EvNotesRead;
        EvClaudeRun prompt;
        EvUi Info "Commits disabled, skipping PR workflow"]).
Proof.
  destruct (C8_branch_discard_paths
              plainTextLib disableCommitsConfig pollFailsEnv
              (Orchestrator.mkState 1 0%float 0 0 "main") eq_refl)
    as [H _].
  destruct (H eq_refl) as (evs & Hrun & _ & _).
  eexists. rewrite Hrun. vm_compute in Hrun.
  injection Hrun as <-. vm_compute. reflexivity.
Defined.

(** ** Waiting for the checks *)

Section Waiting.
Context {L : GoLib}.
Import Github.

Variable poll : nat -> PollReply.
Variable prNumber : string.
Variable hasCallback : bool.

(** The answer of [GetPRStatus] to poll [j]. *)
Definition statusAt (j : nat) : result PRStatus :=
  GetPRStatus (checksReply (poll j)) (reviewReply (poll j)).

(** A snapshot on which [WaitForChecks] returns. *)
Definition terminal (s : PRStatus) : bool :=
  HasFailedChecks s || AllChecksPassed s.

(** Poll [j] is answered by a snapshot on which the loop goes on. *)
Definition goesOn (j : nat) : Prop :=
  exists s, statusAt j = Ok s /\ terminal s = false.

(** The clock after [n] further passes of the loop that started at [now]
    with poll [k]. *)
Fixpoint clockAfter (now : Z) (k n : nat) : Z :=
  match n with
  | O => now
  | S n' => clockAfter (now + Z.of_N (latency (poll k)) + pollInterval) (S k) n'
  end.

(** The snapshot seen last after [n] further polls from poll [k] on. *)
Definition lastSeen (lastStatus : option PRStatus) (k n : nat) : option PRStatus :=
  match n with
  | O => lastStatus
  | S m => match statusAt (k + m) with
           | Ok s => Some s
           | Err _ => None
           end
  end.

Definition isPoll (ev : Event) : bool :=
  match ev with EvGetPRStatus _ => true | _ => false end.

Definition isSleep (ev : Event) : bool :=
  match ev with EvSleep _ => true | _ => false end.

Definition pollCount (evs : list Event) : nat := length (filter isPoll evs).

Definition sleepCount (evs : list Event) : nat := length (filter isSleep evs).

(** What each exit of the loop tells, [n] being the number of polls that
    were answered by a snapshot on which the loop went on. *)
Definition exitSpec (deadline now : Z) (k : nat) (lastStatus : option PRStatus)
           (x : WaitExit) (evs : list Event) : Prop :=
  match x with
  | Terminal s =>
      exists n,
        pollCount evs = S n /\ sleepCount evs = n
        /\ (forall j, (j < n)%nat -> goesOn (k + j))
        /\ clockAfter now k n < deadline
        /\ statusAt (k + n) = Ok s
        /\ terminal s = true
  | PollFailed e =>
      exists n,
        pollCount evs = S n /\ sleepCount evs = n
        /\ (forall j, (j < n)%nat -> goesOn (k + j))
        /\ clockAfter now k n < deadline
        /\ statusAt (k + n) = Err e
  | TimedOut last =>
      exists n,
        pollCount evs = n /\ sleepCount evs = n
        /\ (forall j, (j < n)%nat -> goesOn (k + j))
        /\ deadline <= clockAfter now k n
        /\ last = lastSeen lastStatus k n
  | OutOfFuel => True
  end.

Lemma filter_none {A : Type} (f : A -> bool) (l : list A) :
  (forall x, In x l -> f x = false) -> filter f l = [].
Proof.
  induction l as [| x rest IH]; intros H; [reflexivity |].
  simpl. rewrite (H x (or_introl eq_refl)).
  apply IH. intros y Hin. apply H. right. exact Hin.
Qed.

Lemma counts_cons_poll (notified evs : list Event) :
  (forall ev, In ev notified -> isPoll ev = false /\ isSleep ev = false) ->
  pollCount (EvGetPRStatus prNumber :: notified ++ evs) = S (pollCount evs)
  /\ sleepCount (EvGetPRStatus prNumber :: notified ++ evs) = sleepCount evs.
Proof.
  intros Hn. unfold pollCount, sleepCount. simpl.
  rewrite !filter_app, !length_app.
  rewrite (filter_none isPoll notified) by (intros ev Hin; apply Hn; exact Hin).
  rewrite (filter_none isSleep notified) by (intros ev Hin; apply Hn; exact Hin).
  split; reflexivity.
Qed.

Lemma notified_quiet (lastStatus : option PRStatus) (status : PRStatus) :
  forall ev,
    In ev (if hasCallback && hasStatusChanged lastStatus status
           then [statusChange status] else []) ->
    isPoll ev = false /\ isSleep ev = false.
Proof.
  intros ev. destruct (hasCallback && hasStatusChanged lastStatus status); simpl.
  - intros [<- | []]. split; reflexivity.
  - intros [].
Qed.

Lemma waitLoop_exitSpec (fuel : nat) (deadline : Z) :
  forall (now : Z) (k : nat) (lastStatus : option PRStatus),
    exitSpec deadline now k lastStatus
             (fst (waitLoop poll prNumber hasCallback fuel deadline now k lastStatus))
             (snd (waitLoop poll prNumber hasCallback fuel deadline now k lastStatus)).
Proof.
  induction fuel as [| fuel IH]; intros now k lastStatus; cbn [waitLoop].
  - exact I.
  - destruct (now <? deadline) eqn:Hnow.
    2:{ apply Z.ltb_ge in Hnow. exists O. cbn.
        repeat split; try lia; try reflexivity. }
    apply Z.ltb_lt in Hnow.
    fold (statusAt k).
    destruct (statusAt k) as [status | e] eqn:Hk.
    2:{ exists O. rewrite Nat.add_0_r. cbn.
        repeat split; try assumption; try lia. }
    pose proof (notified_quiet lastStatus status) as Hquiet.
    set (notified := if hasCallback && hasStatusChanged lastStatus status
                     then [statusChange status] else []) in *.
    assert (Hhere : exitSpec deadline now k lastStatus (Terminal status)
                             (EvGetPRStatus prNumber :: notified)
                    \/ terminal status = false).
    { destruct (terminal status) eqn:Ht; [left | right; reflexivity].
      exists O. rewrite Nat.add_0_r.
      destruct (counts_cons_poll notified [] Hquiet) as [Hp Hs].
      rewrite app_nil_r in Hp, Hs.
      repeat split; try assumption. intros j Hj. lia. }
    destruct (HasFailedChecks status) eqn:Hf.
    { destruct Hhere as [H | H]; [exact H |].
      unfold terminal in H. rewrite Hf in H. discriminate H. }
    destruct (AllChecksPassed status) eqn:Ha.
    { destruct Hhere as [H | H]; [exact H |].
      unfold terminal in H. rewrite Hf, Ha in H. discriminate H. }
    clear Hhere.
    assert (Hgo : goesOn k).
    { exists status. split; [exact Hk |]. unfold terminal. rewrite Hf, Ha.
      reflexivity. }
    specialize (IH (now + Z.of_N (latency (poll k)) + pollInterval) (S k)
                   (Some status)).
    destruct (waitLoop poll prNumber hasCallback fuel deadline
                       (now + Z.of_N (latency (poll k)) + pollInterval)
                       (S k) (Some status)) as [x evs].
    cbn [fst snd] in IH |- *.
    destruct (counts_cons_poll notified (EvSleep pollInterval :: evs) Hquiet)
      as [Hp Hs].
    assert (Hp' : pollCount (EvGetPRStatus prNumber
                             :: notified ++ EvSleep pollInterval :: evs)
                  = S (pollCount evs)) by exact Hp.
    assert (Hs' : sleepCount (EvGetPRStatus prNumber
                              :: notified ++ EvSleep pollInterval :: evs)
                  = S (sleepCount evs)) by exact Hs.
    clear Hp Hs.
    assert (Hshift : forall n,
               (forall j, (j < n)%nat -> goesOn (S k + j)) ->
               forall j, (j < S n)%nat -> goesOn (k + j)).
    { intros n Hall j Hj. destruct j as [| j].
      - rewrite Nat.add_0_r. exact Hgo.
      - replace (k + S j)%nat with (S k + j)%nat by lia. apply Hall. lia. }
    destruct x as [s | e | last |]; cbn [exitSpec] in IH |- *.
    + destruct IH as (n & H1 & H2 & H3 & H4 & H5 & H6).
      exists (S n). rewrite Hp', Hs', H1, H2.
      replace (k + S n)%nat with (S k + n)%nat by lia.
      repeat split; try assumption. apply Hshift, H3.
    + destruct IH as (n & H1 & H2 & H3 & H4 & H5).
      exists (S n). rewrite Hp', Hs', H1, H2.
      replace (k + S n)%nat with (S k + n)%nat by lia.
      repeat split; try assumption. apply Hshift, H3.
    + destruct IH as (n & H1 & H2 & H3 & H4 & H5).
      exists (S n). rewrite Hp', Hs', H1, H2.
      repeat split; try assumption; [apply Hshift, H3 |].
      rewrite H5. destruct n as [| m]; cbn [lastSeen].
      * rewrite Nat.add_0_r, Hk. reflexivity.
      * replace (k + S m)%nat with (S k + m)%nat by lia. reflexivity.
    + exact I.
Qed.

(** Enough fuel: the loop is left by one of its [return] statements. *)
Lemma waitLoop_returns (fuel : nat) (deadline : Z) :
  forall (now : Z) (k : nat) (lastStatus : option PRStatus),
    deadline - now <= Z.of_nat fuel * pollInterval ->
    fst (waitLoop poll prNumber hasCallback (S fuel) deadline now k lastStatus)
    <> OutOfFuel.
Proof.
  induction fuel as [| fuel IH]; intros now k lastStatus Hfuel.
  - cbn [waitLoop].
    assert (Hnow : (now <? deadline) = false) by (apply Z.ltb_ge; lia).
    rewrite Hnow. discriminate.
  - remember (S fuel) as fuel1. cbn [waitLoop].
    destruct (now <? deadline) eqn:Hnow; [| discriminate].
    destruct (GetPRStatus _ _) as [status | e]; [| discriminate].
    destruct (HasFailedChecks status); [discriminate |].
    destruct (AllChecksPassed status); [discriminate |].
    subst fuel1.
    specialize (IH (now + Z.of_N (latency (poll k)) + pollInterval) (S k)
                   (Some status)).
    destruct (waitLoop poll prNumber hasCallback (S fuel) deadline
                       (now + Z.of_N (latency (poll k)) + pollInterval)
                       (S k) (Some status)) as [x evs].
    cbn [fst] in IH |- *. apply IH.
    unfold pollInterval, Git.Second in *. lia.
Qed.

Lemma waitForChecks_returns (now timeout : Z) :
  fst (waitForChecks poll prNumber hasCallback now timeout) <> OutOfFuel.
Proof.
  unfold waitForChecks, waitFuel. apply waitLoop_returns.
  assert (Hq : timeout < (timeout / pollInterval + 1) * pollInterval).
  { pose proof (Z.mod_pos_bound timeout pollInterval) as Hm.
    pose proof (Z.div_mod timeout pollInterval) as Hd.
    unfold pollInterval, Git.Second in *. lia. }
  remember (timeout / pollInterval) as q.
  unfold pollInterval, Git.Second in *. lia.
Qed.

End Waiting.

Lemma WaitForChecks_returns {L : GoLib} (poll : nat -> Github.PollReply)
      (prNumber : string) (hasCallback : bool) (now timeout : Z) :
  fst (Github.WaitForChecks poll prNumber hasCallback now timeout) <> None.
Proof.
  pose proof (waitForChecks_returns poll prNumber hasCallback now timeout) as Hret.
  unfold Github.WaitForChecks.
  destruct (Github.waitForChecks poll prNumber hasCallback now timeout) as [x evs].
  cbn [fst] in *. destruct x; cbn; congruence.
Qed.

(** An iteration ends by a [return] or by a panic. *)
Lemma runIteration_not_stuck {L : GoLib} (cfg : Config.Config)
      (env : Orchestrator.IterEnv) (o : Orchestrator.State) :
  fst (fst (Orchestrator.runIteration cfg env o)) <> Orchestrator.Stuck.
Proof.
  apply (exitsOnly_runIteration (fun r => r <> Orchestrator.Stuck));
    [discriminate |].
  unfold Orchestrator.runIterationBody.
  repeat first
    [ apply exitsOnly_ret | apply exitsOnly_emit | apply exitsOnly_get
    | apply exitsOnly_put
    | apply exitsOnly_check; [intros ?]
    | apply exitsOnly_exit
    | apply exitsOnly_when
    | apply exitsOnly_bind; [| intros ?]
    | match goal with
      | |- exitsOnly _ (match Github.WaitForChecks ?p ?n ?c ?t0 ?t with
                        | _ => _ end) =>
          let H := fresh "H" in
          pose proof (WaitForChecks_returns p n c t0 t) as H;
          destruct (Github.WaitForChecks p n c t0 t) as [[w |] evs];
          [| exfalso; apply H; reflexivity]
      | |- exitsOnly _ (match ?x with _ => _ end) => destruct x
      end ];
    cbn; discriminate.
Qed.

(** With a ceiling on the iterations the main loop ends: within
    [MaxRuns + 1] passes it has stopped or panicked. *)
Lemma mainLoop_ends {L : GoLib} (cfg : Config.Config) (renv : Orchestrator.RunEnv) :
  0 < Config.MaxRuns cfg < GoInt.MaxInt64 ->
  forall (fuel k : nat) (o : Orchestrator.State),
    0 <= Orchestrator.iteration o < GoInt.MaxInt64 ->
    (0 < fuel)%nat ->
    Config.MaxRuns cfg - Orchestrator.iteration o < Z.of_nat fuel ->
    fst (fst (Orchestrator.mainLoop fuel cfg renv k o)) <> Orchestrator.StillRunning.
Proof.
  intros HM. induction fuel as [| fuel IH]; intros k o Hpos Hfuel0 Hfuel; [lia |].
  cbn [Orchestrator.mainLoop].
  set (o1 := Orchestrator.setIteration
               o (GoInt.wrap64 (Orchestrator.iteration o + 1))).
  assert (Hit : Orchestrator.iteration o1 = Orchestrator.iteration o + 1).
  { unfold o1. cbn [Orchestrator.iteration Orchestrator.setIteration].
    apply wrap64_inRange.
    unfold GoInt.inRange, GoInt.MinInt64, GoInt.MaxInt64 in *. lia. }
  unfold Orchestrator.checkStopConditions.
  destruct (Config.HasMaxRuns cfg
            && (Config.MaxRuns cfg <? Orchestrator.iteration o1)) eqn:Hstop;
    [discriminate |].
  assert (Hle : Orchestrator.iteration o1 <= Config.MaxRuns cfg).
  { apply andb_false_iff in Hstop. unfold Config.HasMaxRuns in Hstop.
    destruct Hstop as [H | H].
    - apply Z.ltb_ge in H. lia.
    - apply Z.ltb_ge in H. exact H. }
  destruct (Config.HasMaxCost cfg && _); [discriminate |].
  destruct (Config.HasMaxDuration cfg && _); [discriminate |].
  destruct (Config.CompletionThreshold cfg <=? _); [discriminate |].
  pose proof (runIteration_state cfg (Orchestrator.run_iter renv k) o1) as Hst.
  pose proof (runIteration_not_stuck cfg (Orchestrator.run_iter renv k) o1) as Hns.
  destruct (Orchestrator.runIteration cfg (Orchestrator.run_iter renv k) o1)
    as [[r o'] evs].
  cbn [fst snd] in Hst, Hns.
  assert (Ho' : Orchestrator.iteration o' = Orchestrator.iteration o1).
  { rewrite Hst.
    destruct (Orchestrator.env_createBranch (Orchestrator.run_iter renv k));
      reflexivity. }
  destruct r as [[err |] | msg |].
  - unfold Orchestrator.after. cbn [fst]. apply IH; lia.
  - unfold Orchestrator.after. cbn [fst]. apply IH; lia.
  - discriminate.
  - congruence.
Qed.

Lemma GetPRStatus_not_both (checksReply : result (list Github.PRCheck))
      (reviewReply : result string) (s : Github.PRStatus) :
  Github.GetPRStatus checksReply reviewReply = Ok s ->
  Github.HasFailedChecks s = true -> Github.AllChecksPassed s = false.
Proof.
  destruct checksReply as [checks | e]; [| discriminate].
  destruct reviewReply as [review | e]; [| discriminate].
  rewrite GetPRStatus_snapshot. intros H. injection H as <-.
  apply snapshot_not_both.
Qed.

(** C6.  [WaitForChecks] always returns, by one of three exits.  It returns
    the snapshot of poll [n] with a nil error exactly when this is the first
    snapshot with failed checks or with all checks passed (never both), the
    deadline not being reached: it has slept [n] times, never after that
    poll.  It returns the timeout error when the deadline is reached at the
    loop test with every poll so far answered by a snapshot that was neither
    failed nor all passed: the status returned with it is the snapshot seen
    last (nil when no poll was made).  It returns a nil status and the error
    of the review system when a poll fails. *)
Theorem C6_WaitForChecks :
  forall (L : GoLib) (poll : nat -> Github.PollReply) (prNumber : string)
         (hasCallback : bool) (now timeout : Z),
  exists x evs,
    Github.waitForChecks poll prNumber hasCallback now timeout = (x, evs)
    /\ Github.WaitForChecks poll prNumber hasCallback now timeout
       = (Github.goResult timeout x, evs)
    /\ match x with
       | Github.Terminal s =>
           Github.goResult timeout x = Some (Some s, None)
           /\ (Github.HasFailedChecks s = true /\ Github.AllChecksPassed s = false
               \/ Github.HasFailedChecks s = false
                  /\ Github.AllChecksPassed s = true)
           /\ exists n,
               statusAt poll n = Ok s
               /\ (forall j, (j < n)%nat -> goesOn poll j)
               /\ pollCount evs = S n /\ sleepCount evs = n
               /\ clockAfter poll now 0 n < now + timeout
       | Github.TimedOut last =>
           Github.goResult timeout x
           = Some (last, Some ("timeout waiting for PR checks after "
                               ++ durationString timeout))
           /\ exists n,
               (forall j, (j < n)%nat -> goesOn poll j)
               /\ pollCount evs = n /\ sleepCount evs = n
               /\ now + timeout <= clockAfter poll now 0 n
               /\ (n = O /\ last = None
                   \/ exists m s,
                       n = S m /\ statusAt poll m = Ok s /\ last = Some s
                       /\ Github.HasFailedChecks s = false
                       /\ Github.AllChecksPassed s = false)
       | Github.PollFailed e =>
           Github.goResult timeout x = Some (None, Some e)
           /\ exists n,
               statusAt poll n = Err e
               /\ (forall j, (j < n)%nat -> goesOn poll j)
               /\ pollCount evs = S n /\ sleepCount evs = n
       | Github.OutOfFuel => False
       end.
Proof.
  intros L poll prNumber hasCallback now timeout.
  pose proof (waitForChecks_returns poll prNumber hasCallback now timeout) as Hret.
  pose proof (waitLoop_exitSpec poll prNumber hasCallback
                                (Github.waitFuel timeout) (now + timeout)
                                now O None) as Hspec.
  unfold Github.WaitForChecks.
  unfold Github.waitForChecks in *.
  destruct (Github.waitLoop poll prNumber hasCallback (Github.waitFuel timeout)
                            (now + timeout) now 0 None) as [x evs].
  cbn [fst snd] in *.
  exists x, evs. split; [reflexivity |]. split; [reflexivity |].
  destruct x as [s | e | last |]; cbn [exitSpec] in Hspec.
  - destruct Hspec as (n & H1 & H2 & H3 & H4 & H5 & H6).
    cbn [Nat.add] in H5.
    split; [reflexivity |]. split.
    + unfold terminal in H6.
      destruct (Github.HasFailedChecks s) eqn:Hf.
      * left. split; [reflexivity |].
        apply (GetPRStatus_not_both _ _ s H5 Hf).
      * right. split; [reflexivity | exact H6].
    + exists n. repeat split; assumption.
  - destruct Hspec as (n & H1 & H2 & H3 & H4 & H5).
    cbn [Nat.add] in H5.
    split; [reflexivity |]. exists n. repeat split; assumption.
  - destruct Hspec as (n & H1 & H2 & H3 & H4 & H5).
    split; [reflexivity |]. exists n.
    repeat split; try assumption.
    destruct n as [| m].
    + left. split; [reflexivity | exact H5].
    + right. destruct (H3 m (Nat.lt_succ_diag_r m)) as (s & Hs & Ht).
      cbn [Nat.add] in Hs.
      exists m, s. cbn [lastSeen Nat.add] in H5. rewrite Hs in H5.
      unfold terminal in Ht. apply orb_false_iff in Ht. destruct Ht as [Hf Ha].
      repeat split; assumption.
  - apply Hret. reflexivity.
Qed.

(** One check, reported pending by the first poll and failed by the second:
    the wait ends after one sleep of ten seconds, far from the thirty
    minutes of the timeout. *)
Definition pendingThenFailed (k : nat) : Github.PollReply :=
  match k with
  | O => Github.mkPollReply (Ok [Github.mkPRCheck "ci" "IN_PROGRESS" "pending"])
                            (Ok EmptyString) 2000
  | _ => Github.mkPollReply (Ok [Github.mkPRCheck "ci" "FAILURE" "fail"])
                            (Ok EmptyString) 2000
  end.

Lemma C6_WaitForChecks_witness :
  @Github.WaitForChecks plainTextLib pendingThenFailed "17" true 0
                        (30 * (60 * Git.Second))
  = (Some (Some (Github.mkPRStatus [Github.mkPRCheck "ci" "FAILURE" "fail"]
                                   EmptyString false false false true),
           None),
     [EvGetPRStatus "17"; EvStatusChange false true false EmptyString;
      EvSleep 10000000000;
      EvGetPRStatus "17"; EvStatusChange false false true EmptyString]).
Proof.
  destruct (C6_WaitForChecks plainTextLib pendingThenFailed "17" true 0
                             (30 * (60 * Git.Second)))
    as (x & evs & Hx & Hgo & _).
  rewrite Hgo. vm_compute in Hx. injection Hx as <- <-. reflexivity.
Defined.

(** ** The push retry executor *)

Section Retry.
Variable push : nat -> option string.
Variable branch : string.

(** The calls of [n] retries, the first after a sleep of [backoff]. *)
Fixpoint retries (n : nat) (backoff : Z) : list Event :=
  match n with
  | O => []
  | S n' =>
      EvSleep backoff :: EvPush branch :: retries n' (GoInt.wrap64 (backoff * 2))
  end.

Definition isPush (ev : Event) : bool :=
  match ev with EvPush _ => true | _ => false end.

Definition pushCount (evs : list Event) : nat := length (filter isPush evs).

(** The arguments of the calls of [time.Sleep], in order. *)
Definition sleepsOf (evs : list Event) : list Z :=
  flat_map (fun ev => match ev with EvSleep d => [d] | _ => [] end) evs.

Definition increasing (l : list Z) : Prop :=
  forall a b, (a < b < length l)%nat -> nth a l 0 < nth b l 0.

(** Sleep [2 * 2^j] seconds, then push. *)
Definition retryAfter (j : nat) : list Event :=
  [EvSleep (2 * Git.Second * 2 ^ Z.of_nat j); EvPush branch].

Definition alwaysTransient : Prop :=
  forall i, exists e, push i = Some e /\ Git.isNetworkError (Some e) = true.

Lemma pushLoop_transient :
  alwaysTransient ->
  forall (n i : nat) (backoff : Z) (lastErr : option string),
    (0 < i)%nat ->
    Git.pushLoop push branch n i backoff lastErr
    = (Git.FellThrough (match n with
                        | O => lastErr
                        | S m => push (i + m)%nat
                        end),
       retries n backoff).
Proof.
  intros Hall. induction n as [| n IH]; intros i backoff lastErr Hi.
  - reflexivity.
  - cbn [Git.pushLoop retries].
    assert (Hpos : (0 <? i)%nat = true) by (apply Nat.ltb_lt; exact Hi).
    rewrite Hpos.
    destruct (Hall i) as (e & He & Hnet). rewrite He, Hnet. cbn [negb].
    rewrite (IH (S i) (GoInt.wrap64 (backoff * 2)) (Some e)) by lia.
    destruct n as [| m].
    + rewrite Nat.add_0_r, He. reflexivity.
    + replace (S i + m)%nat with (i + S m)%nat by lia. reflexivity.
Qed.

Lemma PushWithRetry_transient (maxRetries : Z) :
  alwaysTransient -> 0 <= maxRetries ->
  Git.PushWithRetry push branch maxRetries
  = (Some ("push failed after " ++ GoInt.itoa maxRetries ++ " retries: "
           ++ match push (Z.to_nat maxRetries) with
              | Some e => e
              | None => "%!w(<nil>)"
              end),
     EvPush branch :: retries (Z.to_nat maxRetries) (2 * Git.Second)).
Proof.
  intros Hall Hn. unfold Git.PushWithRetry.
  replace (Z.to_nat (maxRetries + 1)) with (S (Z.to_nat maxRetries)) by lia.
  cbn [Git.pushLoop Nat.ltb Nat.leb].
  destruct (Hall O) as (e & He & Hnet). rewrite He, Hnet. cbn [negb].
  rewrite (pushLoop_transient Hall) by lia.
  cbn [app]. destruct (Z.to_nat maxRetries) as [| m] eqn:Hm.
  - rewrite He. reflexivity.
  - cbn [Nat.add]. reflexivity.
Qed.

Lemma pushCount_retries (n : nat) (backoff : Z) : pushCount (retries n backoff) = n.
Proof.
  revert backoff. induction n as [| n IH]; intros backoff; [reflexivity |].
  unfold pushCount in *. cbn. rewrite IH. reflexivity.
Qed.

(** Up to the 33rd retry the doubled delay fits in 64 bits. *)
Lemma retries_doubling (n : nat) :
  forall j : nat,
    (j + n <= 33)%nat ->
    retries n (2 * Git.Second * 2 ^ Z.of_nat j)
    = flat_map retryAfter (seq j n).
Proof.
  induction n as [| n IH]; intros j Hj; [reflexivity |].
  cbn [retries seq flat_map retryAfter app]. do 2 f_equal.
  destruct n as [| n']; [reflexivity |].
  rewrite <- (IH (S j)) by lia. f_equal.
  replace (2 * Git.Second * 2 ^ Z.of_nat j * 2)
    with (2 * Git.Second * 2 ^ Z.of_nat (S j))
    by (rewrite Nat2Z.inj_succ, Z.pow_succ_r by lia; ring).
  apply wrap64_inRange.
  assert (Hpow : 0 < 2 ^ Z.of_nat (S j) <= 2 ^ 32).
  { split; [apply Z.pow_pos_nonneg; lia |].
    apply Z.pow_le_mono_r; lia. }
  unfold GoInt.inRange, GoInt.MinInt64, GoInt.MaxInt64, Git.Second.
  change (2 ^ 32) with 4294967296 in Hpow.
  change (2 ^ 63) with 9223372036854775808. lia.
Qed.

Lemma sleepsOf_retryAfter (n j : nat) :
  sleepsOf (flat_map retryAfter (seq j n))
  = map (fun j => 2 * Git.Second * 2 ^ Z.of_nat j) (seq j n).
Proof.
  revert j. induction n as [| n IH]; intros j; [reflexivity |].
  cbn [seq flat_map map]. unfold sleepsOf in *. rewrite flat_map_app.
  cbn [retryAfter flat_map app]. rewrite IH. reflexivity.
Qed.

Lemma nth_map_seq (f : nat -> Z) (n a : nat) (d : Z) :
  (a < n)%nat -> nth a (map f (seq 0 n)) d = f a.
Proof.
  intros Ha.
  rewrite (nth_indep _ d (f O)) by (rewrite length_map, length_seq; exact Ha).
  rewrite map_nth, seq_nth by exact Ha. reflexivity.
Qed.

Lemma increasing_doubling (n : nat) :
  increasing (map (fun j => 2 * Git.Second * 2 ^ Z.of_nat j) (seq 0 n)).
Proof.
  intros a b [Hab Hb]. rewrite length_map, length_seq in Hb.
  rewrite !nth_map_seq by lia.
  assert (Hpow : 2 ^ Z.of_nat a < 2 ^ Z.of_nat b)
    by (apply Z.pow_lt_mono_r; lia).
  unfold Git.Second. lia.
Qed.

End Retry.

(** C7 (amended).  For [0 <= N < MaxInt64]: a first failure that is not a
    network error is returned as it is after exactly one call of [Push]; if
    every call fails with a network error, [Push] is called exactly [N + 1]
    times and the error returned names [N] and wraps the error of the last
    call; and for [N <= 33] the calls are separated by sleeps of 2, 4, 8,
    ... seconds ([2 * 2^j] seconds before retry [j + 1]), which increase
    strictly. *)
Theorem C7_PushWithRetry :
  forall (push : nat -> option string) (branch : string) (N : Z),
    0 <= N < GoInt.MaxInt64 ->
    (forall e,
        push O = Some e -> Git.isNetworkError (Some e) = false ->
        Git.PushWithRetry push branch N = (Some e, [EvPush branch]))
    /\ (alwaysTransient push ->
        exists eN evs,
          push (Z.to_nat N) = Some eN
          /\ Git.PushWithRetry push branch N
             = (Some ("push failed after " ++ GoInt.itoa N ++ " retries: " ++ eN),
                evs)
          /\ Z.of_nat (pushCount evs) = N + 1
          /\ (N <= 33 ->
              evs = EvPush branch
                    :: flat_map (retryAfter branch) (seq 0 (Z.to_nat N))
              /\ sleepsOf evs
                 = map (fun j => 2 * Git.Second * 2 ^ Z.of_nat j)
                       (seq 0 (Z.to_nat N))
              /\ increasing (sleepsOf evs))).
Proof.
  intros push branch N HN. split.
  - intros e He Hperm. unfold Git.PushWithRetry.
    replace (Z.to_nat (N + 1)) with (S (Z.to_nat N)) by lia.
    cbn [Git.pushLoop Nat.ltb Nat.leb]. rewrite He, Hperm. reflexivity.
  - intros Hall.
    destruct (Hall (Z.to_nat N)) as (eN & HeN & _).
    exists eN, (EvPush branch :: retries branch (Z.to_nat N) (2 * Git.Second)).
    split; [exact HeN |]. split; [| split].
    + rewrite (PushWithRetry_transient push branch N Hall) by lia.
      rewrite HeN. reflexivity.
    + unfold pushCount. cbn [filter isPush length].
      fold (pushCount (retries branch (Z.to_nat N) (2 * Git.Second))).
      rewrite pushCount_retries. lia.
    + intros H33.
      assert (Hr : retries branch (Z.to_nat N) (2 * Git.Second)
                   = flat_map (retryAfter branch) (seq 0 (Z.to_nat N))).
      { rewrite <- (retries_doubling branch (Z.to_nat N) 0) by lia.
        f_equal. }
      rewrite Hr. split; [reflexivity |].
      assert (Hs : sleepsOf (EvPush branch
                             :: flat_map (retryAfter branch) (seq 0 (Z.to_nat N)))
                   = map (fun j => 2 * Git.Second * 2 ^ Z.of_nat j)
                         (seq 0 (Z.to_nat N))).
      { rewrite <- sleepsOf_retryAfter with (branch := branch). reflexivity. }
      rewrite Hs. split; [reflexivity | apply increasing_doubling].
Qed.

(** A remote that cannot be resolved, and a push refused by the remote. *)
Definition unresolvedHost : string :=
  "failed to push: exit status 128" ++ Strings.LF
  ++ "fatal: unable to access 'https://github.com/guzus/deep-claude/': Could not resolve host: github.com".

Definition hookDeclined : string :=
  "failed to push: exit status 1" ++ Strings.LF
  ++ "! [remote rejected] main -> main (pre-receive hook declined)".

Lemma unresolvedHost_transient : alwaysTransient (fun _ => Some unresolvedHost).
Proof. intros i. exists unresolvedHost. split; reflexivity. Qed.

(** Three retries of an unreachable remote: four pushes, after sleeps of 2,
    4 and 8 seconds; a push refused by a hook: one push. *)
Lemma C7_PushWithRetry_witness :
  Git.PushWithRetry (fun _ => Some unresolvedHost) "feature" 3
  = (Some ("push failed after 3 retries: " ++ unresolvedHost),
     [EvPush "feature";
      EvSleep 2000000000; EvPush "feature";
      EvSleep 4000000000; EvPush "feature";
      EvSleep 8000000000; EvPush "feature"])
  /\ Git.PushWithRetry (fun _ => Some hookDeclined) "feature" 3
     = (Some hookDeclined, [EvPush "feature"]).
Proof.
  split.
  - destruct (C7_PushWithRetry (fun _ => Some unresolvedHost) "feature" 3)
      as [_ H]; [unfold GoInt.MaxInt64; lia |].
    destruct (H unresolvedHost_transient) as (eN & evs & H1 & H2 & _ & H4).
    destruct H4 as (H5 & _); [lia |].
    injection H1 as <-. rewrite H2, H5. reflexivity.
  - apply (C7_PushWithRetry (fun _ => Some hookDeclined) "feature" 3);
      [unfold GoInt.MaxInt64; lia | reflexivity | reflexivity].
Defined.

(** With 34 retries of an unreachable remote the delay before the last
    retry has wrapped around to a negative duration: the delays do not
    increase strictly. *)
Lemma C7_delays_wrap_at_34_retries :
  alwaysTransient (fun _ => Some unresolvedHost)
  /\ nth 32 (sleepsOf (snd (Git.PushWithRetry (fun _ => Some unresolvedHost)
                                              "feature" 34))) 0
     = 8589934592000000000
  /\ nth 33 (sleepsOf (snd (Git.PushWithRetry (fun _ => Some unresolvedHost)
                                              "feature" 34))) 0
     = -1266874889709551616
  /\ ~ increasing (sleepsOf (snd (Git.PushWithRetry
                                    (fun _ => Some unresolvedHost) "feature" 34))).
Proof.
  split; [exact unresolvedHost_transient |].
  split; [vm_compute; reflexivity |].
  split; [vm_compute; reflexivity |].
  intros Hinc.
  assert (Hlt : nth 32 (sleepsOf (snd (Git.PushWithRetry
                                         (fun _ => Some unresolvedHost)
                                         "feature" 34))) 0
                < nth 33 (sleepsOf (snd (Git.PushWithRetry
                                           (fun _ => Some unresolvedHost)
                                           "feature" 34))) 0).
  { apply Hinc. split; [lia |]. vm_compute. lia. }
  vm_compute in Hlt. discriminate Hlt.
Qed.

(** ** The classifier of push errors *)

(** Two pushes refused for reasons that have nothing to do with the
    network: the random suffix of the branch name holds 443, and the name of
    a branch holds SSL. *)
Definition refusedBranch443 : string :=
  "failed to push: exit status 1" ++ Strings.LF
  ++ "error: src refspec continuous-claude/iteration-2/2025-01-15-4438c0de does not match any".

Definition refusedBranchSSL : string :=
  "failed to push: exit status 1" ++ Strings.LF
  ++ "! [remote rejected] docs-SSL-setup -> docs-SSL-setup (pre-receive hook declined)".

(** The four signatures that name a network failure. *)
Definition namesNetworkFailure (msg : string) : bool :=
  Strings.Contains msg "Could not resolve host"
  || Strings.Contains msg "Connection refused"
  || Strings.Contains msg "Network is unreachable"
  || Strings.Contains msg "Connection timed out".

(** C10.  [isNetworkError] looks for substrings of the error text, SSL and
    443 among them: every error whose text holds one of the two is taken
    for a network error.  So a push refused with a message that only quotes
    a branch name holding 443 (or SSL), and that names no network failure,
    is retried three times by [PushWithRetry(branch, 3)] instead of being
    returned after the first call. *)
Theorem C10_substring_classifier :
  (forall msg,
      Strings.Contains msg "SSL" = true \/ Strings.Contains msg "443" = true ->
      Git.isNetworkError (Some msg) = true)
  /\ (forall msg,
         Git.isNetworkError (Some msg)
         = (namesNetworkFailure msg
            || Strings.Contains msg "SSL" || Strings.Contains msg "443"))
  /\ (forall msg : string,
         In msg [refusedBranch443; refusedBranchSSL] ->
         namesNetworkFailure msg = false
         /\ Git.isNetworkError (Some msg) = true
         /\ Git.PushWithRetry (fun _ => Some msg) "feature" 3
            = (Some ("push failed after 3 retries: " ++ msg),
               [EvPush "feature";
                EvSleep 2000000000; EvPush "feature";
                EvSleep 4000000000; EvPush "feature";
                EvSleep 8000000000; EvPush "feature"])).
Proof.
  split; [| split].
  - intros msg [H | H]; unfold Git.isNetworkError; rewrite H;
      rewrite ?orb_true_r; reflexivity.
  - intros msg. unfold Git.isNetworkError, namesNetworkFailure. reflexivity.
  - intros msg [<- | [<- | []]]; repeat split; vm_compute; reflexivity.
Qed.

Lemma C10_substring_classifier_witness :
  Git.isNetworkError (Some "error: unknown option 443") = true
  /\ Git.PushWithRetry (fun _ => Some refusedBranch443) "feature" 3
     = (Some ("push failed after 3 retries: " ++ refusedBranch443),
        [EvPush "feature";
         EvSleep 2000000000; EvPush "feature";
         EvSleep 4000000000; EvPush "feature";
         EvSleep 8000000000; EvPush "feature"]).
Proof.
  split.
  - apply (proj1 C10_substring_classifier). right. reflexivity.
  - destruct C10_substring_classifier as (_ & _ & H).
    apply (H refusedBranch443). simpl. left. reflexivity.
Defined.

(** * Further properties *)

(** ** The paths of one iteration *)

Section IterationSpec.
Context {L : GoLib}.
Import Config Orchestrator.

Variable cfg : Config.
Variable env : IterEnv.
Variable o : State.

(** The calls up to the test for changes. *)
Definition stagedEvents : list Event :=
  (agentEvents cfg env o ++ [EvStageAll; EvHasChanges])%list.

(** The calls up to the commit made by the agent. *)
Definition committedEvents : list Event :=
  (stagedEvents
   ++ [EvClaudeRunCommit; EvGetLastCommitTitle;
       EvUi Success ("Committed: " ++ env_commitTitle env)])%list.

(** The calls up to the opening of the pull request, [pushEvs] being the
    calls of [PushWithRetry]. *)
Definition openedEvents (pushEvs : list Event) : list Event :=
  (committedEvents
   ++ pushEvs
   ++ [EvUi Success ("Pushed to origin/" ++ branchOf cfg env o);
       EvGetLastCommitMessage;
       EvCreatePR (env_commitTitle env)
                  (formatPRBody (env_commitMsg env) (iteration o))
                  (baseBranch o)])%list.

(** The calls up to the end of the wait for the checks of the pull request
    [url], [waitEvs] being the calls of [WaitForChecks] and [err] its
    error. *)
Definition waitedEvents (pushEvs : list Event) (url : string)
           (waitEvs : list Event) (err : option string) : list Event :=
  (openedEvents pushEvs
   ++ EvUi Success ("Created PR: " ++ url)
   :: waitEvs
   ++ match err with
      | Some e => [EvUi Warning ("Timeout waiting for checks: " ++ e)]
      | None => []
      end)%list.

(** The wait of the iteration for the pull request [url]. *)
Definition waitOf (url : string)
  : option (option Github.PRStatus * option string) * list Event :=
  Github.WaitForChecks (env_poll env) (Github.GetPRNumber url) true
                       (env_waitStart env) (30 * (60 * Git.Second)).

(** The push of the iteration. *)
Definition pushOf : option string * list Event :=
  Git.PushWithRetry (env_push env) (branchOf cfg env o) 3.

(** The ways through [runIteration], each with its result, the orchestrator
    it leaves and the calls it makes. *)
Inductive IterPath : IterResult * State * list Event -> Prop :=
| PathBranchFailed (e : string) :
    env_createBranch env = Some e ->
    IterPath (Returned (Some ("failed to create branch: " ++ e)), o,
              [EvUi Info ("Creating branch: " ++ branchOf cfg env o);
               EvCreateBranch (branchOf cfg env o)])
| PathCommitsDisabled :
    env_createBranch env = None ->
    DisableCommits cfg = true ->
    IterPath (Returned None, afterAgent cfg env o,
              (agentEvents cfg env o
               ++ [EvUi Info "Commits disabled, skipping PR workflow"])%list)
| PathDryRun :
    env_createBranch env = None ->
    DisableCommits cfg = false ->
    DryRun cfg = true ->
    IterPath (Returned None, afterAgent cfg env o,
              (agentEvents cfg env o
               ++ [EvUi Info "Dry run mode, skipping commit and PR";
                   EvSwitchBranch (baseBranch o);
                   EvDeleteBranch (branchOf cfg env o)])%list)
| PathStageFailed (e : string) :
    env_createBranch env = None ->
    DisableCommits cfg = false ->
    DryRun cfg = false ->
    env_stageAll env = Some e ->
    IterPath (Returned (Some ("failed to stage changes: " ++ e)),
              afterAgent cfg env o,
              (agentEvents cfg env o ++ [EvStageAll])%list)
| PathChangesFailed (e : string) :
    env_createBranch env = None ->
    DisableCommits cfg = false ->
    DryRun cfg = false ->
    env_stageAll env = None ->
    env_hasChanges env = Err e ->
    IterPath (Returned (Some ("failed to check for changes: " ++ e)),
              afterAgent cfg env o, stagedEvents)
| PathNoChanges :
    env_createBranch env = None ->
    DisableCommits cfg = false ->
    DryRun cfg = false ->
    env_stageAll env = None ->
    env_hasChanges env = Ok false ->
    IterPath (Returned None, afterAgent cfg env o,
              (stagedEvents
               ++ [EvUi Info "No changes to commit";
                   EvSwitchBranch (baseBranch o);
                   EvDeleteBranch (branchOf cfg env o)])%list)
| PathCommitFailed (e : string) :
    env_createBranch env = None ->
    DisableCommits cfg = false ->
    DryRun cfg = false ->
    env_stageAll env = None ->
    env_hasChanges env = Ok true ->
    Claude.RunCommit (env_commit env) = Err e ->
    IterPath (Returned (Some ("failed to create commit: " ++ e)),
              afterAgent cfg env o,
              (stagedEvents ++ [EvClaudeRunCommit])%list)
| PathPushFailed (msg e : string) (pushEvs : list Event) :
    env_createBranch env = None ->
    DisableCommits cfg = false ->
    DryRun cfg = false ->
    env_stageAll env = None ->
    env_hasChanges env = Ok true ->
    Claude.RunCommit (env_commit env) = Ok msg ->
    pushOf = (Some e, pushEvs) ->
    IterPath (Returned (Some ("failed to push: " ++ e)),
              afterAgent cfg env o,
              (committedEvents ++ pushEvs)%list)
| PathOpenFailed (msg e : string) (pushEvs : list Event) :
    env_createBranch env = None ->
    DisableCommits cfg = false ->
    DryRun cfg = false ->
    env_stageAll env = None ->
    env_hasChanges env = Ok true ->
    Claude.RunCommit (env_commit env) = Ok msg ->
    pushOf = (None, pushEvs) ->
    env_createPR env = Err e ->
    IterPath (Returned (Some ("failed to create PR: " ++ e)),
              afterAgent cfg env o, openedEvents pushEvs)
| PathNilStatus (msg url : string) (pushEvs waitEvs : list Event)
                (err : option string) :
    env_createBranch env = None ->
    DisableCommits cfg = false ->
    DryRun cfg = false ->
    env_stageAll env = None ->
    env_hasChanges env = Ok true ->
    Claude.RunCommit (env_commit env) = Ok msg ->
    pushOf = (None, pushEvs) ->
    env_createPR env = Ok url ->
    waitOf url = (Some (None, err), waitEvs) ->
    IterPath (Panicked "invalid memory address or nil pointer dereference",
              afterAgent cfg env o, waitedEvents pushEvs url waitEvs err)
| PathChecksFailed (msg url : string) (pushEvs waitEvs : list Event)
                   (status : Github.PRStatus) (err : option string) :
    env_createBranch env = None ->
    DisableCommits cfg = false ->
    DryRun cfg = false ->
    env_stageAll env = None ->
    env_hasChanges env = Ok true ->
    Claude.RunCommit (env_commit env) = Ok msg ->
    pushOf = (None, pushEvs) ->
    env_createPR env = Ok url ->
    waitOf url = (Some (Some status, err), waitEvs) ->
    Github.HasFailedChecks status = true ->
    IterPath (Returned None, afterAgent cfg env o,
              (waitedEvents pushEvs url waitEvs err
               ++ [EvUi Error "Checks failed, closing PR";
                   EvClosePR (Github.GetPRNumber url) true;
                   EvSwitchBranch (baseBranch o)])%list)
| PathNotMergeable (msg url : string) (pushEvs waitEvs : list Event)
                   (status : Github.PRStatus) (err : option string) :
    env_createBranch env = None ->
    DisableCommits cfg = false ->
    DryRun cfg = false ->
    env_stageAll env = None ->
    env_hasChanges env = Ok true ->
    Claude.RunCommit (env_commit env) = Ok msg ->
    pushOf = (None, pushEvs) ->
    env_createPR env = Ok url ->
    waitOf url = (Some (Some status, err), waitEvs) ->
    Github.HasFailedChecks status = false ->
    Github.IsMergeable status = false ->
    IterPath (Returned None, afterAgent cfg env o,
              (waitedEvents pushEvs url waitEvs err
               ++ [EvUi Warning "PR not mergeable (review required?)";
                   EvSwitchBranch (baseBranch o)])%list)
| PathMergeFailed (msg url e : string) (pushEvs waitEvs : list Event)
                  (status : Github.PRStatus) (err : option string) :
    env_createBranch env = None ->
    DisableCommits cfg = false ->
    DryRun cfg = false ->
    env_stageAll env = None ->
    env_hasChanges env = Ok true ->
    Claude.RunCommit (env_commit env) = Ok msg ->
    pushOf = (None, pushEvs) ->
    env_createPR env = Ok url ->
    waitOf url = (Some (Some status, err), waitEvs) ->
    Github.HasFailedChecks status = false ->
    Github.IsMergeable status = true ->
    env_merge env = Some e ->
    IterPath (Returned (Some ("failed to merge PR: " ++ e)),
              afterAgent cfg env o,
              (waitedEvents pushEvs url waitEvs err
               ++ [EvMergePR (Github.GetPRNumber url) (MergeStrategy cfg)])%list)
| PathMerged (msg url : string) (pushEvs waitEvs : list Event)
             (status : Github.PRStatus) (err : option string) :
    env_createBranch env = None ->
    DisableCommits cfg = false ->
    DryRun cfg = false ->
    env_stageAll env = None ->
    env_hasChanges env = Ok true ->
    Claude.RunCommit (env_commit env) = Ok msg ->
    pushOf = (None, pushEvs) ->
    env_createPR env = Ok url ->
    waitOf url = (Some (Some status, err), waitEvs) ->
    Github.HasFailedChecks status = false ->
    Github.IsMergeable status = true ->
    env_merge env = None ->
    IterPath (Returned None, afterAgent cfg env o,
              (waitedEvents pushEvs url waitEvs err
               ++ [EvMergePR (Github.GetPRNumber url) (MergeStrategy cfg);
                   EvUi Success "Merged PR";
                   EvSwitchBranch (baseBranch o);
                   EvPull (baseBranch o)])%list).

Lemma IterPath_eq (x y : IterResult * State * list Event) :
  IterPath x -> x = y -> IterPath y.
Proof. intros H <-. exact H. Qed.

Ltac path_eval :=
  cbn -[Github.WaitForChecks Git.PushWithRetry Claude.RunCommit Claude.Run
        Claude.BuildPrompt Git.GenerateBranchName GoInt.itoa String.append
        updateCompletionSignalCount Z.mul Claude.ContainsCompletionSignal
        Github.GetPRNumber formatPRBody].

Ltac path_on x := destruct x eqn:?; path_eval.

Ltac path_leaf C :=
  eapply IterPath_eq;
  [ eapply C; eassumption
  | unfold waitedEvents, openedEvents, committedEvents, stagedEvents,
      agentEvents, afterAgent, branchOf;
    repeat match goal with
           | H : ?b = true |- context [if ?b then _ else _] => rewrite H
           | H : ?b = false |- context [if ?b then _ else _] => rewrite H
           end;
    repeat (progress (cbn [app]; rewrite <- ?app_assoc));
    rewrite ?app_nil_r; reflexivity ].

Lemma runIteration_path : IterPath (runIteration cfg env o).
Proof.
  pose proof (Run_nil_error (env_claude env)) as Hnil.
  unfold runIteration, runIterationBody.
  rewrite (surjective_pairing (Claude.Run (env_claude env))), Hnil.
  path_on (env_createBranch env).
  { path_leaf PathBranchFailed. }
  path_on (Claude.ContainsCompletionSignal
             (Claude.Output (fst (Claude.Run (env_claude env))))
             (CompletionSignal cfg));
    path_on (Claude.IsError (fst (Claude.Run (env_claude env)))).
  all: path_on (DisableCommits cfg); [path_leaf PathCommitsDisabled |].
  all: path_on (DryRun cfg); [path_leaf PathDryRun |].
  all: path_on (env_stageAll env); [path_leaf PathStageFailed |].
  all: path_on (env_hasChanges env); [| path_leaf PathChangesFailed].
  all: match goal with H : env_hasChanges env = Ok ?b |- _ => destruct b end;
    path_eval; [| path_leaf PathNoChanges].
  all: path_on (Claude.RunCommit (env_commit env)); [| path_leaf PathCommitFailed].
  all: fold (branchOf cfg env o); fold pushOf.
  all: destruct pushOf as [[e |] pushEvs] eqn:?; path_eval;
    [path_leaf PathPushFailed |].
  all: path_on (env_createPR env); [| path_leaf PathOpenFailed].
  all: match goal with
       | H : env_createPR env = Ok ?url |- _ =>
           fold (waitOf url);
           pose proof (WaitForChecks_returns
                         (env_poll env) (Github.GetPRNumber url) true
                         (env_waitStart env) (30 * (60 * Git.Second))) as Hwait;
           fold (waitOf url) in Hwait;
           destruct (waitOf url) as [[[status err] |] waitEvs] eqn:?;
           [| exfalso; apply Hwait; reflexivity]
       end.
  all: clear Hwait; destruct err as [e |]; path_eval;
    destruct status as [status |]; path_eval;
    [| path_leaf PathNilStatus | | path_leaf PathNilStatus].
  all: path_on (Github.HasFailedChecks status); [path_leaf PathChecksFailed |].
  all: path_on (Github.IsMergeable status); [| path_leaf PathNotMergeable].
  all: path_on (env_merge env);
    [path_leaf PathMergeFailed | path_leaf PathMerged].
Qed.

End IterationSpec.

(** ** What the calls of an iteration tell *)

(** The calls of the retry executor are pushes and sleeps. *)
Lemma pushLoop_events (push : nat -> option string) (branch : string) (n : nat) :
  forall (i : nat) (backoff : Z) (lastErr : option string) (ev : Event),
    In ev (snd (Git.pushLoop push branch n i backoff lastErr)) ->
    ev = EvPush branch \/ exists d, ev = EvSleep d.
Proof.
  induction n as [| n IH]; intros i backoff lastErr ev; cbn [Git.pushLoop].
  - intros [].
  - assert (Hslept : forall ev',
               In ev' (if (0 <? i)%nat then [EvSleep backoff] else []) ->
               exists d, ev' = EvSleep d).
    { intros ev'. destruct (0 <? i)%nat; simpl; [| tauto].
      intros [<- | []]. eauto. }
    destruct (push i) as [e |].
    + destruct (negb (Git.isNetworkError (Some e))).
      * cbn [snd]. rewrite in_app_iff. simpl.
        intros [H | [<- | []]]; [right; apply Hslept, H | left; reflexivity].
      * specialize (IH (S i)
                       (if (0 <? i)%nat then GoInt.wrap64 (backoff * 2) else backoff)
                       (Some e) ev).
        destruct (Git.pushLoop push branch n (S i) _ (Some e)) as [r evs].
        cbn [snd] in *. rewrite in_app_iff. simpl.
        intros [H | [<- | H]];
          [right; apply Hslept, H | left; reflexivity | apply IH, H].
    + cbn [snd]. rewrite in_app_iff. simpl.
      intros [H | [<- | []]]; [right; apply Hslept, H | left; reflexivity].
Qed.

Lemma PushWithRetry_events (push : nat -> option string) (branch : string)
      (maxRetries : Z) (ev : Event) :
  In ev (snd (Git.PushWithRetry push branch maxRetries)) ->
  ev = EvPush branch \/ exists d, ev = EvSleep d.
Proof.
  unfold Git.PushWithRetry.
  pose proof (pushLoop_events push branch (Z.to_nat (maxRetries + 1)) 0
                              (2 * Git.Second) None ev) as H.
  destruct (Git.pushLoop push branch (Z.to_nat (maxRetries + 1)) 0
                         (2 * Git.Second) None) as [[err | lastErr] evs];
    exact H.
Qed.

(** The calls of the wait are polls, notifications and sleeps. *)
Lemma waitLoop_events (poll : nat -> Github.PollReply) (prNumber : string)
      (hasCallback : bool) (fuel : nat) (deadline : Z) :
  forall (now : Z) (k : nat) (lastStatus : option Github.PRStatus) (ev : Event),
    In ev (snd (Github.waitLoop poll prNumber hasCallback fuel deadline now k
                                lastStatus)) ->
    ev = EvGetPRStatus prNumber
    \/ ev = EvSleep Github.pollInterval
    \/ exists a p f r, ev = EvStatusChange a p f r.
Proof.
  induction fuel as [| fuel IH]; intros now k lastStatus ev;
    cbn [Github.waitLoop].
  - intros [].
  - destruct (now <? deadline); [| intros []].
    destruct (Github.GetPRStatus _ _) as [status | e].
    2:{ simpl. intros [<- | []]. left. reflexivity. }
    assert (Hnot : forall ev',
               In ev' (if hasCallback
                          && Github.hasStatusChanged lastStatus status
                       then [Github.statusChange status] else []) ->
               exists a p f r, ev' = EvStatusChange a p f r).
    { intros ev'. destruct (hasCallback && _); simpl; [| tauto].
      intros [<- | []]. unfold Github.statusChange. eauto. }
    destruct (Github.HasFailedChecks status).
    { simpl. intros [<- | H]; [left; reflexivity | right; right; apply Hnot, H]. }
    destruct (Github.AllChecksPassed status).
    { simpl. intros [<- | H]; [left; reflexivity | right; right; apply Hnot, H]. }
    specialize (IH (now + Z.of_N (Github.latency (poll k)) + Github.pollInterval)
                   (S k) (Some status) ev).
    destruct (Github.waitLoop poll prNumber hasCallback fuel deadline _ (S k)
                              (Some status)) as [r evs].
    cbn [snd] in *. simpl. rewrite in_app_iff. simpl.
    intros [<- | [H | [<- | H]]];
      [ left; reflexivity | right; right; apply Hnot, H
      | right; left; reflexivity | apply IH, H ].
Qed.

Lemma WaitForChecks_events {L : GoLib} (poll : nat -> Github.PollReply)
      (prNumber : string) (hasCallback : bool) (now timeout : Z) (ev : Event) :
  In ev (snd (Github.WaitForChecks poll prNumber hasCallback now timeout)) ->
  ev = EvGetPRStatus prNumber
  \/ ev = EvSleep Github.pollInterval
  \/ exists a p f r, ev = EvStatusChange a p f r.
Proof.
  unfold Github.WaitForChecks, Github.waitForChecks.
  pose proof (waitLoop_events poll prNumber hasCallback (Github.waitFuel timeout)
                              (now + timeout) now 0 None ev) as H.
  destruct (Github.waitLoop poll prNumber hasCallback (Github.waitFuel timeout)
                            (now + timeout) now 0 None) as [x evs].
  exact H.
Qed.

(** A status returned by the wait is the snapshot of the last poll it
    made. *)
Lemma WaitForChecks_last_poll {L : GoLib} (poll : nat -> Github.PollReply)
      (prNumber : string) (hasCallback : bool) (now timeout : Z)
      (status : Github.PRStatus) (err : option string) (evs : list Event) :
  Github.WaitForChecks poll prNumber hasCallback now timeout
  = (Some (Some status, err), evs) ->
  exists n, pollCount evs = S n /\ statusAt poll n = Ok status.
Proof.
  unfold Github.WaitForChecks, Github.waitForChecks.
  pose proof (waitLoop_exitSpec poll prNumber hasCallback
                                (Github.waitFuel timeout) (now + timeout)
                                now O None) as Hspec.
  destruct (Github.waitLoop poll prNumber hasCallback (Github.waitFuel timeout)
                            (now + timeout) now 0 None) as [x evs'].
  cbn [fst snd] in Hspec. intros H. injection H as Hgo <-.
  destruct x as [s | e | last |]; cbn [Github.goResult exitSpec] in *;
    try discriminate.
  - injection Hgo as -> <-.
    destruct Hspec as (n & Hcount & _ & _ & _ & Hs & _).
    exists n. split; [exact Hcount | exact Hs].
  - injection Hgo as -> _.
    destruct Hspec as (n & Hcount & _ & Hgoes & _ & Hlast).
    destruct n as [| m]; cbn [lastSeen] in Hlast; [discriminate |].
    destruct (Hgoes m (Nat.lt_succ_diag_r m)) as (s & Hs & Ht).
    cbn [Nat.add] in Hs, Hlast. rewrite Hs in Hlast. injection Hlast as ->.
    exists m. split; [exact Hcount | exact Hs].
Qed.

Lemma statusAt_snapshot (poll : nat -> Github.PollReply) (n : nat)
      (status : Github.PRStatus) :
  statusAt poll n = Ok status ->
  exists checks review,
    Github.checksReply (poll n) = Ok checks
    /\ Github.reviewReply (poll n) = Ok review
    /\ status = snapshot checks review.
Proof.
  unfold statusAt.
  destruct (Github.checksReply (poll n)) as [checks | e]; [| discriminate].
  destruct (Github.reviewReply (poll n)) as [review | e]; [| discriminate].
  rewrite GetPRStatus_snapshot. intros H. injection H as <-.
  exists checks, review. auto.
Qed.

Section IterationFacts.
Context {L : GoLib}.
Import Config Orchestrator.

Definition isMerge (ev : Event) : bool :=
  match ev with EvMergePR _ _ => true | _ => false end.

Definition isClose (ev : Event) : bool :=
  match ev with EvClosePR _ _ => true | _ => false end.

(** Calls of the iteration outside the push and the wait that neither
    merge nor close nor leave the branch. *)
Definition isPlain (ev : Event) : bool :=
  negb (isMerge ev) && negb (isClose ev) && negb (isBranchCleanup ev).

Lemma agentEvents_plain (cfg : Config) (env : IterEnv) (o : State) :
  forallb isPlain (agentEvents cfg env o) = true.
Proof.
  unfold agentEvents.
  destruct (Claude.ContainsCompletionSignal _ _);
    destruct (Claude.IsError _); reflexivity.
Qed.

Lemma pushOf_plain (cfg : Config) (env : IterEnv) (o : State) :
  forallb isPlain (snd (pushOf cfg env o)) = true.
Proof.
  apply forallb_forall. intros ev Hin.
  apply PushWithRetry_events in Hin.
  destruct Hin as [-> | [d ->]]; reflexivity.
Qed.

Lemma waitOf_plain (env : IterEnv) (url : string) :
  forallb isPlain (snd (waitOf env url)) = true.
Proof.
  apply forallb_forall. intros ev Hin.
  apply WaitForChecks_events in Hin.
  destruct Hin as [-> | [-> | (a & p & f & r & ->)]]; reflexivity.
Qed.

Lemma pollCount_app (a b : list Event) :
  pollCount (a ++ b) = (pollCount a + pollCount b)%nat.
Proof. unfold pollCount. rewrite filter_app, length_app. reflexivity. Qed.

Lemma agentEvents_polls (cfg : Config) (env : IterEnv) (o : State) :
  pollCount (agentEvents cfg env o) = O.
Proof.
  unfold agentEvents.
  destruct (Claude.ContainsCompletionSignal _ _);
    destruct (Claude.IsError _); reflexivity.
Qed.

Lemma pushOf_polls (cfg : Config) (env : IterEnv) (o : State) :
  pollCount (snd (pushOf cfg env o)) = O.
Proof.
  unfold pollCount. rewrite filter_none; [reflexivity |].
  intros ev Hin. apply PushWithRetry_events in Hin.
  destruct Hin as [-> | [d ->]]; reflexivity.
Qed.

(** The calls up to the end of the wait hold the polls of the wait and no
    others, and neither merge nor close the pull request. *)
Lemma waitedEvents_quiet (cfg : Config) (env : IterEnv) (o : State)
      (pushErr : option string) (pushEvs : list Event) (url : string)
      (waited : option (option Github.PRStatus * option string))
      (waitEvs : list Event) (err : option string) :
  pushOf cfg env o = (pushErr, pushEvs) ->
  waitOf env url = (waited, waitEvs) ->
  pollCount (waitedEvents cfg env o pushEvs url waitEvs err) = pollCount waitEvs
  /\ existsb isMerge (waitedEvents cfg env o pushEvs url waitEvs err) = false
  /\ existsb isClose (waitedEvents cfg env o pushEvs url waitEvs err) = false.
Proof.
  intros Hpush Hwait.
  pose proof (pushOf_polls cfg env o) as Hpp.
  pose proof (pushOf_plain cfg env o) as Hp.
  pose proof (waitOf_plain env url) as Hw.
  rewrite Hpush in Hpp, Hp. rewrite Hwait in Hw. cbn [snd] in Hpp, Hp, Hw.
  pose proof (agentEvents_plain cfg env o) as Ha.
  pose proof (agentEvents_polls cfg env o) as Hap.
  assert (Hquiet : forall l, forallb isPlain l = true ->
                             existsb isMerge l = false /\ existsb isClose l = false).
  { induction l as [| ev l IH]; [auto |].
    cbn [forallb existsb]. intros H. apply andb_true_iff in H.
    destruct H as [Hev Hrest]. destruct (IH Hrest) as [H1 H2].
    rewrite H1, H2. unfold isPlain in Hev.
    destruct (isMerge ev), (isClose ev); try discriminate Hev; auto. }
  destruct (Hquiet _ Ha) as [Ha1 Ha2]. destruct (Hquiet _ Hp) as [Hp1 Hp2].
  destruct (Hquiet _ Hw) as [Hw1 Hw2].
  unfold waitedEvents, openedEvents, committedEvents, stagedEvents.
  split; [| split].
  - rewrite !pollCount_app, Hap, Hpp.
    change (pollCount (?x :: waitEvs ++ ?y))
      with (pollCount (waitEvs ++ y)).
    rewrite pollCount_app. destruct err; cbn; lia.
  - rewrite !existsb_app, Ha1, Hp1. cbn [existsb isMerge orb].
    rewrite existsb_app, Hw1. destruct err; reflexivity.
  - rewrite !existsb_app, Ha2, Hp2. cbn [existsb isClose orb].
    rewrite existsb_app, Hw2. destruct err; reflexivity.
Qed.

(** The one call for which [f] holds splits a list in one way only. *)
Lemma unique_split (f : Event -> bool) (l1 l2 r1 r2 : list Event) (a b : Event) :
  existsb f l1 = false -> existsb f r1 = false -> f b = true ->
  (l1 ++ a :: r1 = l2 ++ b :: r2)%list ->
  l1 = l2.
Proof.
  revert l2. induction l1 as [| x l1 IH]; intros [| y l2] H1 Hr Hb Heq;
    cbn [app] in Heq.
  - reflexivity.
  - injection Heq as _ Heq. rewrite Heq, existsb_app in Hr.
    cbn [existsb] in Hr. rewrite Hb, orb_true_r in Hr. discriminate Hr.
  - injection Heq as -> _. cbn [existsb] in H1. rewrite Hb in H1.
    discriminate H1.
  - injection Heq as -> Heq. cbn [existsb] in H1.
    apply orb_false_iff in H1. destruct H1 as [_ H1].
    rewrite (IH l2 H1 Hr Hb Heq). reflexivity.
Qed.

End IterationFacts.

Section IterationSafety.
Context {L : GoLib}.
Import Config Orchestrator.

Lemma plain_quiet (evs : list Event) :
  forallb isPlain evs = true ->
  existsb isMerge evs = false
  /\ existsb isClose evs = false
  /\ existsb isBranchCleanup evs = false.
Proof.
  induction evs as [| ev evs IH]; [auto |].
  cbn [forallb existsb]. intros H. apply andb_true_iff in H.
  destruct H as [Hev Hrest]. destruct (IH Hrest) as (H1 & H2 & H3).
  rewrite H1, H2, H3. unfold isPlain in Hev.
  destruct (isMerge ev), (isClose ev), (isBranchCleanup ev);
    try discriminate Hev; auto.
Qed.

(** Simplifies the three counts over the calls of a path. *)
Ltac path_events cfg env o :=
  destruct (plain_quiet _ (agentEvents_plain cfg env o)) as (?Ha1 & ?Ha2 & ?Ha3);
  unfold waitedEvents, openedEvents, committedEvents, stagedEvents;
  try match goal with
      | H : pushOf cfg env o = (_, ?evs) |- _ =>
          let Hp := fresh "Hp" in
          pose proof (pushOf_plain cfg env o) as Hp;
          rewrite H in Hp; cbn [snd] in Hp;
          destruct (plain_quiet _ Hp) as (?Hp1 & ?Hp2 & ?Hp3);
          clear Hp
      end;
  try match goal with
      | H : waitOf env ?url = (_, ?evs) |- _ =>
          let Hw := fresh "Hw" in
          pose proof (waitOf_plain env url) as Hw;
          rewrite H in Hw; cbn [snd] in Hw;
          destruct (plain_quiet _ Hw) as (?Hw1 & ?Hw2 & ?Hw3);
          clear Hw
      end;
  repeat match goal with
         | |- context [match ?err with Some _ => _ | None => _ end] =>
             is_var err; destruct err
         end;
  rewrite ?existsb_app;
  cbn [existsb isMerge isClose isBranchCleanup];
  rewrite ?existsb_app;
  repeat match goal with
         | H : existsb _ _ = false |- _ => rewrite H
         end;
  cbn [existsb isMerge isClose isBranchCleanup orb].

(** X1.  Wherever the calls of an iteration hold a call of [MergePR],
    commits are enabled, dry-run mode is off and staging found changes; and
    the calls made before that call hold at least one poll of the review
    system, the last of which was answered with checks none of which was
    pending or failed and with a review decision that was empty or
    APPROVED. *)
Theorem merge_needs_green_checks :
  forall (cfg : Config) (env : IterEnv) (o : State)
         (before after : list Event) (pr strategy : string),
    snd (runIteration cfg env o) = (before ++ EvMergePR pr strategy :: after)%list ->
    DisableCommits cfg = false
    /\ DryRun cfg = false
    /\ env_hasChanges env = Ok true
    /\ exists n checks review,
        pollCount before = S n
        /\ Github.checksReply (env_poll env n) = Ok checks
        /\ Github.reviewReply (env_poll env n) = Ok review
        /\ (forall c, In c checks ->
                      ~ In (Github.State c)
                        ["PENDING"; "QUEUED"; "IN_PROGRESS"; "FAILURE"; "ERROR";
                         "CANCELLED"; "TIMED_OUT"; "ACTION_REQUIRED"])
        /\ (review = EmptyString \/ review = "APPROVED").
Proof.
  intros cfg env o before after pr strategy.
  pose proof (runIteration_path cfg env o) as Hpath.
  remember (runIteration cfg env o) as out eqn:Hout. clear Hout.
  intros Heq.
  assert (Hex : existsb isMerge (snd out) = true).
  { rewrite Heq, existsb_app. cbn [existsb isMerge]. apply orb_true_r. }
  assert (Hgreen : forall n status,
             statusAt (env_poll env) n = Ok status ->
             Github.IsMergeable status = true ->
             exists checks review,
               Github.checksReply (env_poll env n) = Ok checks
               /\ Github.reviewReply (env_poll env n) = Ok review
               /\ (forall c, In c checks ->
                             ~ In (Github.State c)
                               ["PENDING"; "QUEUED"; "IN_PROGRESS"; "FAILURE";
                                "ERROR"; "CANCELLED"; "TIMED_OUT";
                                "ACTION_REQUIRED"])
               /\ (review = EmptyString \/ review = "APPROVED")).
  { intros n status Hn Hm.
    destruct (statusAt_snapshot _ _ _ Hn) as (checks & review & Hc & Hr & ->).
    exists checks, review. split; [exact Hc |]. split; [exact Hr |].
    unfold snapshot in Hm. cbn [Github.IsMergeable] in Hm.
    apply andb_true_iff in Hm. destruct Hm as [Hall Hrev]. split.
    - intros c Hin Hstate.
      assert (Hpf : existsb isPending checks || existsb isFailed checks = true).
      { apply orb_true_iff.
        simpl in Hstate.
        destruct Hstate as [H | [H | [H | Hf]]];
          try (left; apply existsb_exists; exists c; split; [exact Hin |];
               apply isPending_In; simpl; tauto).
        right. apply existsb_exists. exists c. split; [exact Hin |].
        apply isFailed_In. simpl. tauto. }
      destruct checks as [| c0 rest]; [destruct Hin |].
      cbn [length Z.of_nat] in Hall.
      destruct (existsb isPending (c0 :: rest)), (existsb isFailed (c0 :: rest));
        discriminate.
    - apply orb_true_iff in Hrev.
      destruct Hrev as [H | H]; apply String.eqb_eq in H; auto. }
  destruct Hpath; cbn [snd] in Heq, Hex;
    try (exfalso; revert Hex; clear Heq; path_events cfg env o;
         intros Habsurd; discriminate Habsurd);
    match goal with
    | Hp : pushOf _ _ _ = (_, ?pushEvs),
      Hw : waitOf _ ?url = (Some (Some ?status, ?err), ?waitEvs),
      Hm : Github.IsMergeable ?status = true |- _ =>
        destruct (WaitForChecks_last_poll _ _ _ _ _ _ _ _ Hw)
          as (n & Hcount & Hn);
        destruct (waitedEvents_quiet _ _ _ _ pushEvs url _ waitEvs err Hp Hw)
          as (Hpolls & Hquiet & _);
        pose proof (fun Hr Hm' =>
                      unique_split isMerge _ _ _ _ _ _ Hquiet Hr Hm' Heq) as Hb;
        specialize (Hb eq_refl eq_refl);
        destruct (Hgreen n status Hn Hm) as (checks & review & Hrest)
    end;
    subst before; repeat (split; [assumption |]);
    exists n, checks, review; (split; [rewrite Hpolls; exact Hcount | exact Hrest]).
Qed.

(** X2.  Wherever the calls of an iteration hold a call of [ClosePR], the
    calls made before that call hold at least one poll of the review system,
    the last of which was answered with a check that had failed. *)
Theorem close_needs_failed_check :
  forall (cfg : Config) (env : IterEnv) (o : State)
         (before after : list Event) (pr : string) (deleteBranch : bool),
    snd (runIteration cfg env o)
    = (before ++ EvClosePR pr deleteBranch :: after)%list ->
    exists n checks c,
      pollCount before = S n
      /\ Github.checksReply (env_poll env n) = Ok checks
      /\ In c checks
      /\ In (Github.State c)
            ["FAILURE"; "ERROR"; "CANCELLED"; "TIMED_OUT"; "ACTION_REQUIRED"].
Proof.
  intros cfg env o before after pr deleteBranch.
  pose proof (runIteration_path cfg env o) as Hpath.
  remember (runIteration cfg env o) as out eqn:Hout. clear Hout.
  intros Heq.
  assert (Hex : existsb isClose (snd out) = true).
  { rewrite Heq, existsb_app. cbn [existsb isClose]. apply orb_true_r. }
  assert (Hred : forall n status,
             statusAt (env_poll env) n = Ok status ->
             Github.HasFailedChecks status = true ->
             exists checks c,
               Github.checksReply (env_poll env n) = Ok checks
               /\ In c checks
               /\ In (Github.State c)
                     ["FAILURE"; "ERROR"; "CANCELLED"; "TIMED_OUT";
                      "ACTION_REQUIRED"]).
  { intros n status Hn Hf.
    destruct (statusAt_snapshot _ _ _ Hn) as (checks & review & Hc & Hr & ->).
    unfold snapshot in Hf. cbn [Github.HasFailedChecks] in Hf.
    apply existsb_exists in Hf. destruct Hf as (c & Hin & Hfc).
    exists checks, c. split; [exact Hc |]. split; [exact Hin |].
    apply isFailed_In. exact Hfc. }
  destruct Hpath; cbn [snd] in Heq, Hex;
    try (exfalso; revert Hex; clear Heq; path_events cfg env o;
         intros Habsurd; discriminate Habsurd).
  match goal with
  | Hp : pushOf _ _ _ = (_, ?pushEvs),
    Hw : waitOf _ ?url = (Some (Some ?status, ?err), ?waitEvs),
    Hf : Github.HasFailedChecks ?status = true |- _ =>
      destruct (WaitForChecks_last_poll _ _ _ _ _ _ _ _ Hw) as (n & Hcount & Hn);
      destruct (waitedEvents_quiet _ _ _ _ pushEvs url _ waitEvs err Hp Hw)
        as (Hpolls & _ & Hquiet);
      destruct (Hred n status Hn Hf) as (checks & c & Hrest);
      assert (Hb : (waitedEvents cfg env o pushEvs url waitEvs err
                    ++ [EvUi Error "Checks failed, closing PR"])%list = before)
  end.
  { apply (unique_split isClose _ before [EvSwitchBranch (baseBranch o)] after
                        (EvClosePR (Github.GetPRNumber url) true)
                        (EvClosePR pr deleteBranch)).
    - rewrite existsb_app, Hquiet. reflexivity.
    - reflexivity.
    - reflexivity.
    - rewrite <- app_assoc. exact Heq. }
  subst before.
  exists n, checks, c. split; [| exact Hrest].
  rewrite pollCount_app, Hpolls, Hcount. cbn. lia.
Qed.

(** X3.  With commits enabled, an iteration switches or deletes a branch
    exactly when it returns a nil error: on every error return, and on the
    panic, it makes no call that goes back to the base branch, so the work
    tree stays where the iteration left it. *)
Theorem base_branch_iff_no_error :
  forall (cfg : Config) (env : IterEnv) (o : State),
    DisableCommits cfg = false ->
    (existsb isBranchCleanup (snd (runIteration cfg env o)) = true
     <-> fst (fst (runIteration cfg env o)) = Returned None).
Proof.
  intros cfg env o Hd.
  pose proof (runIteration_path cfg env o) as Hpath.
  remember (runIteration cfg env o) as out eqn:Hout. clear Hout.
  destruct Hpath; cbn [fst snd]; path_events cfg env o;
    try congruence;
    split; intros Hx; solve [reflexivity | discriminate Hx].
Qed.

End IterationSafety.

(** The checks pass and the review is approved at the first poll. *)
Definition greenEnv : Orchestrator.IterEnv :=
  Orchestrator.mkIterEnv
    "2025-01-15" "a1b2c3d4" None EmptyString
    (mkProcResult None "Added two tests" EmptyString)
    None (Ok true)
    (mkProcResult None "test: add two tests" EmptyString)
    "test: add two tests"
    (fun _ => None)
    "test: add two tests"
    (Ok "https://github.com/guzus/deep-claude/pull/17")
    0
    (fun _ => Github.mkPollReply (Ok [Github.mkPRCheck "ci" "SUCCESS" "pass"])
                                 (Ok "APPROVED") 2000)
    None.

(** The only check is in progress at the first poll and has failed at the
    second. *)
Definition redEnv : Orchestrator.IterEnv :=
  Orchestrator.mkIterEnv
    "2025-01-15" "a1b2c3d4" None EmptyString
    (mkProcResult None "Added two tests" EmptyString)
    None (Ok true)
    (mkProcResult None "test: add two tests" EmptyString)
    "test: add two tests"
    (fun _ => None)
    "test: add two tests"
    (Ok "https://github.com/guzus/deep-claude/pull/17")
    0
    pendingThenFailed
    None.

(** The iteration in which the checks pass at once, and the one in which
    the check fails at the second poll. *)
Definition greenRun
  : Orchestrator.IterResult * Orchestrator.State * list Event :=
  @Orchestrator.runIteration plainTextLib sampleConfig greenEnv
                             (Orchestrator.mkState 1 0%float 0 0 "main").

Definition redRun
  : Orchestrator.IterResult * Orchestrator.State * list Event :=
  @Orchestrator.runIteration plainTextLib sampleConfig redEnv
                             (Orchestrator.mkState 1 0%float 0 0 "main").

Lemma merge_needs_green_checks_witness :
  snd greenRun = (firstn 16 (snd greenRun) ++ EvMergePR "17" "squash"
                                           :: skipn 17 (snd greenRun))%list
  /\ exists n checks review,
      pollCount (firstn 16 (snd greenRun)) = S n
      /\ Github.checksReply (Orchestrator.env_poll greenEnv n) = Ok checks
      /\ Github.reviewReply (Orchestrator.env_poll greenEnv n) = Ok review
      /\ (forall c, In c checks ->
                    ~ In (Github.State c)
                      ["PENDING"; "QUEUED"; "IN_PROGRESS"; "FAILURE"; "ERROR";
                       "CANCELLED"; "TIMED_OUT"; "ACTION_REQUIRED"])
      /\ (review = EmptyString \/ review = "APPROVED").
Proof.
  assert (Hsplit : snd (@Orchestrator.runIteration
                          plainTextLib sampleConfig greenEnv
                          (Orchestrator.mkState 1 0%float 0 0 "main"))
                   = (firstn 16 (snd greenRun) ++ EvMergePR "17" "squash"
                                               :: skipn 17 (snd greenRun))%list)
    by (vm_compute; reflexivity).
  split; [exact Hsplit |].
  exact (proj2 (proj2 (proj2 (@merge_needs_green_checks
                                plainTextLib sampleConfig greenEnv
                                (Orchestrator.mkState 1 0%float 0 0 "main")
                                (firstn 16 (snd greenRun))
                                (skipn 17 (snd greenRun))
                                "17" "squash" Hsplit)))).
Defined.

Lemma close_needs_failed_check_witness :
  snd redRun = (firstn 20 (snd redRun) ++ EvClosePR "17" true
                                       :: skipn 21 (snd redRun))%list
  /\ exists n checks c,
      pollCount (firstn 20 (snd redRun)) = S n
      /\ Github.checksReply (Orchestrator.env_poll redEnv n) = Ok checks
      /\ In c checks
      /\ In (Github.State c)
            ["FAILURE"; "ERROR"; "CANCELLED"; "TIMED_OUT"; "ACTION_REQUIRED"].
Proof.
  assert (Hsplit : snd (@Orchestrator.runIteration
                          plainTextLib sampleConfig redEnv
                          (Orchestrator.mkState 1 0%float 0 0 "main"))
                   = (firstn 20 (snd redRun) ++ EvClosePR "17" true
                                             :: skipn 21 (snd redRun))%list)
    by (vm_compute; reflexivity).
  split; [exact Hsplit |].
  exact (@close_needs_failed_check
           plainTextLib sampleConfig redEnv
           (Orchestrator.mkState 1 0%float 0 0 "main")
           (firstn 20 (snd redRun)) (skipn 21 (snd redRun)) "17" true Hsplit).
Defined.

Lemma base_branch_iff_no_error_witness :
  Config.DisableCommits sampleConfig = false
  /\ (existsb isBranchCleanup
              (snd (@Orchestrator.runIteration
                      plainTextLib sampleConfig greenEnv
                      (Orchestrator.mkState 1 0%float 0 0 "main"))) = true
      <-> fst (fst (@Orchestrator.runIteration
                      plainTextLib sampleConfig greenEnv
                      (Orchestrator.mkState 1 0%float 0 0 "main")))
          = Orchestrator.Returned None).
Proof.
  split; [reflexivity |].
  exact (@base_branch_iff_no_error
           plainTextLib sampleConfig greenEnv
           (Orchestrator.mkState 1 0%float 0 0 "main") eq_refl).
Defined.

(** ** The main loop *)

Section RunFacts.
Context {L : GoLib}.
Import Config Orchestrator.

Definition isCreate (ev : Event) : bool :=
  match ev with EvCreateBranch _ => true | _ => false end.

(** The number of iterations started: one branch is created for each. *)
Definition iterationsStarted (evs : list Event) : nat :=
  length (filter isCreate evs).

Lemma iterationsStarted_app (xs ys : list Event) :
  iterationsStarted (xs ++ ys) = (iterationsStarted xs + iterationsStarted ys)%nat.
Proof. unfold iterationsStarted. rewrite filter_app, length_app. reflexivity. Qed.

Lemma iterationsStarted_cons (x : Event) (l : list Event) :
  iterationsStarted (x :: l)
  = ((if isCreate x then 1 else 0) + iterationsStarted l)%nat.
Proof. unfold iterationsStarted. cbn. destruct (isCreate x); reflexivity. Qed.

Lemma iterationsStarted_agent (cfg : Config) (env : IterEnv) (o : State) :
  iterationsStarted (agentEvents cfg env o) = 1%nat.
Proof.
  unfold agentEvents.
  destruct (Claude.ContainsCompletionSignal _ _);
    destruct (Claude.IsError _); reflexivity.
Qed.

Lemma iterationsStarted_push (cfg : Config) (env : IterEnv) (o : State) :
  iterationsStarted (snd (pushOf cfg env o)) = O.
Proof.
  unfold iterationsStarted. rewrite filter_none; [reflexivity |].
  intros ev Hin. apply PushWithRetry_events in Hin.
  destruct Hin as [-> | [d ->]]; reflexivity.
Qed.

Lemma iterationsStarted_wait (env : IterEnv) (url : string) :
  iterationsStarted (snd (waitOf env url)) = O.
Proof.
  unfold iterationsStarted. rewrite filter_none; [reflexivity |].
  intros ev Hin. apply WaitForChecks_events in Hin.
  destruct Hin as [-> | [-> | (a & p & f & r & ->)]]; reflexivity.
Qed.

(** Every iteration creates exactly one branch. *)
Lemma runIteration_one_branch (cfg : Config) (env : IterEnv) (o : State) :
  iterationsStarted (snd (runIteration cfg env o)) = 1%nat.
Proof.
  pose proof (runIteration_path cfg env o) as Hpath.
  remember (runIteration cfg env o) as out eqn:Hout. clear Hout.
  pose proof (iterationsStarted_agent cfg env o) as Hagent.
  destruct Hpath; cbn [snd];
    unfold waitedEvents, openedEvents, committedEvents, stagedEvents;
    try match goal with
        | H : pushOf cfg env o = (_, ?evs) |- _ =>
            let Hp := fresh "Hp" in
            pose proof (iterationsStarted_push cfg env o) as Hp;
            rewrite H in Hp; cbn [snd] in Hp
        end;
    try match goal with
        | H : waitOf env ?url = (_, ?evs) |- _ =>
            let Hw := fresh "Hw" in
            pose proof (iterationsStarted_wait env url) as Hw;
            rewrite H in Hw; cbn [snd] in Hw
        end;
    repeat match goal with
           | |- context [match ?err with Some _ => _ | None => _ end] =>
               is_var err; destruct err
           end;
    repeat (rewrite iterationsStarted_app || rewrite iterationsStarted_cons);
    change (iterationsStarted []) with O;
    repeat match goal with
           | H : iterationsStarted _ = _ |- _ => rewrite H
           end;
    reflexivity.
Qed.

Lemma runIteration_iteration (cfg : Config) (env : IterEnv) (o : State) :
  iteration (snd (fst (runIteration cfg env o))) = iteration o.
Proof.
  rewrite runIteration_state. destruct (env_createBranch env); reflexivity.
Qed.

(** The passes of the main loop: when it returns, it returns no error and
    the index has advanced by one more than the iterations started. *)
Lemma mainLoop_counts (cfg : Config) (renv : RunEnv) (fuel : nat) :
  forall (k : nat) (o : State),
    0 <= iteration o ->
    iteration o + Z.of_nat fuel <= GoInt.MaxInt64 ->
    let out := mainLoop fuel cfg renv k o in
    match fst (fst out) with
    | RunReturned err =>
        err = None
        /\ iteration (snd (fst out))
           = iteration o + Z.of_nat (iterationsStarted (snd out)) + 1
        /\ iteration (snd (fst out)) <= GoInt.MaxInt64
    | _ => True
    end.
Proof.
  induction fuel as [| fuel IH]; intros k o Hpos Hmax; [exact I |].
  cbn [mainLoop].
  set (o1 := setIteration o (GoInt.wrap64 (iteration o + 1))).
  assert (Hit : iteration o1 = iteration o + 1).
  { unfold o1. cbn [iteration setIteration]. apply wrap64_inRange.
    unfold GoInt.inRange, GoInt.MinInt64, GoInt.MaxInt64 in *. lia. }
  destruct (checkStopConditions cfg o1 (run_clock renv k)) as [[|] reason].
  { cbn [fst snd]. split; [reflexivity |].
    rewrite Hit. unfold iterationsStarted. cbn [filter isCreate length]. lia. }
  pose proof (runIteration_one_branch cfg (run_iter renv k) o1) as Hone.
  pose proof (runIteration_iteration cfg (run_iter renv k) o1) as Hsame.
  destruct (runIteration cfg (run_iter renv k) o1) as [[r o'] evs].
  cbn [fst snd] in Hone, Hsame.
  assert (Hrec := IH (S k) o' ltac:(lia) ltac:(lia)). cbv zeta in Hrec.
  destruct r as [[err |] | msg |]; try exact I;
    unfold after; cbn [fst snd];
    destruct (mainLoop fuel cfg renv (S k) o') as [[r2 o2] evs2];
    cbn [fst snd] in *; destruct r2; try exact I;
    destruct Hrec as (-> & Hrec & Hmax2); (split; [reflexivity |]);
    rewrite ?iterationsStarted_app, ?iterationsStarted_cons, Hone;
    cbn [isCreate]; change (iterationsStarted []) with O; lia.
Qed.

(** [--max-runs M] starts at most [M] iterations. *)
Lemma mainLoop_max_runs (cfg : Config) (renv : RunEnv) (fuel : nat) :
  0 < MaxRuns cfg < GoInt.MaxInt64 ->
  forall (k : nat) (o : State),
    0 <= iteration o <= MaxRuns cfg ->
    Z.of_nat (iterationsStarted (snd (mainLoop fuel cfg renv k o)))
    <= MaxRuns cfg - iteration o.
Proof.
  intros HM. induction fuel as [| fuel IH]; intros k o Hit0; [cbn; lia |].
  cbn [mainLoop].
  set (o1 := setIteration o (GoInt.wrap64 (iteration o + 1))).
  assert (Hit : iteration o1 = iteration o + 1).
  { unfold o1. cbn [iteration setIteration]. apply wrap64_inRange.
    unfold GoInt.inRange, GoInt.MinInt64, GoInt.MaxInt64 in *. lia. }
  unfold checkStopConditions.
  destruct (HasMaxRuns cfg && (MaxRuns cfg <? iteration o1)) eqn:Hstop;
    [cbn; lia |].
  assert (Hle : iteration o1 <= MaxRuns cfg).
  { apply andb_false_iff in Hstop. unfold HasMaxRuns in Hstop.
    destruct Hstop as [H | H]; apply Z.ltb_ge in H; lia. }
  destruct (HasMaxCost cfg && _); [cbn; lia |].
  destruct (HasMaxDuration cfg && _); [cbn; lia |].
  destruct (CompletionThreshold cfg <=? _); [cbn; lia |].
  pose proof (runIteration_one_branch cfg (run_iter renv k) o1) as Hone.
  pose proof (runIteration_iteration cfg (run_iter renv k) o1) as Hsame.
  destruct (runIteration cfg (run_iter renv k) o1) as [[r o'] evs].
  cbn [fst snd] in Hone, Hsame.
  specialize (IH (S k) o').
  destruct r as [[err |] | msg |]; unfold after; cbn [fst snd];
    rewrite ?iterationsStarted_app, ?Hone; cbn [iterationsStarted filter isCreate length Nat.add];
    lia.
Qed.

(** X4.  With a ceiling of [M] iterations, [0 < M < MaxInt64], the run of a
    new orchestrator ends within [M + 1] passes of its main loop: it returns
    or panics. *)
Theorem Run_ends_within_max_runs :
  forall (cfg : Config) (renv : RunEnv) (o : State),
    0 < MaxRuns cfg < GoInt.MaxInt64 ->
    iteration o = 0 ->
    fst (fst (Run (S (Z.to_nat (MaxRuns cfg))) cfg renv o)) <> StillRunning.
Proof.
  intros cfg renv o HM Hit. unfold Run.
  destruct (run_validate renv); [discriminate |].
  pose proof (mainLoop_ends cfg renv HM (S (Z.to_nat (MaxRuns cfg))) O
                            (setStartTime o (run_start renv))) as Hends.
  cbn [iteration setStartTime] in Hends.
  destruct (mainLoop (S (Z.to_nat (MaxRuns cfg))) cfg renv 0
                     (setStartTime o (run_start renv))) as [[r o'] evs].
  cbn [fst] in Hends.
  assert (Hr : r <> StillRunning) by (apply Hends; lia).
  destruct r; cbn [fst]; congruence.
Qed.

(** X5.  However long it runs, a new orchestrator with a ceiling of [M]
    iterations, [0 < M < MaxInt64], starts at most [M] of them. *)
Theorem Run_starts_at_most_max_runs :
  forall (fuel : nat) (cfg : Config) (renv : RunEnv) (o : State),
    0 < MaxRuns cfg < GoInt.MaxInt64 ->
    iteration o = 0 ->
    Z.of_nat (iterationsStarted (snd (Run fuel cfg renv o))) <= MaxRuns cfg.
Proof.
  intros fuel cfg renv o HM Hit. unfold Run.
  destruct (run_validate renv); [cbn; lia |].
  pose proof (mainLoop_max_runs cfg renv fuel HM O
                                (setStartTime o (run_start renv))) as Hmax.
  cbn [iteration setStartTime] in Hmax.
  destruct (mainLoop fuel cfg renv 0 (setStartTime o (run_start renv)))
    as [[r o'] evs].
  cbn [snd] in Hmax.
  assert (Hw : forall w, iterationsStarted
                           (match w with
                            | Some e => [EvUi Warning
                                           ("Could not initialize notes file: " ++ e)]
                            | None => []
                            end) = O)
    by (intros [e |]; reflexivity).
  destruct r; cbn [snd];
    rewrite ?iterationsStarted_app, ?iterationsStarted_cons, Hw;
    cbn [isCreate]; change (iterationsStarted []) with O; lia.
Qed.

(** X6.  When the run of a new orchestrator returns after the requirements
    were met, it returns a nil error, and the summary that ends it reports as
    completed exactly the iterations that were started. *)
Theorem Run_summary_counts_iterations :
  forall (fuel : nat) (cfg : Config) (renv : RunEnv) (o o' : State)
         (err : option string) (evs : list Event),
    iteration o = 0 ->
    Z.of_nat fuel <= GoInt.MaxInt64 ->
    run_validate renv = None ->
    Run fuel cfg renv o = (RunReturned err, o', evs) ->
    err = None
    /\ exists body,
        evs = (body
               ++ [EvSummary (Z.of_nat (iterationsStarted body)) (totalCost o')
                             (Since (startTime o') (run_end renv))
                             (CompletionThreshold cfg <=? completionSignalCount o')])%list.
Proof.
  intros fuel cfg renv o o' err evs Hit Hfuel Hv. unfold Run. rewrite Hv.
  pose proof (mainLoop_counts cfg renv fuel O (setStartTime o (run_start renv)))
    as Hcount.
  cbn [iteration setStartTime] in Hcount. cbv zeta in Hcount.
  destruct (mainLoop fuel cfg renv 0 (setStartTime o (run_start renv)))
    as [[r o2] evs2].
  cbn [fst snd] in Hcount.
  destruct r as [err2 | msg |]; intros H; try discriminate H.
  injection H as <- <- <-.
  destruct Hcount as (-> & Hiter & Hmax); [lia | lia |].
  split; [reflexivity |].
  set (warned := match run_notesInit renv with
                 | Some e => [EvUi Warning
                                ("Could not initialize notes file: " ++ e)]
                 | None => []
                 end).
  exists (warned ++ [EvUi Info "Starting continuous development loop"] ++ evs2)%list.
  assert (Hw : iterationsStarted warned = O)
    by (unfold warned; destruct (run_notesInit renv); reflexivity).
  assert (Hn : GoInt.wrap64 (iteration o2 - 1)
               = Z.of_nat (iterationsStarted
                             (warned
                              ++ [EvUi Info "Starting continuous development loop"]
                              ++ evs2))).
  { rewrite !iterationsStarted_app, Hw, iterationsStarted_cons.
    cbn [isCreate]. change (iterationsStarted []) with O.
    rewrite wrap64_inRange.
    - lia.
    - unfold GoInt.inRange, GoInt.MinInt64, GoInt.MaxInt64 in *. lia. }
  rewrite <- Hn, <- !app_assoc. reflexivity.
Qed.

End RunFacts.

Lemma Run_ends_within_max_runs_witness :
  0 < Config.MaxRuns disableCommitsConfig < GoInt.MaxInt64
  /\ fst (fst (@Orchestrator.Run plainTextLib 4 disableCommitsConfig
                                 pollFailsRun freshState))
     <> Orchestrator.StillRunning.
Proof.
  assert (H : 0 < Config.MaxRuns disableCommitsConfig < GoInt.MaxInt64)
    by (split; reflexivity).
  split; [exact H |].
  exact (@Run_ends_within_max_runs plainTextLib disableCommitsConfig
                                   pollFailsRun freshState H eq_refl).
Defined.

Lemma Run_starts_at_most_max_runs_witness :
  0 < Config.MaxRuns disableCommitsConfig < GoInt.MaxInt64
  /\ Z.of_nat (iterationsStarted
                 (snd (@Orchestrator.Run plainTextLib 10 disableCommitsConfig
                                         pollFailsRun freshState)))
     <= Config.MaxRuns disableCommitsConfig.
Proof.
  assert (H : 0 < Config.MaxRuns disableCommitsConfig < GoInt.MaxInt64)
    by (split; reflexivity).
  split; [exact H |].
  exact (@Run_starts_at_most_max_runs plainTextLib 10 disableCommitsConfig
                                      pollFailsRun freshState H eq_refl).
Defined.

(** Ten passes of the main loop with a ceiling of three iterations and
    commits disabled. *)
Definition sampleRun : Orchestrator.RunResult * Orchestrator.State * list Event :=
  @Orchestrator.Run plainTextLib 10 disableCommitsConfig pollFailsRun freshState.

Lemma Run_summary_counts_iterations_witness :
  exists body,
    snd sampleRun
    = (body ++ [EvSummary (Z.of_nat (iterationsStarted body)) 0%float 0 false])%list.
Proof.
  assert (Hrun : @Orchestrator.Run plainTextLib 10 disableCommitsConfig
                                   pollFailsRun freshState
                 = (Orchestrator.RunReturned None, snd (fst sampleRun),
                    snd sampleRun))
    by (vm_compute; reflexivity).
  assert (Hfuel : Z.of_nat 10 <= GoInt.MaxInt64) by (vm_compute; discriminate).
  destruct (@Run_summary_counts_iterations
              plainTextLib 10 disableCommitsConfig pollFailsRun freshState
              (snd (fst sampleRun)) None (snd sampleRun)
              eq_refl Hfuel eq_refl Hrun) as [_ [body Hbody]].
  exists body. exact Hbody.
Defined.

(** ** More on the push retry executor *)

Section RetryFacts.
Variable push : nat -> option string.
Variable branch : string.

(** Push [j] fails with an error taken for a network error. *)
Definition transientAt (j : nat) : Prop :=
  exists e, push j = Some e /\ Git.isNetworkError (Some e) = true.

Lemma pushLoop_succeeds_iff (n : nat) :
  forall (i : nat) (backoff : Z) (lastErr : option string),
    fst (Git.pushLoop push branch n i backoff lastErr) = Git.ReturnedInside None
    <-> exists k, (k < n)%nat /\ push (i + k)%nat = None
                  /\ forall j, (j < k)%nat -> transientAt (i + j).
Proof.
  induction n as [| n IH]; intros i backoff lastErr; cbn [Git.pushLoop].
  - split; [discriminate | intros (k & Hk & _); lia].
  - destruct (push i) as [e |] eqn:Hpush.
    + destruct (Git.isNetworkError (Some e)) eqn:Hnet; cbn [negb].
      * specialize (IH (S i)
                       (if (0 <? i)%nat then GoInt.wrap64 (backoff * 2) else backoff)
                       (Some e)).
        destruct (Git.pushLoop push branch n (S i) _ (Some e)) as [r evs].
        cbn [fst] in *. rewrite IH. split.
        -- intros (k & Hk & Hok & Hall). exists (S k).
           split; [lia |]. split.
           ++ replace (i + S k)%nat with (S i + k)%nat by lia. exact Hok.
           ++ intros j Hj. destruct j as [| j].
              ** rewrite Nat.add_0_r. exists e. auto.
              ** replace (i + S j)%nat with (S i + j)%nat by lia.
                 apply Hall. lia.
        -- intros (k & Hk & Hok & Hall). destruct k as [| k].
           ++ rewrite Nat.add_0_r in Hok. congruence.
           ++ exists k. split; [lia |]. split.
              ** replace (S i + k)%nat with (i + S k)%nat by lia. exact Hok.
              ** intros j Hj.
                 replace (S i + j)%nat with (i + S j)%nat by lia.
                 apply Hall. lia.
      * cbn [fst]. split; [discriminate |].
        intros (k & Hk & Hok & Hall). destruct k as [| k].
        -- rewrite Nat.add_0_r in Hok. congruence.
        -- destruct (Hall O ltac:(lia)) as (e' & He' & Hnet').
           rewrite Nat.add_0_r in He'. congruence.
    + cbn [fst]. split; [| reflexivity].
      intros _. exists O. rewrite Nat.add_0_r.
      split; [lia |]. split; [exact Hpush |]. intros j Hj. lia.
Qed.

Lemma pushLoop_counts (n : nat) :
  forall (i : nat) (backoff : Z) (lastErr : option string),
    let evs := snd (Git.pushLoop push branch n i backoff lastErr) in
    (pushCount evs <= n)%nat
    /\ (length (sleepsOf evs)
        = if (0 <? i)%nat then pushCount evs else Nat.pred (pushCount evs)).
Proof.
  induction n as [| n IH]; intros i backoff lastErr; cbn [Git.pushLoop].
  - destruct (0 <? i)%nat; cbn; split; lia.
  - assert (Hone : forall rest : list Event,
               pushCount ((if (0 <? i)%nat then [EvSleep backoff] else [])
                          ++ EvPush branch :: rest)
               = S (pushCount rest)
               /\ length (sleepsOf ((if (0 <? i)%nat then [EvSleep backoff] else [])
                                    ++ EvPush branch :: rest))
                  = ((if (0 <? i)%nat then 1 else 0) + length (sleepsOf rest))%nat).
    { intros rest. unfold pushCount, sleepsOf.
      destruct (0 <? i)%nat; cbn; auto. }
    destruct (push i) as [e |].
    + destruct (negb (Git.isNetworkError (Some e))).
      * cbn [snd]. destruct (Hone []) as [H1 H2]. rewrite H1, H2.
        cbn. destruct (0 <? i)%nat; split; lia.
      * specialize (IH (S i)
                       (if (0 <? i)%nat then GoInt.wrap64 (backoff * 2) else backoff)
                       (Some e)).
        destruct (Git.pushLoop push branch n (S i) _ (Some e)) as [r evs].
        cbn [snd] in *. destruct (Hone evs) as [H1 H2]. rewrite H1, H2.
        destruct IH as [IH1 IH2]. cbn [Nat.ltb Nat.leb] in IH2.
        rewrite IH2. destruct (0 <? i)%nat; split; cbn; lia.
    + cbn [snd]. destruct (Hone []) as [H1 H2]. rewrite H1, H2.
      cbn. destruct (0 <? i)%nat; split; lia.
Qed.

End RetryFacts.

(** X7.  For [0 <= maxRetries < MaxInt64], the push succeeds exactly when
    some attempt among the first [maxRetries + 1] succeeds and every attempt
    before it failed with an error taken for a network error. *)
Theorem PushWithRetry_succeeds_iff :
  forall (push : nat -> option string) (branch : string) (maxRetries : Z),
    0 <= maxRetries < GoInt.MaxInt64 ->
    (fst (Git.PushWithRetry push branch maxRetries) = None
     <-> exists k, Z.of_nat k <= maxRetries /\ push k = None
                   /\ forall j, (j < k)%nat -> transientAt push j).
Proof.
  intros push branch maxRetries HN. unfold Git.PushWithRetry.
  pose proof (pushLoop_succeeds_iff push branch (Z.to_nat (maxRetries + 1)) 0
                                    (2 * Git.Second) None) as H.
  destruct (Git.pushLoop push branch (Z.to_nat (maxRetries + 1)) 0
                         (2 * Git.Second) None) as [[err | lastErr] evs];
    cbn [fst] in *.
  - split.
    + intros ->. destruct H as [H _]. destruct (H eq_refl) as (k & Hk & Hrest).
      exists k. split; [lia | exact Hrest].
    + intros (k & Hk & Hrest).
      destruct H as [_ H].
      assert (Hr : Git.ReturnedInside err = Git.ReturnedInside None).
      { apply H. exists k. split; [lia | exact Hrest]. }
      congruence.
  - split; [discriminate |].
    intros (k & Hk & Hrest). destruct H as [_ H].
    assert (Hr : Git.FellThrough lastErr = Git.ReturnedInside None).
    { apply H. exists k. split; [lia | exact Hrest]. }
    discriminate Hr.
Qed.

(** X8.  For [0 <= maxRetries < MaxInt64] and whatever the remote answers,
    the push is attempted at least once and at most [maxRetries + 1] times,
    with one sleep before each attempt but the first: the executor never
    sleeps after its last attempt. *)
Theorem PushWithRetry_attempts_bounded :
  forall (push : nat -> option string) (branch : string) (maxRetries : Z),
    0 <= maxRetries < GoInt.MaxInt64 ->
    let evs := snd (Git.PushWithRetry push branch maxRetries) in
    1 <= Z.of_nat (pushCount evs) <= maxRetries + 1
    /\ Z.of_nat (length (sleepsOf evs)) = Z.of_nat (pushCount evs) - 1.
Proof.
  intros push branch maxRetries HN. unfold Git.PushWithRetry.
  pose proof (pushLoop_counts push branch (Z.to_nat (maxRetries + 1)) 0
                              (2 * Git.Second) None) as H.
  cbv zeta in H. cbn [Nat.ltb Nat.leb] in H.
  assert (Hfirst :
            (1 <= pushCount (snd (Git.pushLoop push branch
                                               (Z.to_nat (maxRetries + 1)) 0
                                               (2 * Git.Second) None)))%nat).
  { replace (Z.to_nat (maxRetries + 1)) with (S (Z.to_nat maxRetries)) by lia.
    cbn [Git.pushLoop Nat.ltb Nat.leb app].
    destruct (push O) as [e |].
    - destruct (negb (Git.isNetworkError (Some e))).
      + cbn. lia.
      + destruct (Git.pushLoop push branch (Z.to_nat maxRetries) 1 _ (Some e)).
        cbn. lia.
    - cbn. lia. }
  destruct (Git.pushLoop push branch (Z.to_nat (maxRetries + 1)) 0
                         (2 * Git.Second) None) as [[err | lastErr] evs];
    cbn [snd] in *; lia.
Qed.

(** Two pushes fail for an unresolved host, the third succeeds. *)
Definition thirdPushSucceeds (k : nat) : option string :=
  if (k <? 2)%nat then Some unresolvedHost else None.

Lemma PushWithRetry_succeeds_iff_witness :
  0 <= 3 < GoInt.MaxInt64
  /\ fst (Git.PushWithRetry thirdPushSucceeds "main" 3) = None.
Proof.
  assert (H : 0 <= 3 < GoInt.MaxInt64) by (split; [discriminate | reflexivity]).
  split; [exact H |].
  apply (proj2 (PushWithRetry_succeeds_iff thirdPushSucceeds "main" 3 H)).
  exists 2%nat. split; [discriminate |]. split; [reflexivity |].
  intros [| [| j]] Hj.
  - exists unresolvedHost. split; reflexivity.
  - exists unresolvedHost. split; reflexivity.
  - lia.
Defined.

Lemma PushWithRetry_attempts_bounded_witness :
  0 <= 3 < GoInt.MaxInt64
  /\ 1 <= Z.of_nat (pushCount
                      (snd (Git.PushWithRetry (fun _ => Some unresolvedHost)
                                              "main" 3))) <= 3 + 1
  /\ Z.of_nat (length (sleepsOf
                         (snd (Git.PushWithRetry (fun _ => Some unresolvedHost)
                                                 "main" 3))))
     = Z.of_nat (pushCount
                   (snd (Git.PushWithRetry (fun _ => Some unresolvedHost)
                                           "main" 3))) - 1.
Proof.
  assert (H : 0 <= 3 < GoInt.MaxInt64) by (split; [discriminate | reflexivity]).
  split; [exact H |].
  exact (PushWithRetry_attempts_bounded (fun _ => Some unresolvedHost) "main" 3 H).
Defined.

(** ** More on the wait for the checks *)

Section WaitFacts.
Import Github.

Variable poll : nat -> PollReply.
Variable prNumber : string.
Variable hasCallback : bool.

Lemma pollCount_cons_poll (notified evs : list Event) :
  (forall ev, In ev notified -> isPoll ev = false /\ isSleep ev = false) ->
  pollCount (EvGetPRStatus prNumber :: notified ++ evs) = S (pollCount evs).
Proof. intros H. apply (counts_cons_poll prNumber notified evs H). Qed.

Lemma waitLoop_poll_bound (fuel : nat) (deadline : Z) :
  forall (now : Z) (k : nat) (lastStatus : option PRStatus),
    let evs := snd (waitLoop poll prNumber hasCallback fuel deadline now k
                             lastStatus) in
    (deadline <= now -> pollCount evs = O)
    /\ (now < deadline ->
        (Z.of_nat (pollCount evs) - 1) * pollInterval < deadline - now).
Proof.
  induction fuel as [| fuel IH]; intros now k lastStatus; cbn [waitLoop].
  - cbn. unfold pollInterval, Git.Second. split; intros; lia.
  - destruct (now <? deadline) eqn:Hnow.
    2:{ apply Z.ltb_ge in Hnow. cbn. split; intros; lia. }
    apply Z.ltb_lt in Hnow.
    destruct (GetPRStatus _ _) as [status | e].
    2:{ cbn. split; intros; lia. }
    pose proof (notified_quiet hasCallback lastStatus status) as Hquiet.
    set (notified := if hasCallback && hasStatusChanged lastStatus status
                     then [statusChange status] else []) in *.
    assert (Hlast : pollCount (EvGetPRStatus prNumber :: notified) = 1%nat).
    { rewrite <- (app_nil_r notified), pollCount_cons_poll by exact Hquiet.
      reflexivity. }
    destruct (HasFailedChecks status).
    { cbn [snd]. rewrite Hlast. split; intros; lia. }
    destruct (AllChecksPassed status).
    { cbn [snd]. rewrite Hlast. split; intros; lia. }
    specialize (IH (now + Z.of_N (latency (poll k)) + pollInterval) (S k)
                   (Some status)).
    destruct (waitLoop poll prNumber hasCallback fuel deadline _ (S k)
                       (Some status)) as [r evs].
    cbn [snd] in *. cbv zeta in IH.
    rewrite pollCount_cons_poll by exact Hquiet.
    change (pollCount (EvSleep pollInterval :: evs)) with (pollCount evs).
    destruct IH as [IH0 IH1]. split; [lia |]. intros _.
    unfold pollInterval, Git.Second in *.
    destruct (Z_lt_le_dec (now + Z.of_N (latency (poll k)) + 10 * 1000000000)
                          deadline) as [Hlt | Hge].
    + specialize (IH1 Hlt). lia.
    + rewrite (IH0 Hge). lia.
Qed.

(** A change of status: the event of [old] differs from that of [new]
    exactly when [hasStatusChanged] says so. *)
Lemma hasStatusChanged_event (old new : PRStatus) :
  hasStatusChanged (Some old) new = false <-> statusChange old = statusChange new.
Proof.
  unfold hasStatusChanged, statusChange. split.
  - intros H.
    destruct (Bool.eqb (AllChecksPassed old) (AllChecksPassed new)) eqn:H1;
      cbn [negb] in H; [| discriminate].
    destruct (Bool.eqb (HasPendingChecks old) (HasPendingChecks new)) eqn:H2;
      cbn [negb] in H; [| discriminate].
    destruct (Bool.eqb (HasFailedChecks old) (HasFailedChecks new)) eqn:H3;
      cbn [negb] in H; [| discriminate].
    destruct (String.eqb (ReviewDecision old) (ReviewDecision new)) eqn:H4;
      cbn [negb] in H; [| discriminate].
    apply Bool.eqb_prop in H1, H2, H3. apply String.eqb_eq in H4.
    congruence.
  - intros H. injection H as -> -> -> ->.
    rewrite !Bool.eqb_reflx, String.eqb_refl. reflexivity.
Qed.

Definition isStatusChange (ev : Event) : bool :=
  match ev with EvStatusChange _ _ _ _ => true | _ => false end.

(** The notifications among the calls, in order. *)
Definition notifications (evs : list Event) : list Event :=
  filter isStatusChange evs.

(** No two neighbours of the list are equal. *)
Fixpoint noRepeat (l : list Event) : Prop :=
  match l with
  | a :: (b :: _) as rest => a <> b /\ noRepeat rest
  | _ => True
  end.

Lemma waitLoop_notifications (fuel : nat) (deadline : Z) :
  forall (now : Z) (k : nat) (lastStatus : option PRStatus),
    let evs := snd (waitLoop poll prNumber hasCallback fuel deadline now k
                             lastStatus) in
    (hasCallback = false -> notifications evs = [])
    /\ (hasCallback = true ->
        match lastStatus with
        | Some last => noRepeat (statusChange last :: notifications evs)
        | None => noRepeat (notifications evs)
        end).
Proof.
  induction fuel as [| fuel IH]; intros now k lastStatus; cbn [waitLoop].
  - cbn. split; [reflexivity |]. intros _. destruct lastStatus; exact I.
  - destruct (now <? deadline).
    2:{ cbn. split; [reflexivity |]. intros _. destruct lastStatus; exact I. }
    destruct (GetPRStatus _ _) as [status | e].
    2:{ cbn. split; [reflexivity |]. intros _. destruct lastStatus; exact I. }
    set (notified := if hasCallback && hasStatusChanged lastStatus status
                     then [statusChange status] else []).
    assert (Hhere :
              forall rest : list Event,
                (hasCallback = false -> notifications rest = []) ->
                (hasCallback = true ->
                 noRepeat (statusChange status :: notifications rest)) ->
                let evs := (EvGetPRStatus prNumber :: notified ++ rest)%list in
                (hasCallback = false -> notifications evs = [])
                /\ (hasCallback = true ->
                    match lastStatus with
                    | Some last => noRepeat (statusChange last :: notifications evs)
                    | None => noRepeat (notifications evs)
                    end)).
    { intros rest Hoff Hon. cbv zeta. unfold notified.
      assert (Hcons : forall s l,
                 notifications (statusChange s :: l)
                 = statusChange s :: notifications l) by reflexivity.
      change (notifications (EvGetPRStatus prNumber :: ?l))
        with (notifications l).
      destruct hasCallback; cbn [andb].
      - split; [discriminate |]. intros _. specialize (Hon eq_refl).
        destruct lastStatus as [last |].
        + destruct (hasStatusChanged (Some last) status) eqn:Hch.
          * cbn [app]. rewrite Hcons. cbn [noRepeat]. split; [| exact Hon].
            intros Heq. apply hasStatusChanged_event in Heq. congruence.
          * apply hasStatusChanged_event in Hch. cbn [app].
            rewrite Hch. exact Hon.
        + cbn [hasStatusChanged app]. rewrite Hcons. exact Hon.
      - split; [| discriminate]. intros _. cbn [app].
        apply Hoff. reflexivity. }
    destruct (HasFailedChecks status).
    { cbn [snd].
      replace (EvGetPRStatus prNumber :: notified)
        with (EvGetPRStatus prNumber :: notified ++ [])%list
        by (rewrite app_nil_r; reflexivity).
      apply Hhere; [reflexivity | intros _; exact I]. }
    destruct (AllChecksPassed status).
    { cbn [snd].
      replace (EvGetPRStatus prNumber :: notified)
        with (EvGetPRStatus prNumber :: notified ++ [])%list
        by (rewrite app_nil_r; reflexivity).
      apply Hhere; [reflexivity | intros _; exact I]. }
    specialize (IH (now + Z.of_N (latency (poll k)) + pollInterval) (S k)
                   (Some status)).
    destruct (waitLoop poll prNumber hasCallback fuel deadline _ (S k)
                       (Some status)) as [r evs].
    cbn [snd] in *. cbv zeta in IH. destruct IH as [IH0 IH1].
    apply Hhere.
    + intros Hoff. unfold notifications in *. cbn [filter isStatusChange].
      apply IH0, Hoff.
    + intros Hon. unfold notifications in *. cbn [filter isStatusChange].
      apply IH1, Hon.
Qed.

End WaitFacts.

(** X9.  [WaitForChecks] polls at most once every ten seconds of its
    timeout: the polls before the last one fit in the timeout.  With a
    timeout that is not positive it makes no poll and returns a nil status
    with the timeout error. *)
Theorem WaitForChecks_poll_bound :
  forall (L : GoLib) (poll : nat -> Github.PollReply) (prNumber : string)
         (hasCallback : bool) (now timeout : Z),
    let out := Github.WaitForChecks poll prNumber hasCallback now timeout in
    (0 < timeout ->
     (Z.of_nat (pollCount (snd out)) - 1) * Github.pollInterval < timeout)
    /\ (timeout <= 0 ->
        out = (Some (None, Some ("timeout waiting for PR checks after "
                                 ++ durationString timeout)), [])).
Proof.
  intros L poll prNumber hasCallback now timeout. cbv zeta.
  unfold Github.WaitForChecks, Github.waitForChecks.
  pose proof (waitLoop_poll_bound poll prNumber hasCallback
                                  (Github.waitFuel timeout) (now + timeout)
                                  now O None) as H.
  cbv zeta in H. split.
  - intros Ht.
    destruct (Github.waitLoop poll prNumber hasCallback (Github.waitFuel timeout)
                              (now + timeout) now 0 None) as [x evs].
    cbn [snd] in *. destruct H as [_ H]. specialize (H ltac:(lia)). lia.
  - intros Ht. unfold Github.waitFuel. cbn [Github.waitLoop].
    assert (Hnow : (now <? now + timeout) = false) by (apply Z.ltb_ge; lia).
    rewrite Hnow. reflexivity.
Qed.

(** X10.  With a callback, [WaitForChecks] never notifies the same status
    twice in a row and, when it made a poll and the first one succeeded,
    the status of that poll is the first it notifies; without a callback it
    notifies nothing. *)
Theorem WaitForChecks_notifies_changes_only :
  forall (L : GoLib) (poll : nat -> Github.PollReply) (prNumber : string)
         (hasCallback : bool) (now timeout : Z),
    let evs := snd (Github.WaitForChecks poll prNumber hasCallback now timeout) in
    noRepeat (notifications evs)
    /\ (hasCallback = false -> notifications evs = [])
    /\ (hasCallback = true -> (0 < pollCount evs)%nat ->
        forall s, statusAt poll O = Ok s ->
                  exists rest,
                    notifications evs = Github.statusChange s :: rest).
Proof.
  intros L poll prNumber hasCallback now timeout. cbv zeta.
  unfold Github.WaitForChecks, Github.waitForChecks.
  pose proof (waitLoop_notifications poll prNumber hasCallback
                                     (Github.waitFuel timeout) (now + timeout)
                                     now O None) as H.
  cbv zeta in H.
  destruct (Github.waitLoop poll prNumber hasCallback (Github.waitFuel timeout)
                            (now + timeout) now 0 None) as [x evs] eqn:Heqp.
  cbn [snd] in *. destruct H as [Hoff Hon].
  split; [| split; [exact Hoff |]].
  - destruct hasCallback.
    + apply Hon. reflexivity.
    + rewrite Hoff by reflexivity. exact I.
  - intros -> Hpolls s Hs. revert Heqp Hpolls. unfold Github.waitFuel.
    cbn [Github.waitLoop].
    destruct (now <? now + timeout).
    2:{ intros H. injection H as _ <-. cbn. lia. }
    unfold statusAt in Hs. rewrite Hs. cbn [andb Github.hasStatusChanged].
    destruct (Github.HasFailedChecks s).
    { intros H _. injection H as _ <-. eexists. reflexivity. }
    destruct (Github.AllChecksPassed s).
    { intros H _. injection H as _ <-. eexists. reflexivity. }
    destruct (Github.waitLoop _ _ _ _ _ _ _ _) as [r evs'].
    intros H _. injection H as _ <-. eexists. reflexivity.
Qed.

Lemma WaitForChecks_poll_bound_witness :
  0 < 30 * (60 * Git.Second)
  /\ (Z.of_nat (pollCount
                  (snd (@Github.WaitForChecks plainTextLib pendingThenFailed
                                              "17" true 0 (30 * (60 * Git.Second)))))
      - 1) * Github.pollInterval
     < 30 * (60 * Git.Second).
Proof.
  assert (H : 0 < 30 * (60 * Git.Second)) by reflexivity.
  split; [exact H |].
  exact (proj1 (WaitForChecks_poll_bound plainTextLib pendingThenFailed "17"
                                         true 0 (30 * (60 * Git.Second))) H).
Defined.

Lemma WaitForChecks_notifies_changes_only_witness :
  (0 < pollCount
         (snd (@Github.WaitForChecks plainTextLib pendingThenFailed "17" true 0
                                     (30 * (60 * Git.Second)))))%nat
  /\ exists rest,
      notifications
        (snd (@Github.WaitForChecks plainTextLib pendingThenFailed "17" true 0
                                    (30 * (60 * Git.Second))))
      = (EvStatusChange false true false EmptyString :: rest)%list.
Proof.
  assert (Hpolls : (0 < pollCount
                         (snd (@Github.WaitForChecks
                                 plainTextLib pendingThenFailed "17" true 0
                                 (30 * (60 * Git.Second)))))%nat)
    by (vm_compute; lia).
  split; [exact Hpolls |].
  exact (proj2 (proj2 (WaitForChecks_notifies_changes_only
                         plainTextLib pendingThenFailed "17" true 0
                         (30 * (60 * Git.Second))))
               eq_refl Hpolls
               (Github.mkPRStatus [Github.mkPRCheck "ci" "IN_PROGRESS" "pending"]
                                  EmptyString false false true false)
               eq_refl).
Defined.

(** ** The result of the agent *)

Section AgentResult.
Context {L : GoLib}.

(** The element is a text result: the test of the backwards scan. *)
Definition isTextResult (item : JsonItem) : bool :=
  String.eqb (item_Type item) "result" || negb (Strings.isEmpty (item_Result item)).

(** No element of [raws] decodes to a text result. *)
Definition noTextResult (raws : list string) : Prop :=
  forall raw item, In raw raws -> unmarshalItem raw = Some item ->
                   isTextResult item = false.

Lemma findResult_none (raws : list string) :
  noTextResult raws -> Claude.findResult raws = None.
Proof.
  induction raws as [| raw raws IH]; intros Hnone; [reflexivity |].
  cbn [Claude.findResult].
  assert (Hrest : Claude.findResult raws = None).
  { apply IH. intros r i Hin. apply Hnone. right. exact Hin. }
  destruct (unmarshalItem raw) as [item |] eqn:Hraw; [| exact Hrest].
  pose proof (Hnone raw item (or_introl eq_refl) Hraw) as Hno.
  unfold isTextResult in Hno. rewrite Hno. exact Hrest.
Qed.

Lemma findResult_last (before after : list string) (raw : string) (item : JsonItem) :
  unmarshalItem raw = Some item ->
  isTextResult item = true ->
  noTextResult after ->
  Claude.findResult (rev (before ++ raw :: after)) = Some item.
Proof.
  intros Hraw Htext Hnone.
  rewrite rev_app_distr. cbn [rev]. rewrite <- app_assoc. cbn [app].
  assert (Hskip : forall skipped rest,
             noTextResult skipped ->
             Claude.findResult (skipped ++ rest) = Claude.findResult rest).
  { induction skipped as [| x skipped IH]; intros rest Hs; [reflexivity |].
    cbn [app Claude.findResult].
    assert (Hrest : Claude.findResult (skipped ++ rest) = Claude.findResult rest).
    { apply IH. intros r i Hin. apply Hs. right. exact Hin. }
    destruct (unmarshalItem x) as [ix |] eqn:Hx; [| exact Hrest].
    pose proof (Hs x ix (or_introl eq_refl) Hx) as Hno.
    unfold isTextResult in Hno. rewrite Hno. exact Hrest. }
  rewrite Hskip.
  - cbn [Claude.findResult]. rewrite Hraw.
    unfold isTextResult in Htext. rewrite Htext. reflexivity.
  - intros r i Hin. apply Hnone. apply in_rev. exact Hin.
Qed.

Lemma last_default {A : Type} (l : list A) (d d' : A) :
  l <> [] -> last l d = last l d'.
Proof.
  induction l as [| x l IH]; intros Hne; [congruence |].
  destruct l as [| y l]; [reflexivity |].
  change (last (y :: l) d = last (y :: l) d'). apply IH. discriminate.
Qed.

(** X11.  When the output of the agent is a JSON array, the result is read
    from its last element that is a text result, whatever comes before it;
    when the array holds no text result, only the cost is read, from the
    last element. *)
Theorem parseClaudeOutput_last_result_wins :
  forall (output : string) (r : Claude.Result) (elements : list string),
    TrimSpace output <> EmptyString ->
    unmarshalArray (TrimSpace output) = Some elements ->
    (forall before raw after item,
        elements = (before ++ raw :: after)%list ->
        unmarshalItem raw = Some item ->
        isTextResult item = true ->
        noTextResult after ->
        Claude.parseClaudeOutput output r
        = (Claude.mkResult (item_Result item) (item_Cost item)
                           (item_IsError item) (Claude.RawOutput r), None))
    /\ (forall first, elements <> [] -> noTextResult elements ->
                      Claude.parseClaudeOutput output r
                      = (Claude.setCost r (unmarshalCost (last elements first)),
                         None)).
Proof.
  intros output r elements Hne Harr.
  assert (Hempty : Strings.isEmpty (TrimSpace output) = false).
  { destruct (TrimSpace output); [congruence | reflexivity]. }
  split.
  - intros before raw after item -> Hraw Htext Hnone.
    unfold Claude.parseClaudeOutput. rewrite Hempty, Harr.
    destruct (before ++ raw :: after)%list as [| first more] eqn:Hlist.
    { destruct before; discriminate Hlist. }
    rewrite <- Hlist.
    rewrite (findResult_last before after raw item Hraw Htext Hnone).
    reflexivity.
  - intros first Hnonempty Hnone.
    unfold Claude.parseClaudeOutput. rewrite Hempty, Harr.
    destruct elements as [| e more]; [congruence |].
    rewrite findResult_none.
    + f_equal. f_equal. f_equal.
      apply last_default. discriminate.
    + intros raw item Hin. apply Hnone. apply in_rev. exact Hin.
Qed.

(** X12.  [Client.Run] always keeps the standard output of the agent in
    [RawOutput]; a parsing error leaves the text itself as the output of a
    successful run; and a failed run keeps the cost parsed from its standard
    output, with [IsError] set. *)
Theorem Run_keeps_raw_output_and_cost :
  forall (proc : ProcResult),
    Claude.RawOutput (fst (Claude.Run proc)) = proc_stdout proc
    /\ (proc_err proc = None ->
        proc_stdout proc <> EmptyString ->
        snd (Claude.parseClaudeOutput
               (proc_stdout proc)
               (Claude.mkResult EmptyString 0%float false (proc_stdout proc)))
        <> None ->
        fst (Claude.Run proc)
        = Claude.mkResult (proc_stdout proc) 0%float false (proc_stdout proc))
    /\ (forall parsed,
           proc_err proc <> None ->
           proc_stdout proc <> EmptyString ->
           Claude.parseClaudeOutput
             (proc_stdout proc)
             (Claude.mkResult EmptyString 0%float false (proc_stdout proc))
           = (parsed, None) ->
           Claude.Cost (fst (Claude.Run proc)) = Claude.Cost parsed
           /\ Claude.IsError (fst (Claude.Run proc)) = true).
Proof.
  intros proc.
  assert (Hraw : forall output r,
             Claude.RawOutput (fst (Claude.parseClaudeOutput output r))
             = Claude.RawOutput r).
  { intros output r. unfold Claude.parseClaudeOutput.
    destruct (Strings.isEmpty (TrimSpace output)); [reflexivity |].
    destruct (unmarshalArray (TrimSpace output)) as [[| first more] |].
    - destruct (unmarshalSingle _); reflexivity.
    - destruct (Claude.findResult _); reflexivity.
    - destruct (unmarshalSingle _); reflexivity. }
  split; [| split].
  - unfold Claude.Run.
    pose proof (Hraw (proc_stdout proc)
                     (Claude.mkResult EmptyString 0%float false (proc_stdout proc)))
      as Hp.
    destruct (Claude.parseClaudeOutput _ _) as [parsed [e |]];
      cbn [fst Claude.RawOutput] in Hp;
      destruct (negb (Strings.isEmpty (proc_stdout proc)));
      destruct (proc_err proc);
      try destruct (0 <? Z.of_nat (String.length (proc_stderr proc)));
      cbn; auto.
  - intros Herr Hout Hparse. unfold Claude.Run. rewrite Herr.
    destruct (proc_stdout proc) as [| c s] eqn:Hs; [congruence |].
    cbn [Strings.isEmpty negb].
    destruct (Claude.parseClaudeOutput _ _) as [parsed [e |]];
      [reflexivity | cbn in Hparse; congruence].
  - intros parsed Herr Hout Hparse. unfold Claude.Run.
    destruct (proc_err proc) as [e |]; [| congruence].
    destruct (proc_stdout proc) as [| c s] eqn:Hs; [congruence |].
    cbn [Strings.isEmpty negb]. rewrite Hparse.
    destruct (0 <? Z.of_nat (String.length (proc_stderr proc))); auto.
Qed.

End AgentResult.

(** An output of the agent: an array of a result with its cost and of a
    system message, and what [encoding/json] answers on it. *)
Definition quoted (s : string) : string := Strings.DQ ++ s ++ Strings.DQ.

Definition resultItem : string :=
  "{" ++ quoted "type" ++ ":" ++ quoted "result" ++ ","
  ++ quoted "result" ++ ":" ++ quoted "Added two tests" ++ ","
  ++ quoted "total_cost_usd" ++ ":0.25}".

Definition systemItem : string :=
  "{" ++ quoted "type" ++ ":" ++ quoted "system" ++ "}".

Definition sampleOutput : string := "[" ++ resultItem ++ "," ++ systemItem ++ "]".

Definition sampleJson : GoLib :=
  mkGoLib (fun s => s)
          (fun s => if String.eqb s sampleOutput
                    then Some [resultItem; systemItem] else None)
          (fun raw => if String.eqb raw resultItem
                      then Some (mkJsonItem "result" "Added two tests"
                                            0.25%float false)
                      else if String.eqb raw systemItem
                           then Some (mkJsonItem "system" EmptyString
                                                 0%float false)
                           else None)
          (fun _ => None)
          (fun _ => 0%float)
          (fun d => GoInt.itoa d ++ "ns").

Lemma parseClaudeOutput_last_result_wins_witness :
  @Claude.parseClaudeOutput sampleJson sampleOutput Claude.zeroResult
  = (Claude.mkResult "Added two tests" 0.25%float false EmptyString, None).
Proof.
  assert (Hne : @TrimSpace sampleJson sampleOutput <> EmptyString)
    by (vm_compute; discriminate).
  assert (Hnone : @noTextResult sampleJson [systemItem]).
  { intros raw item [<- | []] H. vm_compute in H. injection H as <-. reflexivity. }
  exact (proj1 (@parseClaudeOutput_last_result_wins
                  sampleJson sampleOutput Claude.zeroResult
                  [resultItem; systemItem] Hne eq_refl)
               [] resultItem [systemItem]
               (mkJsonItem "result" "Added two tests" 0.25%float false)
               eq_refl eq_refl eq_refl Hnone).
Defined.

Lemma Run_keeps_raw_output_and_cost_witness :
  Claude.Cost (fst (@Claude.Run sampleJson
                                (mkProcResult (Some "exit status 1") sampleOutput
                                              EmptyString)))
  = 0.25%float
  /\ Claude.IsError (fst (@Claude.Run sampleJson
                                      (mkProcResult (Some "exit status 1")
                                                    sampleOutput EmptyString)))
     = true.
Proof.
  assert (Herr : Some "exit status 1" <> None) by discriminate.
  assert (Hout : sampleOutput <> EmptyString) by (vm_compute; discriminate).
  exact (proj2 (proj2 (@Run_keeps_raw_output_and_cost
                         sampleJson
                         (mkProcResult (Some "exit status 1") sampleOutput
                                       EmptyString)))
               (Claude.mkResult "Added two tests" 0.25%float false sampleOutput)
               Herr Hout eq_refl).
Defined.

(** ** Names and prompts *)

Section Naming.

Lemma append_assoc (a b c : string) : ((a ++ b) ++ c = a ++ (b ++ c))%string.
Proof. induction a as [| x a IH]; cbn; [reflexivity | rewrite IH; reflexivity]. Qed.

Lemma append_nil_r (a : string) : (a ++ EmptyString = a)%string.
Proof. induction a as [| x a IH]; cbn; [reflexivity | rewrite IH; reflexivity]. Qed.

Lemma append_cancel_l (a b c : string) : (a ++ b = a ++ c)%string -> b = c.
Proof.
  induction a as [| x a IH]; cbn; intros H; [exact H |].
  injection H as H. exact (IH H).
Qed.

(** [s] is made of bytes other than [sep]. *)
Fixpoint without (sep : ascii) (s : string) : bool :=
  match s with
  | EmptyString => true
  | String c s' => negb (Ascii.eqb c sep) && without sep s'
  end.

Lemma without_app (sep : ascii) (a b : string) :
  without sep (a ++ b) = without sep a && without sep b.
Proof.
  induction a as [| x a IH]; cbn; [reflexivity |].
  rewrite IH, andb_assoc. reflexivity.
Qed.

(** Two texts that agree up to the first [sep] byte. *)
Lemma split_first (sep : ascii) (a b r1 r2 : string) :
  without sep a = true -> without sep b = true ->
  (a ++ String sep r1 = b ++ String sep r2)%string ->
  a = b /\ r1 = r2.
Proof.
  revert b. induction a as [| x a IH]; intros b Ha Hb H.
  - destruct b as [| y b]; cbn in H.
    + injection H as H. split; [reflexivity | exact H].
    + injection H as Hy _. subst y. cbn in Hb.
      rewrite Ascii.eqb_refl in Hb. discriminate Hb.
  - destruct b as [| y b]; cbn in H.
    + injection H as Hx _. subst x. cbn in Ha.
      rewrite Ascii.eqb_refl in Ha. discriminate Ha.
    + injection H as Hxy H. subst y. cbn in Ha, Hb.
      apply andb_true_iff in Ha as [_ Ha]. apply andb_true_iff in Hb as [_ Hb].
      destruct (IH b Ha Hb H) as [-> ->]. split; reflexivity.
Qed.

Lemma lastField_without (sep : ascii) (s acc : string) :
  without sep s = true -> Strings.lastField sep s acc = (acc ++ s)%string.
Proof.
  revert acc. induction s as [| c s IH]; intros acc H; cbn.
  - rewrite append_nil_r. reflexivity.
  - cbn in H. apply andb_true_iff in H as [Hc Hs].
    apply negb_true_iff in Hc. rewrite Hc, (IH _ Hs), append_assoc. reflexivity.
Qed.

Lemma lastField_app (sep : ascii) (pre s acc : string) :
  Strings.lastField sep (pre ++ String sep s) acc
  = Strings.lastField sep s EmptyString.
Proof.
  revert acc. induction pre as [| c pre IH]; intros acc; cbn.
  - rewrite Ascii.eqb_refl. reflexivity.
  - destruct (Ascii.eqb c sep); apply IH.
Qed.

Lemma lastField_shape (sep : ascii) (s acc : string) :
  without sep acc = true ->
  without sep (Strings.lastField sep s acc) = true
  /\ ((without sep s = true /\ Strings.lastField sep s acc = (acc ++ s)%string)
      \/ exists pre,
          s = (pre ++ String sep (Strings.lastField sep s acc))%string).
Proof.
  revert acc. induction s as [| c s IH]; intros acc Hacc.
  - cbn. split; [exact Hacc |]. left. split; [reflexivity |].
    rewrite append_nil_r. reflexivity.
  - cbn [Strings.lastField without]. destruct (Ascii.eqb c sep) eqn:Hc.
    + apply Ascii.eqb_eq in Hc. subst c.
      destruct (IH EmptyString eq_refl) as [Hw [[Hs Heq] | [pre Hpre]]].
      * split; [exact Hw |]. right. exists EmptyString.
        rewrite Heq. reflexivity.
      * split; [exact Hw |]. right. exists (String sep pre).
        cbn. rewrite <- Hpre. reflexivity.
    + assert (Hacc' : without sep (acc ++ String c EmptyString) = true).
      { rewrite without_app, Hacc. cbn. rewrite Hc. reflexivity. }
      destruct (IH _ Hacc') as [Hw [[Hs Heq] | [pre Hpre]]].
      * split; [exact Hw |]. left. split; [exact Hs |].
        rewrite Heq, append_assoc. reflexivity.
      * split; [exact Hw |]. right. exists (String c pre).
        cbn. rewrite <- Hpre. reflexivity.
Qed.

(** X13.  The number of a pull request is the text after the last slash of
    its URL: it holds no slash, the URL ends in it, and a URL without a slash
    is its own number.  In particular the number is empty when the URL ends
    in a slash. *)
Theorem GetPRNumber_last_segment :
  forall (prURL : string),
    without "/" (Github.GetPRNumber prURL) = true
    /\ (without "/" prURL = true -> Github.GetPRNumber prURL = prURL)
    /\ (without "/" prURL = false ->
        exists base, prURL = (base ++ "/" ++ Github.GetPRNumber prURL)%string)
    /\ (forall base number,
           without "/" number = true ->
           Github.GetPRNumber (base ++ "/" ++ number) = number).
Proof.
  intros prURL. unfold Github.GetPRNumber.
  destruct (lastField_shape "/" prURL EmptyString eq_refl)
    as [Hw [[Hs Heq] | [pre Hpre]]].
  - split; [exact Hw |]. split; [intros _; exact Heq |].
    split; [intros Hno; rewrite Hs in Hno; discriminate Hno |].
    intros base number Hn. cbn [append].
    rewrite lastField_app. apply (lastField_without "/" number EmptyString Hn).
  - split; [exact Hw |]. split.
    + intros Hno. rewrite Hpre, without_app in Hno. cbn in Hno.
      rewrite andb_false_r in Hno. discriminate Hno.
    + split; [intros _; exists pre; exact Hpre |].
      intros base number Hn. cbn [append].
      rewrite lastField_app. apply (lastField_without "/" number EmptyString Hn).
Qed.

Lemma string_of_uint_digits (d : Decimal.uint) :
  without "/" (NilEmpty.string_of_uint d) = true.
Proof. induction d; cbn; auto. Qed.

Lemma itoa_without_slash (z : Z) : without "/" (GoInt.itoa z) = true.
Proof.
  assert (Hu : forall d, without "/" (NilZero.string_of_uint d) = true).
  { intros d. unfold NilZero.string_of_uint.
    destruct d; try reflexivity; apply string_of_uint_digits. }
  unfold GoInt.itoa, NilZero.string_of_int.
  destruct (Z.to_int z) as [d | d]; [apply Hu |].
  cbn [without]. rewrite Hu. reflexivity.
Qed.

Lemma itoa_inj (i j : Z) : GoInt.itoa i = GoInt.itoa j -> i = j.
Proof.
  unfold GoInt.itoa. intros H.
  assert (Hnn : forall z, Z.to_int z <> Decimal.Pos Decimal.Nil
                          /\ Z.to_int z <> Decimal.Neg Decimal.Nil).
  { intros [| p | p]; cbn; split; try discriminate;
      intros Heq; injection Heq as Heq;
      exact (DecimalPos.Unsigned.to_uint_nonnil p Heq). }
  apply DecimalZ.to_int_inj.
  destruct (Hnn i) as [Hi1 Hi2]. destruct (Hnn j) as [Hj1 Hj2].
  pose proof (NilZero.isi _ Hi1 Hi2) as Ei.
  pose proof (NilZero.isi _ Hj1 Hj2) as Ej.
  rewrite H in Ei. rewrite Ei in Ej. injection Ej as Ej. exact Ej.
Qed.

(** X14.  Under one prefix, the branches of two different iterations have
    different names, whatever the dates and the random suffixes: a name fixes
    the iteration number and the text after it. *)
Theorem GenerateBranchName_injective :
  forall (prefix date1 hash1 date2 hash2 : string) (i j : Z),
    Git.GenerateBranchName date1 hash1 prefix i
    = Git.GenerateBranchName date2 hash2 prefix j ->
    i = j /\ (date1 ++ "-" ++ hash1 = date2 ++ "-" ++ hash2)%string.
Proof.
  intros prefix date1 hash1 date2 hash2 i j H.
  unfold Git.GenerateBranchName in H.
  apply append_cancel_l in H. apply (append_cancel_l "iteration-") in H.
  cbn [append] in H.
  destruct (split_first "/" _ _ _ _ (itoa_without_slash i)
                        (itoa_without_slash j) H) as [Hi Hrest].
  split; [exact (itoa_inj i j Hi) | exact Hrest].
Qed.

Lemma Contains_app_l (a b sub : string) :
  Strings.Contains b sub = true -> Strings.Contains (a ++ b) sub = true.
Proof.
  rewrite !Contains_spec. intros [pre [post H]].
  exists (a ++ pre)%string, post. rewrite H, append_assoc. reflexivity.
Qed.

Lemma Contains_head (a b : string) : Strings.Contains (a ++ b) a = true.
Proof.
  apply Contains_spec. exists EmptyString, b. reflexivity.
Qed.

Ltac contains_here :=
  apply Contains_spec; exists EmptyString; eexists;
  rewrite ?append_assoc; reflexivity.

(** X15.  The prompt of an iteration holds the goal of the user and the
    number of the iteration; it holds the notes of the previous iteration
    between code fences when there are any; and it holds the completion
    phrase exactly when one is configured, so that a reply quoting its prompt
    counts as a completion signal. *)
Theorem BuildPrompt_contents :
  forall (userPrompt notesContent completionSignal : string) (iteration : Z),
    let prompt :=
      Claude.BuildPrompt userPrompt notesContent completionSignal iteration in
    Strings.Contains prompt userPrompt = true
    /\ Strings.Contains
         prompt ("- You are iteration #" ++ GoInt.itoa iteration ++ Strings.LF)
       = true
    /\ (notesContent <> EmptyString ->
        Strings.Contains
          prompt
          ("```" ++ Strings.LF ++ notesContent ++ Strings.LF ++ "```")
        = true)
    /\ Claude.ContainsCompletionSignal prompt completionSignal
       = negb (Strings.isEmpty completionSignal).
Proof.
  intros userPrompt notesContent completionSignal iteration prompt.
  subst prompt. unfold Claude.BuildPrompt. cbv zeta.
  split; [| split; [| split]].
  - do 13 apply Contains_app_l. apply Contains_head.
  - do 4 apply Contains_app_l. contains_here.
  - intros Hnotes.
    destruct notesContent as [| c n]; [congruence |].
    cbn [Strings.isEmpty negb].
    do 15 apply Contains_app_l. rewrite !append_assoc.
    do 9 apply Contains_app_l. contains_here.
  - unfold Claude.ContainsCompletionSignal.
    destruct completionSignal as [| c s]; [reflexivity |].
    cbn [Strings.isEmpty negb].
    do 10 apply Contains_app_l. rewrite !append_assoc.
    do 3 apply Contains_app_l. apply Contains_head.
Qed.

End Naming.

Lemma GetPRNumber_last_segment_witness :
  Github.GetPRNumber ("https://github.com/guzus/deep-claude/pull" ++ "/" ++ "17")
  = "17".
Proof.
  exact (proj2 (proj2 (proj2 (GetPRNumber_last_segment EmptyString)))
               "https://github.com/guzus/deep-claude/pull" "17" eq_refl).
Defined.

Lemma GenerateBranchName_injective_witness :
  7 = 7
  /\ ("2025-01-15" ++ "-" ++ "a1b2c3d4" = "2025-01-15" ++ "-" ++ "a1b2c3d4")%string.
Proof.
  exact (GenerateBranchName_injective
           "continuous-claude/" "2025-01-15" "a1b2c3d4" "2025-01-15" "a1b2c3d4"
           7 7 eq_refl).
Defined.

Lemma BuildPrompt_contents_witness :
  Strings.Contains
    (Claude.BuildPrompt "Add tests" "- parser covered"
                        "CONTINUOUS_CLAUDE_PROJECT_COMPLETE" 2)
    ("```" ++ Strings.LF ++ "- parser covered" ++ Strings.LF ++ "```")
  = true.
Proof.
  assert (Hnotes : "- parser covered" <> EmptyString) by discriminate.
  exact (proj1 (proj2 (proj2 (BuildPrompt_contents
                                "Add tests" "- parser covered"
                                "CONTINUOUS_CLAUDE_PROJECT_COMPLETE" 2)))
               Hnotes).
Defined.

(** ** Validation of the configuration *)

Module ConfigChecks.
Import Config.

(** The map [validStrategies]. *)
Definition validStrategies (strategy : string) : bool :=
  String.eqb strategy "squash" || String.eqb strategy "merge"
  || String.eqb strategy "rebase".

(** [Config.Validate()]: the returned error. *)
Definition Validate (c : Config) : option string :=
  if Strings.isEmpty (Prompt c) then
    Some "prompt is required (use -p or --prompt)"
  else if (MaxRuns c =? 0) && PrimFloat.eqb (MaxCost c) 0%float
          && (MaxDuration c =? 0) then
    Some "at least one limit must be set: --max-runs, --max-cost, or --max-duration"
  else if MaxRuns c <? 0 then Some "--max-runs must be non-negative"
  else if PrimFloat.ltb (MaxCost c) 0%float then
    Some "--max-cost must be non-negative"
  else if MaxDuration c <? 0 then Some "--max-duration must be non-negative"
  else if CompletionThreshold c <? 1 then
    Some "--completion-threshold must be at least 1"
  else if negb (validStrategies (MergeStrategy c)) then
    Some "--merge-strategy must be one of: squash, merge, rebase"
  else None.

End ConfigChecks.

Section Validation.
Import Config Orchestrator ConfigChecks.

Lemma nan_compare (x y : float) :
  PrimFloat.is_nan x = true ->
  PrimFloat.eqb x y = false /\ PrimFloat.ltb x y = false
  /\ PrimFloat.ltb y x = false /\ PrimFloat.leb x y = false.
Proof.
  unfold PrimFloat.is_nan. intros Hnan. apply negb_true_iff in Hnan.
  rewrite FloatAxioms.eqb_spec in Hnan.
  rewrite FloatAxioms.eqb_spec, !FloatAxioms.ltb_spec, FloatAxioms.leb_spec.
  assert (Hx : FloatOps.Prim2SF x = SpecFloat.S754_nan).
  { destruct (FloatOps.Prim2SF x) as [s | s | | s m e]; try reflexivity.
    - discriminate Hnan.
    - destruct s; discriminate Hnan.
    - unfold SpecFloat.SFeqb, SpecFloat.SFcompare in Hnan.
      rewrite Z.compare_refl in Hnan.
      assert (Hm : Pos.compare_cont Eq m m = Eq) by apply Pos.compare_refl.
      rewrite Hm in Hnan. destruct s; discriminate Hnan. }
  rewrite Hx. unfold SpecFloat.SFeqb, SpecFloat.SFltb, SpecFloat.SFleb.
  destruct (FloatOps.Prim2SF y); repeat split; reflexivity.
Qed.

Lemma positive_cost (x : float) :
  PrimFloat.is_nan x = false ->
  PrimFloat.eqb x 0%float = false ->
  PrimFloat.ltb x 0%float = false ->
  PrimFloat.ltb 0%float x = true.
Proof.
  unfold PrimFloat.is_nan. intros Hnan Heq Hlt. apply negb_false_iff in Hnan.
  rewrite FloatAxioms.eqb_spec in Hnan, Heq.
  rewrite FloatAxioms.ltb_spec in Hlt. rewrite FloatAxioms.ltb_spec.
  change (FloatOps.Prim2SF 0%float) with (SpecFloat.S754_zero false) in *.
  destruct (FloatOps.Prim2SF x) as [s | s | | s m e];
    try discriminate Hnan; try discriminate Heq;
    destruct s; try discriminate Hlt; reflexivity.
Qed.

(** X16.  A configuration that [Validate] accepts has a goal, no negative
    ceiling, a merge strategy among squash, merge and rebase and a completion
    threshold of at least one; and, unless its cost ceiling is not a number,
    at least one of its three ceilings is set. *)
Theorem Validate_accepts :
  forall (c : Config),
    Validate c = None ->
    Prompt c <> EmptyString
    /\ 0 <= MaxRuns c /\ 0 <= MaxDuration c
    /\ PrimFloat.ltb (MaxCost c) 0%float = false
    /\ 1 <= CompletionThreshold c
    /\ In (MergeStrategy c) ["squash"; "merge"; "rebase"]
    /\ (PrimFloat.is_nan (MaxCost c) = false ->
        HasMaxRuns c || HasMaxCost c || HasMaxDuration c = true).
Proof.
  intros c. unfold Validate.
  destruct (Prompt c) as [| ch p] eqn:Hp; [discriminate |]. cbn [Strings.isEmpty].
  destruct ((MaxRuns c =? 0) && PrimFloat.eqb (MaxCost c) 0%float
            && (MaxDuration c =? 0)) eqn:Hnone; [discriminate |].
  destruct (MaxRuns c <? 0) eqn:Hruns; [discriminate |].
  destruct (PrimFloat.ltb (MaxCost c) 0%float) eqn:Hcost; [discriminate |].
  destruct (MaxDuration c <? 0) eqn:Hdur; [discriminate |].
  destruct (CompletionThreshold c <? 1) eqn:Hthr; [discriminate |].
  destruct (validStrategies (MergeStrategy c)) eqn:Hstr; [| discriminate].
  intros _.
  apply Z.ltb_ge in Hruns, Hdur, Hthr.
  repeat split; try assumption; try discriminate.
  - unfold validStrategies in Hstr.
    apply orb_true_iff in Hstr as [Hstr | Hstr];
      [apply orb_true_iff in Hstr as [Hstr | Hstr] |];
      apply String.eqb_eq in Hstr; rewrite Hstr; cbn; auto.
  - intros Hnan. unfold HasMaxRuns, HasMaxCost, HasMaxDuration.
    destruct (0 <? MaxRuns c) eqn:H1; [reflexivity |].
    destruct (0 <? MaxDuration c) eqn:H3; [apply orb_true_r |].
    apply Z.ltb_ge in H1, H3.
    assert (Hr : MaxRuns c = 0) by lia. assert (Hd : MaxDuration c = 0) by lia.
    rewrite Hr, Hd in Hnone. cbn in Hnone. rewrite andb_true_r in Hnone.
    rewrite (positive_cost _ Hnan Hnone Hcost). reflexivity.
Qed.

(** X17.  A cost ceiling that is not a number passes [Validate] without any
    other ceiling, and sets none: with such a configuration the stop
    evaluator ends the run for the completion signal only. *)
Theorem Validate_accepts_nan_cost :
  forall (c : Config),
    Prompt c <> EmptyString ->
    MaxRuns c = 0 -> MaxDuration c = 0 ->
    PrimFloat.is_nan (MaxCost c) = true ->
    1 <= CompletionThreshold c ->
    In (MergeStrategy c) ["squash"; "merge"; "rebase"] ->
    Validate c = None
    /\ HasMaxRuns c || HasMaxCost c || HasMaxDuration c = false
    /\ (forall o now,
           checkStopConditions c o now
           = if CompletionThreshold c <=? completionSignalCount o
             then (true, Some CompletionSignalDetected)
             else (false, None)).
Proof.
  intros c Hp Hruns Hdur Hnan Hthr Hstr.
  destruct (nan_compare (MaxCost c) 0%float Hnan) as (Heq & Hlt & Hgt & _).
  split; [| split].
  - unfold Validate. destruct (Prompt c); [congruence |]. cbn [Strings.isEmpty].
    rewrite Hruns, Hdur, Heq, Hlt. cbn.
    destruct (CompletionThreshold c <? 1) eqn:H; [apply Z.ltb_lt in H; lia |].
    cbn in Hstr. destruct Hstr as [<- | [<- | [<- | []]]]; reflexivity.
  - unfold HasMaxRuns, HasMaxCost, HasMaxDuration.
    rewrite Hruns, Hdur, Hgt. reflexivity.
  - intros o now. unfold checkStopConditions, HasMaxRuns, HasMaxCost, HasMaxDuration.
    rewrite Hruns, Hdur, Hgt. reflexivity.
Qed.

End Validation.

Lemma Validate_accepts_witness :
  ConfigChecks.Validate sampleConfig = None
  /\ 1 <= Config.CompletionThreshold sampleConfig
  /\ In (Config.MergeStrategy sampleConfig) ["squash"; "merge"; "rebase"].
Proof.
  split; [reflexivity |].
  destruct (Validate_accepts sampleConfig eq_refl) as (_ & _ & _ & _ & H1 & H2 & _).
  split; [exact H1 | exact H2].
Defined.

(** No ceiling on iterations or time, and a cost ceiling that is not a
    number. *)
Definition nanCostConfig : Config.Config :=
  Config.mkConfig "Add tests" 0 PrimFloat.nan 0 "squash" "continuous-claude/"
                  false false "CONTINUOUS_CLAUDE_PROJECT_COMPLETE" 3.

Lemma Validate_accepts_nan_cost_witness :
  ConfigChecks.Validate nanCostConfig = None
  /\ Orchestrator.checkStopConditions
       nanCostConfig (Orchestrator.mkState 1000000 1000000%float 2 0 "main")
       (1000000 * Git.Second)
     = (false, None).
Proof.
  assert (Hp : Config.Prompt nanCostConfig <> EmptyString) by discriminate.
  assert (Ht : 1 <= Config.CompletionThreshold nanCostConfig) by discriminate.
  assert (Hs : In (Config.MergeStrategy nanCostConfig) ["squash"; "merge"; "rebase"])
    by (left; reflexivity).
  destruct (Validate_accepts_nan_cost nanCostConfig Hp eq_refl eq_refl eq_refl
                                      Ht Hs) as (Hv & _ & Hstop).
  split; [exact Hv |].
  exact (Hstop (Orchestrator.mkState 1000000 1000000%float 2 0 "main")
               (1000000 * Git.Second)).
Defined.

(** ** Package tmux: session names *)

Module GoStrings.

(** [strings.TrimLeft(s, cutset)] and [strings.TrimRight(s, cutset)] for a
    cutset of one byte. *)
Fixpoint TrimLeft (s : string) (cut : ascii) : string :=
  match s with
  | EmptyString => EmptyString
  | String c s' => if Ascii.eqb c cut then TrimLeft s' cut else s
  end.

Fixpoint TrimRight (s : string) (cut : ascii) : string :=
  match s with
  | EmptyString => EmptyString
  | String c s' =>
      match TrimRight s' cut with
      | EmptyString => if Ascii.eqb c cut then EmptyString else String c EmptyString
      | t => String c t
      end
  end.

(** [strings.Trim(s, cutset)] for a cutset of one byte. *)
Definition Trim (s : string) (cut : ascii) : string :=
  TrimLeft (TrimRight s cut) cut.

(** [strings.Split(s, sep)] for a separator of one byte. *)
Fixpoint Split (s : string) (sep : ascii) : list string :=
  match s with
  | EmptyString => [EmptyString]
  | String c s' =>
      if Ascii.eqb c sep then EmptyString :: Split s' sep
      else match Split s' sep with
           | w :: ws => String c w :: ws
           | [] => [String c EmptyString]
           end
  end.

(** [strings.Join(elems, sep)]. *)
Fixpoint Join (elems : list string) (sep : string) : string :=
  match elems with
  | [] => EmptyString
  | [w] => w
  | w :: ws => w ++ sep ++ Join ws sep
  end.

End GoStrings.

Module Tmux.

Definition SessionPrefix : string := "cc-".
Definition MaxPromptLength : nat := 30.

(** The class [a-z0-9] of the pattern of [sanitizePrompt]. *)
Definition isLowerAlnum (c : ascii) : bool :=
  let n := nat_of_ascii c in
  (Nat.leb 97 n && Nat.leb n 122) || (Nat.leb 48 n && Nat.leb n 57).

(** [reg.ReplaceAllString(s, "-")] for the pattern [[^a-z0-9]+]: every
    maximal run of bytes outside the class becomes one hyphen; [inRun] tells
    that the byte before [s] was outside the class. *)
Fixpoint replaceRuns (s : string) (inRun : bool) : string :=
  match s with
  | EmptyString => EmptyString
  | String c s' =>
      if isLowerAlnum c then String c (replaceRuns s' false)
      else if inRun then replaceRuns s' true
      else String "-" (replaceRuns s' true)
  end.

Section WithToLower.
(** [strings.ToLower] of the Go standard library. *)
Variable ToLower : string -> string.

(** [sanitizePrompt(prompt)]. *)
Definition sanitizePrompt (prompt : string) : string :=
  let prompt := ToLower prompt in
  let prompt := replaceRuns prompt false in
  let prompt := GoStrings.Trim prompt "-" in
  let words := GoStrings.Split prompt "-" in
  let words := if Nat.ltb 4 (List.length words) then firstn 4 words else words in
  let prompt := GoStrings.Join words "-" in
  if Nat.ltb MaxPromptLength (String.length prompt) then
    GoStrings.TrimRight (substring 0 MaxPromptLength prompt) "-"
  else prompt.

(** [GenerateSessionName(prompt)], with [timestamp] the formatted time. *)
Definition GenerateSessionName (timestamp prompt : string) : string :=
  let sanitized := sanitizePrompt prompt in
  if Strings.isEmpty sanitized then SessionPrefix ++ timestamp
  else SessionPrefix ++ timestamp ++ "-" ++ sanitized.

End WithToLower.

End Tmux.

Section SessionNames.
Import GoStrings Tmux.

(** Bytes of the class and single hyphens, none right after [prev]. *)
Fixpoint collapsed (s : string) (prev : bool) : bool :=
  match s with
  | EmptyString => true
  | String c s' =>
      if isLowerAlnum c then collapsed s' false
      else Ascii.eqb c "-" && negb prev && collapsed s' true
  end.

(** The same, and no hyphen at the end. *)
Fixpoint tidyFrom (s : string) (prev : bool) : bool :=
  match s with
  | EmptyString => negb prev
  | String c s' =>
      if isLowerAlnum c then tidyFrom s' false
      else Ascii.eqb c "-" && negb prev && tidyFrom s' true
  end.

Definition tidy (s : string) : Prop := s = EmptyString \/ tidyFrom s true = true.

Lemma alnum_not_hyphen (c : ascii) :
  isLowerAlnum c = true -> Ascii.eqb c "-" = false.
Proof.
  intros H. destruct (Ascii.eqb_spec c "-") as [-> |]; [| reflexivity].
  vm_compute in H. discriminate H.
Qed.

Lemma replaceRuns_collapsed (s : string) (inRun : bool) :
  collapsed (replaceRuns s inRun) inRun = true.
Proof.
  revert inRun. induction s as [| c s IH]; intros inRun; [reflexivity |].
  cbn [replaceRuns]. destruct (isLowerAlnum c) eqn:Hc.
  - cbn [collapsed]. rewrite Hc. apply IH.
  - destruct inRun; [apply IH |].
    cbn [collapsed]. change (isLowerAlnum "-") with false. cbn. apply IH.
Qed.

Lemma tidyFrom_collapsed (s : string) (prev : bool) :
  tidyFrom s prev = true -> collapsed s prev = true.
Proof.
  revert prev. induction s as [| c s IH]; intros prev; [reflexivity |].
  cbn. destruct (isLowerAlnum c); [apply IH |].
  destruct (Ascii.eqb c "-"), prev; cbn; try discriminate. apply IH.
Qed.

Lemma TrimRight_tidy (s : string) (prev : bool) :
  collapsed s prev = true ->
  TrimRight s "-" = EmptyString \/ tidyFrom (TrimRight s "-") prev = true.
Proof.
  revert prev. induction s as [| c s IH]; intros prev H; [left; reflexivity |].
  cbn in H. cbn [TrimRight]. destruct (isLowerAlnum c) eqn:Hc.
  - right. destruct (IH false H) as [-> | Ht].
    + rewrite (alnum_not_hyphen c Hc). cbn. rewrite Hc. reflexivity.
    + destruct (TrimRight s "-") as [| d t] eqn:Htr.
      * rewrite (alnum_not_hyphen c Hc). cbn. rewrite Hc. reflexivity.
      * cbn [tidyFrom]. rewrite Hc. exact Ht.
  - destruct (Ascii.eqb c "-") eqn:Hh; [| discriminate H].
    destruct prev; [discriminate H |]. cbn in H.
    destruct (IH true H) as [-> | Ht]; [left; reflexivity |].
    right. destruct (TrimRight s "-") as [| d t] eqn:Htr; [discriminate Ht |].
    cbn [tidyFrom]. rewrite Hc, Hh. exact Ht.
Qed.

Lemma TrimLeft_tidy (s : string) :
  tidyFrom s false = true -> tidy (TrimLeft s "-").
Proof.
  destruct s as [| c s]; [left; reflexivity |].
  cbn. destruct (isLowerAlnum c) eqn:Hc.
  - intros H. rewrite (alnum_not_hyphen c Hc). right. cbn. rewrite Hc. exact H.
  - destruct (Ascii.eqb c "-") eqn:Hh; [| discriminate]. cbn. intros H.
    right. destruct s as [| d s]; [discriminate H |].
    cbn in H. cbn [TrimLeft]. destruct (isLowerAlnum d) eqn:Hd.
    + rewrite (alnum_not_hyphen d Hd). cbn. rewrite Hd. exact H.
    + destruct (Ascii.eqb d "-"); discriminate H.
Qed.

Lemma Trim_tidy (s : string) : collapsed s false = true -> tidy (Trim s "-").
Proof.
  intros H. unfold Trim. destruct (TrimRight_tidy s false H) as [-> | Ht].
  - left. reflexivity.
  - apply TrimLeft_tidy. exact Ht.
Qed.

(** Every byte is in the class. *)
Fixpoint isWord (w : string) : bool :=
  match w with
  | EmptyString => true
  | String c w' => isLowerAlnum c && isWord w'
  end.

Definition wordsOk (ws : list string) : bool :=
  forallb (fun w => negb (Strings.isEmpty w) && isWord w) ws.

Lemma Split_tidy (s : string) (prev : bool) :
  tidyFrom s prev = true ->
  exists w ws, Split s "-" = w :: ws /\ isWord w = true
               /\ (prev = true -> w <> EmptyString) /\ wordsOk ws = true.
Proof.
  revert prev. induction s as [| c s IH]; intros prev H.
  - cbn in H. exists EmptyString, []. repeat split.
    intros ->. discriminate H.
  - cbn in H. cbn [Split]. destruct (isLowerAlnum c) eqn:Hc.
    + rewrite (alnum_not_hyphen c Hc).
      destruct (IH false H) as (w & ws & -> & Hw & _ & Hws).
      exists (String c w), ws. cbn. rewrite Hc, Hw. repeat split; try assumption.
      intros _. discriminate.
    + destruct (Ascii.eqb c "-") eqn:Hh; [| discriminate H].
      destruct prev; [discriminate H |]. cbn in H.
      destruct (IH true H) as (w & ws & -> & Hw & Hne & Hws).
      exists EmptyString, (w :: ws). repeat split; [discriminate |].
      change (negb (Strings.isEmpty w) && isWord w && wordsOk ws = true).
      rewrite Hw, Hws.
      destruct w; [exfalso; apply Hne; reflexivity | reflexivity].
Qed.

Lemma tidyFrom_word_app (w t : string) (prev : bool) :
  isWord w = true ->
  tidyFrom (w ++ t) prev
  = tidyFrom t (if Strings.isEmpty w then prev else false).
Proof.
  revert prev. induction w as [| c w IH]; intros prev H; [reflexivity |].
  cbn in H. apply andb_true_iff in H as [Hc Hw].
  cbn. rewrite Hc, (IH false Hw). destruct w; reflexivity.
Qed.

Lemma Join_tidy (ws : list string) (w : string) (prev : bool) :
  isWord w = true -> (prev = true -> w <> EmptyString) -> wordsOk ws = true ->
  tidyFrom (Join (w :: ws) "-") prev = true.
Proof.
  revert w prev. induction ws as [| w2 ws IH]; intros w prev Hw Hne Hws.
  - cbn [Join]. rewrite <- (append_nil_r w), (tidyFrom_word_app w _ prev Hw).
    cbn. destruct w; cbn; [| reflexivity].
    destruct prev; [exfalso; apply Hne; reflexivity | reflexivity].
  - change (Join (w :: w2 :: ws) "-") with (w ++ "-" ++ Join (w2 :: ws) "-")%string.
    rewrite (tidyFrom_word_app w _ prev Hw).
    cbn in Hws. apply andb_true_iff in Hws as [Hw2 Hws].
    apply andb_true_iff in Hw2 as [Hne2 Hw2].
    assert (Hrest : tidyFrom (Join (w2 :: ws) "-") true = true).
    { apply IH; try assumption. intros _ ->. discriminate Hne2. }
    remember (Join (w2 :: ws) "-") as rest eqn:Erest. clear Erest.
    cbn [append tidyFrom]. change (isLowerAlnum "-") with false. cbn.
    rewrite Hrest. destruct w; cbn; [| reflexivity].
    destruct prev; [exfalso; apply Hne; reflexivity | reflexivity].
Qed.

Lemma wordsOk_firstn (n : nat) (ws : list string) :
  wordsOk ws = true -> wordsOk (firstn n ws) = true.
Proof.
  revert n. induction ws as [| w ws IH]; intros [| n] H; try reflexivity.
  cbn in *. apply andb_true_iff in H as [Hw Hws].
  rewrite Hw. apply IH. exact Hws.
Qed.

Lemma firstWords_tidy (s : string) (n : nat) :
  tidy s -> tidy (Join (firstn (S n) (Split s "-")) "-").
Proof.
  intros [-> | H]; [left; destruct n; reflexivity |].
  destruct (Split_tidy s true H) as (w & ws & -> & Hw & Hne & Hws).
  right. cbn [firstn]. apply Join_tidy; try assumption.
  apply wordsOk_firstn. exact Hws.
Qed.

Lemma collapsed_substring (s : string) (n : nat) (prev : bool) :
  collapsed s prev = true -> collapsed (substring 0 n s) prev = true.
Proof.
  revert n prev. induction s as [| c s IH]; intros [| n] prev H; try reflexivity.
  cbn in *. destruct (isLowerAlnum c); [apply IH; exact H |].
  destruct (Ascii.eqb c "-"), prev; cbn in *; try discriminate H.
  apply IH. exact H.
Qed.

Lemma length_substring (s : string) (n : nat) :
  (String.length (substring 0 n s) <= n)%nat.
Proof.
  revert n. induction s as [| c s IH]; intros [| n]; cbn; try lia.
  specialize (IH n). lia.
Qed.

Lemma length_TrimRight (s : string) (cut : ascii) :
  (String.length (TrimRight s cut) <= String.length s)%nat.
Proof.
  induction s as [| c s IH]; cbn; [lia |].
  destruct (TrimRight s cut); [destruct (Ascii.eqb c cut) |]; cbn in *; lia.
Qed.

(** [strings.Count(s, sep)] for a separator of one byte. *)
Fixpoint count (s : string) (sep : ascii) : nat :=
  match s with
  | EmptyString => O
  | String c s' => if Ascii.eqb c sep then S (count s' sep) else count s' sep
  end.

Lemma length_Split (s : string) (sep : ascii) :
  List.length (Split s sep) = S (count s sep).
Proof.
  induction s as [| c s IH]; [reflexivity |].
  cbn. destruct (Ascii.eqb c sep); cbn; [rewrite IH; reflexivity |].
  destruct (Split s sep); cbn in *; lia.
Qed.

Lemma count_app (a b : string) (sep : ascii) :
  count (a ++ b) sep = (count a sep + count b sep)%nat.
Proof.
  induction a as [| c a IH]; [reflexivity |].
  cbn. destruct (Ascii.eqb c sep); rewrite IH; reflexivity.
Qed.

Lemma count_word (w : string) : isWord w = true -> count w "-" = O.
Proof.
  induction w as [| c w IH]; [reflexivity |].
  cbn. intros H. apply andb_true_iff in H as [Hc Hw].
  rewrite (alnum_not_hyphen c Hc). apply IH. exact Hw.
Qed.

Lemma count_Join (ws : list string) (w : string) :
  isWord w = true -> wordsOk ws = true ->
  count (Join (w :: ws) "-") "-" = List.length ws.
Proof.
  revert w. induction ws as [| w2 ws IH]; intros w Hw Hws.
  - cbn [Join]. apply count_word. exact Hw.
  - change (Join (w :: w2 :: ws) "-") with (w ++ "-" ++ Join (w2 :: ws) "-")%string.
    cbn in Hws. apply andb_true_iff in Hws as [Hw2 Hws].
    apply andb_true_iff in Hw2 as [_ Hw2].
    rewrite !count_app, (count_word w Hw), (IH w2 Hw2 Hws). reflexivity.
Qed.

Lemma count_substring (s : string) (n : nat) (sep : ascii) :
  (count (substring 0 n s) sep <= count s sep)%nat.
Proof.
  revert n. induction s as [| c s IH]; intros [| n]; cbn; try lia.
  specialize (IH n). destruct (Ascii.eqb c sep); lia.
Qed.

Lemma count_TrimRight (s : string) (cut sep : ascii) :
  (count (TrimRight s cut) sep <= count s sep)%nat.
Proof.
  induction s as [| c s IH]; cbn; [lia |].
  destruct (TrimRight s cut) as [| d t].
  - destruct (Ascii.eqb c cut); cbn in *; destruct (Ascii.eqb c sep); lia.
  - cbn [count] in *. destruct (Ascii.eqb c sep); lia.
Qed.

Lemma firstWords_count (s : string) (n : nat) :
  tidy s -> (count (Join (firstn (S n) (Split s "-")) "-") "-" <= n)%nat.
Proof.
  intros [-> | H]; [destruct n; cbn; lia |].
  destruct (Split_tidy s true H) as (w & ws & -> & Hw & Hne & Hws).
  cbn [firstn]. rewrite (count_Join _ w Hw (wordsOk_firstn n ws Hws)).
  rewrite length_firstn. lia.
Qed.

(** The text begins with a byte of the class. *)
Definition startsAlnum (s : string) : bool :=
  match s with
  | EmptyString => false
  | String c _ => isLowerAlnum c
  end.

(** Some byte of the text is in the class. *)
Fixpoint hasAlnum (s : string) : bool :=
  match s with
  | EmptyString => false
  | String c s' => isLowerAlnum c || hasAlnum s'
  end.

Lemma tidyFrom_starts (s : string) :
  tidyFrom s true = true -> startsAlnum s = true.
Proof.
  destruct s as [| c s]; cbn; [discriminate |].
  destruct (isLowerAlnum c); [reflexivity |].
  rewrite andb_false_r. discriminate.
Qed.

Lemma hasAlnum_replaceRuns (s : string) (inRun : bool) :
  hasAlnum (replaceRuns s inRun) = hasAlnum s.
Proof.
  revert inRun. induction s as [| c s IH]; intros inRun; [reflexivity |].
  cbn. destruct (isLowerAlnum c) eqn:Hc; cbn.
  - rewrite Hc. reflexivity.
  - destruct inRun; [apply IH |]. cbn. change (isLowerAlnum "-") with false.
    apply IH.
Qed.

Lemma hasAlnum_TrimRight (s : string) :
  hasAlnum (TrimRight s "-") = hasAlnum s.
Proof.
  induction s as [| c s IH]; [reflexivity |].
  cbn [TrimRight hasAlnum]. rewrite <- IH.
  destruct (TrimRight s "-") as [| d t]; [| reflexivity].
  destruct (Ascii.eqb_spec c "-") as [-> |]; reflexivity.
Qed.

Lemma hasAlnum_TrimLeft (s : string) :
  hasAlnum (TrimLeft s "-") = hasAlnum s.
Proof.
  induction s as [| c s IH]; [reflexivity |].
  cbn [TrimLeft]. destruct (Ascii.eqb_spec c "-") as [-> |]; [| reflexivity].
  rewrite IH. reflexivity.
Qed.

Lemma startsAlnum_hasAlnum (s : string) :
  startsAlnum s = true -> hasAlnum s = true.
Proof. destruct s as [| c s]; cbn; [discriminate | intros ->; reflexivity]. Qed.

Lemma firstWords_starts (s : string) (n : nat) :
  tidyFrom s true = true ->
  startsAlnum (Join (firstn (S n) (Split s "-")) "-") = true.
Proof.
  intros H. destruct (Split_tidy s true H) as (w & ws & -> & Hw & Hne & Hws).
  cbn [firstn]. destruct w as [| c w]; [exfalso; apply Hne; reflexivity |].
  cbn in Hw. apply andb_true_iff in Hw as [Hc _].
  destruct (firstn n ws); cbn; exact Hc.
Qed.

Lemma cut_starts (s : string) (n : nat) :
  startsAlnum s = true ->
  startsAlnum (TrimRight (substring 0 (S n) s) "-") = true.
Proof.
  destruct s as [| c s]; cbn; [discriminate |]. intros Hc.
  destruct (TrimRight (substring 0 n s) "-"); [| exact Hc].
  rewrite (alnum_not_hyphen c Hc). exact Hc.
Qed.

Lemma sanitizePrompt_tidy (ToLower : string -> string) (prompt : string) :
  tidy (sanitizePrompt ToLower prompt)
  /\ (String.length (sanitizePrompt ToLower prompt) <= 30)%nat
  /\ (count (sanitizePrompt ToLower prompt) "-" <= 3)%nat
  /\ startsAlnum (sanitizePrompt ToLower prompt) = hasAlnum (ToLower prompt).
Proof.
  unfold sanitizePrompt. cbv zeta.
  set (trimmed := Trim (replaceRuns (ToLower prompt) false) "-").
  assert (Ht : tidy trimmed).
  { apply Trim_tidy. apply replaceRuns_collapsed. }
  assert (Ha : hasAlnum trimmed = hasAlnum (ToLower prompt)).
  { unfold trimmed, Trim.
    rewrite hasAlnum_TrimLeft, hasAlnum_TrimRight, hasAlnum_replaceRuns.
    reflexivity. }
  rewrite <- Ha.
  set (words := if Nat.ltb 4 (List.length (Split trimmed "-"))
                then firstn 4 (Split trimmed "-") else Split trimmed "-").
  assert (Hwords : words = firstn 4 (Split trimmed "-")).
  { subst words. destruct (Nat.ltb 4 _) eqn:Hlen; [reflexivity |].
    apply Nat.ltb_ge in Hlen. symmetry. apply firstn_all2. exact Hlen. }
  assert (Hj : tidy (Join words "-")).
  { rewrite Hwords. apply firstWords_tidy. exact Ht. }
  assert (Hn : (count (Join words "-") "-" <= 3)%nat).
  { rewrite Hwords. apply firstWords_count. exact Ht. }
  assert (Hs : startsAlnum (Join words "-") = hasAlnum trimmed).
  { rewrite Hwords. destruct Ht as [-> | Ht]; [reflexivity |].
    rewrite (firstWords_starts trimmed 3 Ht). symmetry.
    apply startsAlnum_hasAlnum, tidyFrom_starts. exact Ht. }
  destruct (Nat.ltb MaxPromptLength (String.length (Join words "-"))) eqn:Hlong.
  - split; [| split; [| split]].
    + assert (Hc : collapsed (Join words "-") true = true
                   \/ Join words "-" = EmptyString).
      { destruct Hj as [-> | Hj]; [right; reflexivity |].
        left. apply tidyFrom_collapsed. exact Hj. }
      destruct Hc as [Hc | Hc].
      * destruct (TrimRight_tidy _ true
                    (collapsed_substring _ MaxPromptLength true Hc)) as [-> | H];
          [left; reflexivity | right; exact H].
      * rewrite Hc. left. reflexivity.
    + pose proof (length_TrimRight
                    (substring 0 MaxPromptLength (Join words "-")) "-").
      pose proof (length_substring (Join words "-") MaxPromptLength).
      unfold MaxPromptLength in *. lia.
    + pose proof (count_TrimRight
                    (substring 0 MaxPromptLength (Join words "-")) "-" "-").
      pose proof (count_substring (Join words "-") MaxPromptLength "-").
      lia.
    + rewrite <- Hs. destruct (startsAlnum (Join words "-")) eqn:Hst.
      * apply (cut_starts _ 29 Hst).
      * destruct (Join words "-") as [| c t] eqn:Hjw; [reflexivity |].
        destruct Hj as [Hj | Hj]; [discriminate Hj |].
        apply tidyFrom_starts in Hj. congruence.
  - apply Nat.ltb_ge in Hlong. unfold MaxPromptLength in Hlong.
    repeat split; assumption.
Qed.

Lemma tidyFrom_bytes (s : string) (prev : bool) (c : ascii) :
  tidyFrom s prev = true -> In c (list_ascii_of_string s) ->
  isLowerAlnum c = true \/ c = "-"%char.
Proof.
  revert prev. induction s as [| d s IH]; intros prev H Hin; [destruct Hin |].
  cbn in H, Hin. destruct (isLowerAlnum d) eqn:Hd.
  - destruct Hin as [<- | Hin]; [left; exact Hd | exact (IH false H Hin)].
  - destruct (Ascii.eqb_spec d "-") as [-> |]; [| discriminate H].
    destruct prev; [discriminate H |]. cbn in H.
    destruct Hin as [<- | Hin]; [right; reflexivity | exact (IH true H Hin)].
Qed.

Lemma tidyFrom_no_trailing (pre : string) (prev : bool) :
  tidyFrom (pre ++ "-") prev = false.
Proof.
  revert prev. induction pre as [| c pre IH]; intros prev.
  - cbn. change (isLowerAlnum "-") with false. cbn. apply andb_false_r.
  - cbn. destruct (isLowerAlnum c); [apply IH |].
    rewrite IH. apply andb_false_r.
Qed.

Lemma tidyFrom_no_double (pre post : string) (prev : bool) :
  tidyFrom (pre ++ "--" ++ post) prev = false.
Proof.
  revert prev. induction pre as [| c pre IH]; intros prev.
  - cbn. change (isLowerAlnum "-") with false. cbn. apply andb_false_r.
  - cbn [append tidyFrom]. destruct (isLowerAlnum c); [apply IH |].
    rewrite IH. apply andb_false_r.
Qed.

Lemma length_append (a b : string) :
  String.length (a ++ b) = (String.length a + String.length b)%nat.
Proof. induction a as [| c a IH]; cbn; [reflexivity | rewrite IH; reflexivity]. Qed.

(** X18.  Whatever the prompt, and whatever [strings.ToLower] makes of it,
    its sanitized form is fit for a session name: at most 30 bytes, all of
    them lower-case letters, digits or hyphens; no hyphen at either end and
    no two hyphens in a row; at most four words.  It is empty exactly when
    the lower-cased prompt has no byte of the class [a-z0-9]; otherwise it
    begins with one. *)
Theorem sanitizePrompt_session_safe :
  forall (ToLower : string -> string) (prompt : string),
    let name := sanitizePrompt ToLower prompt in
    (String.length name <= 30)%nat
    /\ (forall c, In c (list_ascii_of_string name) ->
                  isLowerAlnum c = true \/ c = "-"%char)
    /\ Strings.HasPrefix name "-" = false
    /\ (forall pre, name <> (pre ++ "-")%string)
    /\ Strings.Contains name "--" = false
    /\ (List.length (Split name "-") <= 4)%nat
    /\ (name = EmptyString <-> hasAlnum (ToLower prompt) = false)
    /\ startsAlnum name = hasAlnum (ToLower prompt).
Proof.
  intros ToLower prompt name.
  destruct (sanitizePrompt_tidy ToLower prompt) as (Ht & Hlen & Hn & Hs).
  fold name in Ht, Hlen, Hn, Hs.
  split; [exact Hlen |]. split; [| split; [| split; [| split; [| split; [| split]]]]].
  - intros c Hin. destruct Ht as [He | Ht]; [rewrite He in Hin; destruct Hin |].
    exact (tidyFrom_bytes name true c Ht Hin).
  - destruct Ht as [-> | Ht]; [reflexivity |].
    apply tidyFrom_starts in Ht. destruct name as [| c t]; [reflexivity |].
    cbn in Ht. cbn [Strings.HasPrefix].
    rewrite Ascii.eqb_sym, (alnum_not_hyphen c Ht). reflexivity.
  - intros pre Heq. destruct Ht as [He | Ht].
    + rewrite He in Heq. destruct pre; discriminate Heq.
    + rewrite Heq, tidyFrom_no_trailing in Ht. discriminate Ht.
  - destruct (Strings.Contains name "--") eqn:Hc; [| reflexivity].
    apply Contains_spec in Hc as (pre & post & Heq).
    destruct Ht as [He | Ht].
    + rewrite He in Heq. destruct pre; discriminate Heq.
    + rewrite Heq, tidyFrom_no_double in Ht. discriminate Ht.
  - rewrite length_Split. lia.
  - rewrite <- Hs. split.
    + intros ->. reflexivity.
    + intros Hno. destruct Ht as [He | Ht]; [exact He |].
      apply tidyFrom_starts in Ht. congruence.
  - exact Hs.
Qed.

(** X19.  A session name is the prefix, the timestamp and, when the
    lower-cased prompt has a byte of the class [a-z0-9], a hyphen and the
    sanitized prompt, and then it does not end in a hyphen; it is the prefix
    and the timestamp alone otherwise.  It is at most 31 bytes longer than
    the prefix and the timestamp. *)
Theorem GenerateSessionName_shape :
  forall (ToLower : string -> string) (timestamp prompt : string),
    (hasAlnum (ToLower prompt) = false ->
     GenerateSessionName ToLower timestamp prompt = SessionPrefix ++ timestamp)
    /\ (hasAlnum (ToLower prompt) = true ->
        GenerateSessionName ToLower timestamp prompt
        = SessionPrefix ++ timestamp ++ "-" ++ sanitizePrompt ToLower prompt
        /\ forall pre, GenerateSessionName ToLower timestamp prompt
                       <> (pre ++ "-")%string)
    /\ (String.length (GenerateSessionName ToLower timestamp prompt)
        <= String.length SessionPrefix + String.length timestamp + 31)%nat.
Proof.
  intros ToLower timestamp prompt.
  destruct (sanitizePrompt_tidy ToLower prompt) as (Ht & Hlen & _ & Hs).
  unfold GenerateSessionName. cbv zeta.
  destruct (sanitizePrompt ToLower prompt) as [| c t] eqn:Hname.
  - cbn [Strings.isEmpty startsAlnum] in *. split; [reflexivity |].
    split; [intros Habsurd; congruence |].
    rewrite length_append. lia.
  - cbn [Strings.isEmpty]. split; [| split].
    + intros Hno. rewrite Hno in Hs.
      destruct Ht as [Ht | Ht]; [discriminate Ht |].
      apply tidyFrom_starts in Ht. congruence.
    + intros _. split; [reflexivity |].
      intros pre Heq. destruct Ht as [Ht | Ht]; [discriminate Ht |].
      assert (Hend : exists pre', String c t = (pre' ++ "-")%string).
      { clear - Heq. unfold SessionPrefix in Heq.
        rewrite <- !append_assoc in Heq.
        remember (("cc-" ++ timestamp) ++ "-")%string as front eqn:Ef. clear Ef.
        remember (String c t) as name eqn:En.
        assert (Hne : name <> EmptyString) by (subst name; discriminate).
        clear En. revert pre Heq. induction front as [| d front IH]; intros pre Heq.
        - exists pre. exact Heq.
        - destruct pre as [| e pre]; cbn in Heq.
          + destruct front; [destruct name; [congruence | discriminate Heq] |
                             discriminate Heq].
          + injection Heq as _ Heq. exact (IH pre Heq). }
      destruct Hend as [pre' Hpre'].
      rewrite Hpre', tidyFrom_no_trailing in Ht. discriminate Ht.
    + rewrite !length_append. cbn [String.length] in *. lia.
Qed.

End SessionNames.

(** [strings.ToLower] on texts of ASCII bytes. *)
Definition asciiToLower (s : string) : string :=
  string_of_list_ascii
    (map (fun c => let n := nat_of_ascii c in
                   if Nat.leb 65 n && Nat.leb n 90 then ascii_of_nat (n + 32)
                   else c)
         (list_ascii_of_string s)).

Lemma sanitizePrompt_session_safe_witness :
  Tmux.sanitizePrompt asciiToLower "Fix ALL bugs!!!" = "fix-all-bugs"
  /\ (String.length (Tmux.sanitizePrompt asciiToLower "Fix ALL bugs!!!") <= 30)%nat
  /\ Strings.Contains (Tmux.sanitizePrompt asciiToLower "Fix ALL bugs!!!") "--"
     = false.
Proof.
  split; [reflexivity |].
  destruct (sanitizePrompt_session_safe asciiToLower "Fix ALL bugs!!!")
    as (Hlen & _ & _ & _ & Hdouble & _).
  split; [exact Hlen | exact Hdouble].
Defined.

Lemma GenerateSessionName_shape_witness :
  Tmux.GenerateSessionName asciiToLower "250115-1030" "!!!" = "cc-250115-1030"
  /\ Tmux.GenerateSessionName asciiToLower "250115-1030" "Fix ALL bugs!!!"
     = "cc-250115-1030-fix-all-bugs".
Proof.
  destruct (GenerateSessionName_shape asciiToLower "250115-1030" "!!!")
    as (Hnone & _ & _).
  destruct (GenerateSessionName_shape asciiToLower "250115-1030" "Fix ALL bugs!!!")
    as (_ & Hsome & _).
  split; [exact (Hnone eq_refl) | exact (proj1 (Hsome eq_refl))].
Defined.

(** ** Package version: comparing releases *)

Module Version.
Import GoStrings.

(** [strings.TrimPrefix(s, prefix)]. *)
Definition TrimPrefix (s prefix : string) : string :=
  if Strings.HasPrefix s prefix
  then substring (String.length prefix)
                 (String.length s - String.length prefix) s
  else s.

(** The class [\d]. *)
Definition isDigit (c : ascii) : bool :=
  let n := nat_of_ascii c in Nat.leb 48 n && Nat.leb n 57.

(** The match of [^(\d+)] in [s]; empty when there is none. *)
Fixpoint leadingDigits (s : string) : string :=
  match s with
  | EmptyString => EmptyString
  | String c s' => if isDigit c then String c (leadingDigits s') else EmptyString
  end.

(** The number written by the digits [s], after the digits read as [acc]. *)
Fixpoint decimal (s : string) (acc : Z) : Z :=
  match s with
  | EmptyString => acc
  | String c s' => decimal s' (10 * acc + (Z.of_nat (nat_of_ascii c) - 48))
  end.

(** The value returned by [strconv.Atoi] for a run of digits: the number, or
    the largest [int] beside the range error, which [parseSemver] drops. *)
Definition Atoi (digits : string) : Z :=
  Z.min (decimal digits 0) GoInt.MaxInt64.

(** One run of the loop body of [parseSemver], for index [i]. *)
Definition component (parts : list string) (i : nat) : Z :=
  match nth_error parts i with
  | Some part =>
      let matched := leadingDigits part in
      if Strings.isEmpty matched then 0 else Atoi matched
  | None => 0
  end.

(** [parseSemver(v)]: the array [major, minor, patch]. *)
Definition parseSemver (v : string) : list Z :=
  let parts := Split v "." in
  map (component parts) [0; 1; 2]%nat.

(** The loop of [Compare] over the indexes of the two arrays. *)
Fixpoint compareParts (p1 p2 : list Z) : Z :=
  match p1, p2 with
  | a :: r1, b :: r2 =>
      if b <? a then 1
      else if a <? b then -1
      else compareParts r1 r2
  | _, _ => 0
  end.

(** [Compare(v1, v2)]. *)
Definition Compare (v1 v2 : string) : Z :=
  let v1 := TrimPrefix v1 "v" in
  let v2 := TrimPrefix v2 "v" in
  let v1 := hd EmptyString (Split v1 "-") in
  let v2 := hd EmptyString (Split v2 "-") in
  let p1 := parseSemver v1 in
  let p2 := parseSemver v2 in
  compareParts p1 p2.

End Version.

Section Versions.
Import GoStrings Version.

Lemma compareParts_refl (p : list Z) : compareParts p p = 0.
Proof.
  induction p as [| a p IH]; [reflexivity |].
  cbn. rewrite Z.ltb_irrefl. exact IH.
Qed.

Lemma compareParts_opp (p1 p2 : list Z) :
  List.length p1 = List.length p2 ->
  compareParts p2 p1 = - compareParts p1 p2.
Proof.
  revert p2. induction p1 as [| a p1 IH]; intros [| b p2] Hlen;
    try reflexivity; try discriminate Hlen.
  cbn. injection Hlen as Hlen.
  destruct (Z.ltb_spec b a), (Z.ltb_spec a b); try lia; try reflexivity.
  apply IH. exact Hlen.
Qed.

Lemma compareParts_range (p1 p2 : list Z) :
  compareParts p1 p2 = -1 \/ compareParts p1 p2 = 0 \/ compareParts p1 p2 = 1.
Proof.
  revert p2. induction p1 as [| a p1 IH]; intros [| b p2]; cbn; auto.
  destruct (b <? a); [auto |]. destruct (a <? b); [auto |]. apply IH.
Qed.

Lemma compareParts_trans (p1 p2 p3 : list Z) :
  List.length p1 = List.length p2 -> List.length p2 = List.length p3 ->
  compareParts p1 p2 <= 0 -> compareParts p2 p3 <= 0 ->
  compareParts p1 p3 <= 0
  /\ (compareParts p1 p2 < 0 \/ compareParts p2 p3 < 0 -> compareParts p1 p3 < 0).
Proof.
  revert p2 p3. induction p1 as [| a p1 IH]; intros [| b p2] [| c p3] H12 H23;
    try discriminate H12; try discriminate H23; cbn; try lia.
  injection H12 as H12. injection H23 as H23.
  destruct (Z.ltb_spec b a), (Z.ltb_spec a b), (Z.ltb_spec c b),
    (Z.ltb_spec b c), (Z.ltb_spec c a), (Z.ltb_spec a c); try lia.
  apply IH; assumption.
Qed.

Lemma parseSemver_length (v : string) : List.length (parseSemver v) = 3%nat.
Proof. reflexivity. Qed.

(** X20.  [Compare] orders the releases: it answers -1, 0 or 1; a release
    equals itself; swapping the arguments flips the sign; and the order it
    gives is transitive. *)
Theorem Compare_is_an_order :
  forall (v1 v2 v3 : string),
    (Compare v1 v2 = -1 \/ Compare v1 v2 = 0 \/ Compare v1 v2 = 1)
    /\ Compare v1 v1 = 0
    /\ Compare v2 v1 = - Compare v1 v2
    /\ (Compare v1 v2 <= 0 -> Compare v2 v3 <= 0 ->
        Compare v1 v3 <= 0
        /\ (Compare v1 v2 < 0 \/ Compare v2 v3 < 0 -> Compare v1 v3 < 0)).
Proof.
  intros v1 v2 v3. unfold Compare. cbv zeta.
  split; [apply compareParts_range |].
  split; [apply compareParts_refl |].
  split; [apply compareParts_opp; reflexivity |].
  apply compareParts_trans; reflexivity.
Qed.

Lemma Split_hd_without (a rest : string) (sep : ascii) :
  without sep a = true ->
  hd EmptyString (Split (a ++ String sep rest) sep) = a
  /\ hd EmptyString (Split a sep) = a.
Proof.
  induction a as [| c a IH]; intros H.
  - cbn. rewrite Ascii.eqb_refl. split; reflexivity.
  - cbn in H. apply andb_true_iff in H as [Hc Ha].
    apply negb_true_iff in Hc. destruct (IH Ha) as [IH1 IH2].
    cbn [append Split]. rewrite Hc. split.
    + destruct (Split (a ++ String sep rest) sep); cbn in *;
        [destruct a; [reflexivity | discriminate IH1] | rewrite IH1; reflexivity].
    + destruct (Split a sep); cbn in *;
        [destruct a; [reflexivity | discriminate IH2] | rewrite IH2; reflexivity].
Qed.

Lemma substring_all (s : string) : substring 0 (String.length s) s = s.
Proof. induction s as [| c s IH]; cbn; [reflexivity | rewrite IH; reflexivity]. Qed.

Lemma TrimPrefix_v (s : string) :
  TrimPrefix (String "v" s) "v" = s.
Proof.
  unfold TrimPrefix. cbn [Strings.HasPrefix]. rewrite Ascii.eqb_refl.
  destruct s; cbn [andb Strings.HasPrefix String.length Nat.sub substring];
    [reflexivity |].
  rewrite substring_all. reflexivity.
Qed.

Lemma TrimPrefix_app (a t : string) :
  a <> EmptyString -> TrimPrefix (a ++ t) "v" = (TrimPrefix a "v" ++ t)%string.
Proof.
  destruct a as [| c a]; [congruence |]. intros _.
  destruct (Ascii.eqb_spec c "v") as [-> | Hc].
  - cbn [append]. rewrite !TrimPrefix_v. reflexivity.
  - unfold TrimPrefix. cbn [append Strings.HasPrefix].
    apply Ascii.eqb_neq in Hc. rewrite Ascii.eqb_sym, Hc. reflexivity.
Qed.

Lemma without_TrimPrefix (a : string) (sep : ascii) :
  without sep a = true -> without sep (TrimPrefix a "v") = true.
Proof.
  destruct a as [| c a]; [intros _; reflexivity |].
  destruct (Ascii.eqb_spec c "v") as [-> | Hc].
  - rewrite TrimPrefix_v. cbn. intros H. apply andb_true_iff in H as [_ H]. exact H.
  - unfold TrimPrefix. cbn [Strings.HasPrefix].
    apply Ascii.eqb_neq in Hc. rewrite Ascii.eqb_sym, Hc. intros H. exact H.
Qed.

(** X21.  [Compare] does not see a leading [v] nor a pre-release suffix: a
    version compares like the same version with a [v] before it, when it has
    none already, and like the same version followed by a hyphen and any
    text, when it has no hyphen already.  So a release and its pre-releases
    compare as equal. *)
Theorem Compare_ignores_v_and_prerelease :
  forall (v other suffix : string),
    (Strings.HasPrefix v "v" = false ->
     Compare (String "v" v) other = Compare v other
     /\ Compare other (String "v" v) = Compare other v)
    /\ (without "-" v = true ->
        Compare (v ++ "-" ++ suffix) other = Compare v other
        /\ Compare other (v ++ "-" ++ suffix) = Compare other v
        /\ Compare (v ++ "-" ++ suffix) v = 0).
Proof.
  intros v other suffix. split.
  - intros Hv.
    assert (Hkey : TrimPrefix (String "v" v) "v" = TrimPrefix v "v").
    { rewrite TrimPrefix_v. unfold TrimPrefix. rewrite Hv. reflexivity. }
    unfold Compare. cbv zeta. rewrite Hkey. split; reflexivity.
  - intros Hv.
    assert (Hkey : hd EmptyString (Split (TrimPrefix (v ++ "-" ++ suffix) "v") "-")
                   = hd EmptyString (Split (TrimPrefix v "v") "-")).
    { destruct v as [| c v].
      - cbn. reflexivity.
      - rewrite TrimPrefix_app by discriminate.
        pose proof (without_TrimPrefix _ "-" Hv) as Ht.
        cbn [append].
        destruct (Split_hd_without (TrimPrefix (String c v) "v") suffix "-" Ht)
          as [H1 H2].
        rewrite H1, H2. reflexivity. }
    unfold Compare. cbv zeta. rewrite Hkey.
    split; [reflexivity |]. split; [reflexivity |]. apply compareParts_refl.
Qed.

End Versions.

Lemma Compare_is_an_order_witness :
  Version.Compare "1.9.3" "v1.10.0" <= 0
  /\ Version.Compare "v1.10.0" "2.0.0-rc1" <= 0
  /\ Version.Compare "1.9.3" "2.0.0-rc1" < 0.
Proof.
  assert (H12 : Version.Compare "1.9.3" "v1.10.0" <= 0) by discriminate.
  assert (H23 : Version.Compare "v1.10.0" "2.0.0-rc1" <= 0) by discriminate.
  split; [exact H12 |]. split; [exact H23 |].
  assert (Hlt : Version.Compare "1.9.3" "v1.10.0" < 0) by reflexivity.
  exact (proj2 (proj2 (proj2 (proj2 (Compare_is_an_order
                                       "1.9.3" "v1.10.0" "2.0.0-rc1")))
                      H12 H23)
               (or_introl Hlt)).
Defined.

Lemma Compare_ignores_v_and_prerelease_witness :
  Version.Compare ("1.2.3" ++ "-" ++ "rc1") "1.2.3" = 0
  /\ Version.Compare (String "v" "1.2.3") "1.10.0" = Version.Compare "1.2.3" "1.10.0".
Proof.
  destruct (Compare_ignores_v_and_prerelease "1.2.3" "1.10.0" "rc1") as [Hv Hpre].
  split.
  - exact (proj2 (proj2 (Hpre eq_refl))).
  - exact (proj1 (Hv eq_refl)).
Defined.
